(** * pychemqt: thermodynamic derivative engine, ancillary equations,
      property catalogs, state serialization and range checking

    Shallow embedding of
      - [lib/thermo.py]   (classes Thermo, ThermoWater, ThermoAdvanced,
                           ThermoRefProp),
      - [lib/utilities.py] (functions SimpleEq and spreadsheetColumn),
      - [tools/UI_Tables/lib.py] (functions getMethod, calcPoint and
                           get_propiedades).

    Numbers.  Python floats are idealised as the real numbers [R]; the
    only numeric failure that is kept is the one Python raises itself
    on floats, [ZeroDivisionError], in a division and in a power with a
    zero base and a negative exponent.  The power keeps its third
    outcome as well, the complex number of a negative base with an
    exponent that is not whole.  Rounding, overflow, infinities and NaN
    are outside the model.

    Exceptions.  A Python call either returns a value or raises; this is
    the type [result], a small error monad. *)

From Stdlib Require Import Reals Lra.
From stdpp Require Import base option list strings gmap.

(** ** Exceptions and the error monad *)

Inductive exn : Type :=
  | KeyError
  | TypeError
  | ZeroDivisionError
  | IndexError
  | NameError
  | AttributeError
  | NoOptionError.

Inductive result (A : Type) : Type :=
  | Ok (a : A)
  | Raise (e : exn).
Arguments Ok {A} a.
Arguments Raise {A} e.

#[global] Instance result_ret : MRet result := fun A a => Ok a.
#[global] Instance result_bind : MBind result := fun A B f m =>
  match m with
  | Ok a => f a
  | Raise e => Raise e
  end.

#[global] Instance exn_eq_dec : EqDecision exn.
Proof. solve_decision. Defined.

(** Decidable comparisons on [R], used as the tests of [if]. *)
#[global] Instance R_eq_dec : EqDecision R := Req_dec_T.
#[global] Instance R_lt_dec : RelDecision Rlt := Rlt_dec.
#[global] Instance R_le_dec : RelDecision Rle := Rle_dec.
#[global] Instance R_gt_dec : RelDecision Rgt := Rgt_dec.
#[global] Instance R_inhabited : Inhabited R := populate 0%R.

(** [a / b] on floats. *)
Definition pydiv (a b : R) : result R :=
  if decide (b = 0%R) then Raise ZeroDivisionError else Ok (a / b)%R.

(** A dict display [{k1: v1, ..., kn: vn}]: the items are stored from
    left to right. *)
Definition pydict {V : Type} (items : list (string * V)) : gmap string V :=
  fold_left (fun d kv => <[kv.1 := kv.2]> d) items ∅.

(** [d[k]] *)
Definition getitem {V : Type} (d : gmap string V) (k : string) : result V :=
  match d !! k with
  | Some v => Ok v
  | None => Raise KeyError
  end.

(** ** lib/thermo.py: [Thermo.derivative] *)

Module Derivative.
Local Open Scope R_scope.

(** The attributes of [self] and of [fase] that [derivative] reads. *)
Record Self : Type := { P : R; T : R }.
Record Fase : Type := { v : R; alfav : R; kappa : R; cp : R; s : R }.

(** The dict [dT]; building it divides [fase.cp] by [self.T]. *)
Definition build_dT (self : Self) (fase : Fase) : result (gmap string R) :=
  cp_T ← pydiv (cp fase) (T self);
  mret (pydict
    [("P", 0);
     ("T", 1);
     ("v", v fase * alfav fase);
     ("u", cp fase - P self * v fase * alfav fase);
     ("h", cp fase);
     ("s", cp_T);
     ("g", - s fase);
     ("a", - P self * v fase * alfav fase - s fase)]).

(** The dict [dP]. *)
Definition build_dP (self : Self) (fase : Fase) : gmap string R :=
  pydict
    [("P", 1);
     ("T", 0);
     ("v", - v fase * kappa fase);
     ("u", v fase * (P self * kappa fase - T self * alfav fase));
     ("h", v fase * (1 - T self * alfav fase));
     ("s", - v fase * alfav fase);
     ("g", v fase);
     ("a", P self * v fase * kappa fase)].

(** [derivative(self, z, x, y, fase)]; the subscripts are evaluated from
    left to right, the numerator before the denominator. *)
Definition derivative (self : Self) (z x y : string) (fase : Fase)
  : result R :=
  dT ← build_dT self fase;
  let dP := build_dP self fase in
  dPz ← getitem dP z;
  dTy ← getitem dT y;
  dTz ← getitem dT z;
  dPy ← getitem dP y;
  dPx ← getitem dP x;
  dTy' ← getitem dT y;
  dTx ← getitem dT x;
  dPy' ← getitem dP y;
  pydiv (dPz * dTy - dTz * dPy) (dPx * dTy' - dTx * dPy').

(** The eight base variables. *)
Definition base_variables : list string :=
  ["P"; "T"; "v"; "u"; "h"; "s"; "g"; "a"].

(** The Jacobian-like combination [dP[a]*dT[b] - dT[a]*dP[b]] read from
    two tables. *)
Definition jacobian (dT dP : gmap string R) (a b : string) : R :=
  (dP !!! a) * (dT !!! b) - (dT !!! a) * (dP !!! b).

End Derivative.

(** ** Python values

    [lib/unidades.py] is an external collaborator: each of its classes
    is a subclass of [float] that tags a magnitude with a physical
    unit-kind.  Only the kinds named in the modelled code are listed. *)

Inductive unit : Type :=
  | Temperature | Dimensionless | Pressure | Density | MolarDensity
  | SpecificVolume | Enthalpy | MolarEnthalpy | SpecificHeat
  | MolarSpecificHeat | Speed | InvTemperature | InvPressure
  | TemperaturePressure | EnthalpyPressure | Viscosity
  | ThermalConductivity | Diffusivity | Tension | SpecificVolume_square
  | PressureTemperature | PressureDensity | DensityTemperature
  | DensityPressure | EnthalpyDensity | VolFlow | MassFlow | MolarFlow.

#[global] Instance unit_eq_dec : EqDecision unit.
Proof. solve_decision. Defined.

(** A float is [VNum None x]; an instance of the unidades class [u] is
    [VNum (Some u) x]; a list holds floats or unidades instances. *)
Inductive pyval : Type :=
  | VInt (z : Z)
  | VNum (u : option unit) (x : R)
  | VList (l : list (option unit * R)).

(** Iterating over a value, as [for x in v] does. *)
Definition pyiter (v : pyval) : result (list (option unit * R)) :=
  match v with
  | VList l => Ok l
  | _ => Raise TypeError
  end.

(** [v == k] for an integer literal [k]. *)
Definition eq_int (v : pyval) (k : Z) : bool :=
  match v with
  | VInt z => bool_decide (z = k)
  | VNum _ x => bool_decide (x = IZR k)
  | VList _ => false
  end.

(** ** lib/utilities.py: [SimpleEq] *)

Module Utilities.

(** A number as [SimpleEq] meets it: a float, or the complex number
    that [**] returns for a negative base and an exponent that is not a
    whole number. *)
Inductive number : Type :=
  | Float (x : R)
  | Complex (re im : R).

Section Numbers.
Local Open Scope R_scope.

(** [a + b], [n * a] and [a * q] for floats [n] and [q]. *)
Definition num_add (a b : number) : number :=
  match a, b with
  | Float x, Float y => Float (x + y)
  | Float x, Complex re im => Complex (x + re) im
  | Complex re im, Float y => Complex (re + y) im
  | Complex re1 im1, Complex re2 im2 => Complex (re1 + re2) (im1 + im2)
  end.

Definition num_scale (n : R) (a : number) : number :=
  match a with
  | Float x => Float (n * x)
  | Complex re im => Complex (n * re) (n * im)
  end.

Definition num_times (a : number) (q : R) : number :=
  match a with
  | Float x => Float (x * q)
  | Complex re im => Complex (re * q) (im * q)
  end.

(** [math.exp(a)] takes a float and rejects a complex number. *)
Definition math_exp (a : number) : result number :=
  match a with
  | Float x => Ok (Float (exp x))
  | Complex _ _ => Raise TypeError
  end.

(** [y] is a whole number: [y == floor(y)]. *)
Definition whole (y : R) : Prop := y = IZR (Int_part y).

(** The arguments on which [x ** y] is a float. *)
Definition real_power (x y : R) : Prop :=
  ~ (x = 0 /\ y < 0) /\ ~ (x < 0 /\ ~ whole y).

End Numbers.

Section SimpleEq.
Local Open Scope R_scope.

(** The values of [x ** y]: the float, for the arguments on which
    Python returns a float, and the real and imaginary parts of the
    complex number, for those on which it returns one.  Which outcome
    occurs is fixed by [py_pow]. *)
Variable float_pow : R -> R -> R.
Variable complex_pow : R -> R -> R * R.

(** [x ** y] on floats: a zero base with a negative exponent raises
    ZeroDivisionError; a negative base with an exponent that is not a
    whole number gives a complex number. *)
Definition py_pow (x y : R) : result number :=
  if bool_decide (x = 0 /\ y < 0) then Raise ZeroDivisionError
  else if bool_decide (x < 0 /\ ~ whole y)
       then Ok (Complex (complex_pow x y).1 (complex_pow x y).2)
       else Ok (Float (float_pow x y)).

(** The loop [for n, t in zip(coef["n"], coef["t"]): pr += n*Tita**t]. *)
Fixpoint accumulate_loop (Tita : R)
    (pairs : list ((option unit * R) * (option unit * R))) (pr : number)
  : result number :=
  match pairs with
  | [] => Ok pr
  | nt :: rest =>
      p ← py_pow Tita nt.2.2;
      accumulate_loop Tita rest (num_add pr (num_scale nt.1.2 p))
  end.

Definition accumulate (Tita : R) (ns ts : list (option unit * R))
  : result number :=
  accumulate_loop Tita (zip ns ts) (Float 0).

Definition SimpleEq (Tc T : R) (coef : gmap string pyval) : result number :=
  T_Tc ← pydiv T Tc;
  let Tita := 1 - T_Tc in
  n ← getitem coef "n";
  t ← getitem coef "t";
  ns ← pyiter n;
  ts ← pyiter t;
  pr ← accumulate Tita ns ts;
  eq1 ← getitem coef "eq";
  let pr := if eq_int eq1 1 then num_add pr (Float 1) else pr in
  eq2 ← getitem coef "eq";
  pr ← (if eq_int eq2 3
        then (Tc_T ← pydiv Tc T; mret (num_times pr Tc_T))
        else mret pr);
  eq3 ← getitem coef "eq";
  if eq_int eq3 2 || eq_int eq3 3 then math_exp pr else mret pr.

End SimpleEq.

(** The sum [Σ nᵢ·θ^tᵢ] over paired coefficients and exponents. *)
Fixpoint theta_sum (float_pow : R -> R -> R) (theta : R) (ns ts : list R)
  : R :=
  match ns, ts with
  | n :: ns', t :: ts' =>
      (n * float_pow theta t + theta_sum float_pow theta ns' ts')%R
  | _, _ => 0%R
  end.

(** The exponents that the loop meets: those paired with a
    coefficient. *)
Definition exponents (ns ts : list (option unit * R)) : list R :=
  (fun nt : (option unit * R) * (option unit * R) => nt.2.2) <$> zip ns ts.

End Utilities.

(** ** lib/thermo.py: the property catalogs *)

Module Catalog.

(** [tools.qt.tr] translates a display text; the source text stands for
    its translation. *)
Definition tr (context text : string) : string := text.

(** The classes of the Thermo family. *)
Inductive cls : Type := Thermo | ThermoWater | ThermoAdvanced | ThermoRefProp.

(** A catalog entry [(name, key, unit)]. *)
Definition property : Type := string * string * unit.

(** [l.insert(i, x)]: a negative index counts from the end, and an index
    beyond either end is clamped. *)
Definition py_insert {A : Type} (i : Z) (x : A) (l : list A) : list A :=
  let n := Z.of_nat (length l) in
  let j := if bool_decide (i < 0)%Z then Z.max 0 (i + n) else Z.min i n in
  take (Z.to_nat j) l ++ x :: drop (Z.to_nat j) l.

(** The list [l] of [Thermo.properties]. *)
Definition Thermo_properties : list property :=
  [(tr "pychemqt" "Temperature", "T", Temperature);
   (tr "pychemqt" "Reduced temperature", "Tr", Dimensionless);
   (tr "pychemqt" "Pressure", "P", Pressure);
   (tr "pychemqt" "Reduced Pressure", "Pr", Dimensionless);
   (tr "pychemqt" "Quality", "x", Dimensionless);
   (tr "pychemqt" "Density", "rho", Density);
   (tr "pychemqt" "Molar Density", "rhoM", MolarDensity);
   (tr "pychemqt" "Volume", "v", SpecificVolume);
   (tr "pychemqt" "Enthalpy", "h", Enthalpy);
   (tr "pychemqt" "Molar Enthalpy", "hM", MolarEnthalpy);
   (tr "pychemqt" "Entropy", "s", SpecificHeat);
   (tr "pychemqt" "Molar Entropy", "sM", MolarSpecificHeat);
   (tr "pychemqt" "Internal Energy", "u", Enthalpy);
   (tr "pychemqt" "Molar Internal Energy", "uM", MolarEnthalpy);
   (tr "pychemqt" "Helmholtz Free Energy", "a", Enthalpy);
   (tr "pychemqt" "Molar Helmholtz Free Energy", "aM", MolarEnthalpy);
   (tr "pychemqt" "Gibbs Free Energy", "g", Enthalpy);
   (tr "pychemqt" "Molar Gibbs Free Energy", "gM", MolarEnthalpy);
   (tr "pychemqt" "Specific isochoric heat capacity", "cv", SpecificHeat);
   (tr "pychemqt" "Molar Specific isochoric heat capacity", "cvM", MolarSpecificHeat);
   (tr "pychemqt" "Specific isobaric heat capacity", "cp", SpecificHeat);
   (tr "pychemqt" "Molar Specific isobaric heat capacity", "cpM", MolarSpecificHeat);
   (tr "pychemqt" "Heat capacities ratio", "cp_cv", Dimensionless);
   (tr "pychemqt" "Speed sound", "w", Speed);
   (tr "pychemqt" "Compresibility", "Z", Dimensionless);
   (tr "pychemqt" "Fugacity coefficient", "fi", Dimensionless);
   (tr "pychemqt" "Fugacity", "f", Pressure);
   (tr "pychemqt" "Isoentropic exponent", "gamma", Dimensionless);
   (tr "pychemqt" "Volume Expansivity", "alfav", InvTemperature);
   (tr "pychemqt" "Isothermal compresibility", "kappa", InvPressure);
   (tr "pychemqt" "Adiabatic compresibility", "kappas", InvPressure);
   (tr "pychemqt" "Relative pressure coefficient", "alfap", InvTemperature);
   (tr "pychemqt" "Isothermal stress coefficient", "betap", Density);
   (tr "pychemqt" "Joule-Thomson coefficient", "joule", TemperaturePressure);
   (tr "pychemqt" "Isothermal throttling coefficient", "deltat", EnthalpyPressure);
   (tr "pychemqt" "Vaporization heat", "Hvap", Enthalpy);
   (tr "pychemqt" "Vaporization entropy", "Svap", SpecificHeat);
   (tr "pychemqt" "Viscosity", "mu", Viscosity);
   (tr "pychemqt" "Thermal conductivity", "k", ThermalConductivity);
   (tr "pychemqt" "Kinematic viscosity", "nu", Diffusivity);
   (tr "pychemqt" "Thermal diffusivity", "alfa", Diffusivity);
   (tr "pychemqt" "Surface tension", "sigma", Tension);
   (tr "pychemqt" "Prandtl number", "Prandt", Dimensionless);
   (tr "pychemqt" "Ideal gas Specific volume", "v0", SpecificVolume);
   (tr "pychemqt" "Ideal gas Density", "rho0", Density);
   (tr "pychemqt" "Ideal gas Specific enthalpy", "h0", Enthalpy);
   (tr "pychemqt" "Ideal gas Specific internal energy", "u0", Enthalpy);
   (tr "pychemqt" "Ideal gas Specific entropy", "s0", SpecificHeat);
   (tr "pychemqt" "Ideal gas Specific Helmholtz free energy", "a0", Enthalpy);
   (tr "pychemqt" "Ideal gas Specific Gibbs free energy", "g0", Enthalpy);
   (tr "pychemqt" "Ideal gas Specific isobaric heat capacity", "cp0", SpecificHeat);
   (tr "pychemqt" "Ideal gas Specific isochoric heat capacity", "cv0", SpecificHeat);
   (tr "pychemqt" "Ideal gas heat capacities ratio", "cp0_cv", Dimensionless);
   (tr "pychemqt" "Ideal gas Isoentropic exponent", "gamma0", Dimensionless)].

(** The list [l] of [ThermoWater.properties]. *)
Definition ThermoWater_new : list property :=
  [(tr "pychemqt" "Dielectric constant", "epsilon", Dimensionless);
   (tr "pychemqt" "Refractive index", "n", Dimensionless)].

(** The list [l] of [ThermoAdvanced.properties]. *)
Definition ThermoAdvanced_new : list property :=
  [(tr "pychemqt" "Isentropic temperature-pressure", "betas", TemperaturePressure);
   (tr "pychemqt" "Gruneisen parameter", "Gruneisen", Dimensionless);
   (tr "pychemqt" "2nd virial coefficient", "virialB", SpecificVolume);
   (tr "pychemqt" "3er virial coefficient", "virialC", SpecificVolume_square);
   ("(dp/dT)_rho", "dpdT_rho", PressureTemperature);
   ("(dp/drho)_T", "dpdrho_T", PressureDensity);
   ("(drho/dT)_P", "drhodT_P", DensityTemperature);
   ("(drho/dP)_T", "drhodP_T", DensityPressure);
   ("(dh/dT)_rho", "dhdT_rho", SpecificHeat);
   ("(dh/dP)_T", "dhdP_T", EnthalpyPressure);
   ("(dh/dT)_P", "dhdT_P", SpecificHeat);
   ("(dh/drho)_T", "dhdrho_T", EnthalpyDensity);
   ("(dh/dP)_rho", "dhdP_rho", EnthalpyPressure);
   (tr "pychemqt" "Isothermal expansion coefficient", "kt", Dimensionless);
   (tr "pychemqt" "Isentropic expansion coefficient", "ks", Dimensionless);
   (tr "pychemqt" "Adiabatic bulk modulus", "Ks", Pressure);
   (tr "pychemqt" "Isothermal bulk modulus", "Kt", Pressure);
   (tr "pychemqt" "Internal pressure", "IntP", Pressure);
   (tr "pychemqt" "Negative reciprocal temperature", "invT", InvTemperature);
   (tr "pychemqt" "Specific heat input", "hInput", Enthalpy);
   (tr "pychemqt" "Dielectric constant", "epsilon", Dimensionless)].

(** The list [l] of [ThermoRefProp.properties]. *)
Definition ThermoRefProp_new : list property :=
  [(tr "pychemqt" "Ideal Pressure", "P0", Pressure);
   (tr "pychemqt" "Residual Pressure", "P_Pideal", Pressure);
   (tr "pychemqt" "K value", "K", Dimensionless);
   (tr "pychemqt" "Heat Capacity along the saturation line", "csat", SpecificHeat);
   ("dP/dT [sat]", "dpdt_sat", PressureTemperature);
   (tr "pychemqt" "Cv two phases", "cv2p", SpecificHeat);
   (tr "pychemqt" "Excess volume", "vE", SpecificVolume);
   (tr "pychemqt" "Excess internal energy", "uE", Enthalpy);
   (tr "pychemqt" "Excess enthalpy", "hE", Enthalpy);
   (tr "pychemqt" "Excess entropy", "sE", SpecificHeat);
   (tr "pychemqt" "Excess Helmholtz energy", "aE", Enthalpy);
   (tr "pychemqt" "Excess Gibbs energy", "gE", Enthalpy);
   (tr "pychemqt" "Residual pressure", "pr", SpecificVolume);
   (tr "pychemqt" "Residual internal energy", "ur", Enthalpy);
   (tr "pychemqt" "Residual enthalpy", "hr", Enthalpy);
   (tr "pychemqt" "Residual entropy", "sr", SpecificHeat);
   (tr "pychemqt" "Residual Helmholtz energy", "ar", Enthalpy);
   (tr "pychemqt" "Residual Gibbs energy", "gr", Enthalpy);
   (tr "pychemqt" "Residual isobaric heat capacity", "cpr", SpecificHeat);
   (tr "pychemqt" "Residual isochoric heat capacity", "cvr", SpecificHeat);
   (tr "pychemqt" "Supercompressibility factor", "fpv", Dimensionless);
   (tr "pychemqt" "Chemical potential", "chempot", Enthalpy);
   (tr "pychemqt" "Fourth virial coefficient", "virialD", Dimensionless);
   (tr "pychemqt" "Second acoustic virial coefficient", "virialBa", SpecificVolume);
   (tr "pychemqt" "Third acoustic virial coefficient", "virialCa", SpecificVolume_square);
   ("dC/dT", "dCdt", Dimensionless);
   ("d²C/dT²", "dCdt2", Dimensionless);
   ("dB/dT", "dBdt", Dimensionless);
   ("b12", "b12", SpecificVolume);
   (tr "pychemqt" "Critical flow factor", "cstar", Dimensionless)].

(** [cls.properties()]: a subclass copies the catalog of its parent and
    inserts or appends its own entries one by one. *)
Definition ThermoWater_properties : list property :=
  fold_left (fun prop p => py_insert (-11) p prop)
            ThermoWater_new Thermo_properties.

Definition ThermoAdvanced_properties : list property :=
  fold_left (fun prop p => py_insert 34 p prop)
            ThermoAdvanced_new Thermo_properties.

Definition ThermoRefProp_properties : list property :=
  fold_left (fun prop p => prop ++ [p])
            ThermoRefProp_new ThermoAdvanced_properties.

Definition properties (c : cls) : list property :=
  match c with
  | Thermo => Thermo_properties
  | ThermoWater => ThermoWater_properties
  | ThermoAdvanced => ThermoAdvanced_properties
  | ThermoRefProp => ThermoRefProp_properties
  end.

Definition propertiesName (c : cls) : list string :=
  map (fun prop : property => prop.1.1) (properties c).

Definition propertiesKey (c : cls) : list string :=
  map (fun prop : property => prop.1.2) (properties c).

Definition propertiesUnit (c : cls) : list unit :=
  map (fun prop : property => prop.2) (properties c).

(** [_dictUnit]: [d[key] = unit] for each entry in catalog order. *)
Definition _dictUnit (c : cls) : gmap string unit :=
  fold_left (fun d (prop : property) => <[prop.1.2 := prop.2]> d)
            (properties c) ∅.

(** The list [prop] of [Thermo.propertiesGlobal]. *)
Definition Thermo_propertiesGlobal : list string :=
  ["T"; "Tr"; "P"; "Pr"; "x"; "Hvap"; "Svap"; "v0"; "rho0"; "h0"; "u0";
   "s0"; "a0"; "g0"; "cp0"; "cv0"; "cp0_cv"; "gamma0"].

Definition ThermoAdvanced_propertiesGlobal : list string :=
  Thermo_propertiesGlobal ++ ["invT"].

(** The list [new] of [ThermoRefProp.propertiesGlobal]. *)
Definition ThermoRefProp_globalNew : list string :=
  ["P0"; "P_Pideal"; "K"; "csat"; "dpdt_sat"; "cv2p"; "vE"; "uE"; "hE";
   "sE"; "aE"; "gE"; "pr"; "ur"; "hr"; "sr"; "ar"; "gr"; "cpr"; "cvr";
   "fpv"; "chempot"; "b12"; "cstar"].

Definition ThermoRefProp_propertiesGlobal : list string :=
  fold_left (fun prop p => prop ++ [p])
            ThermoRefProp_globalNew ThermoAdvanced_propertiesGlobal.

(** [cls.propertiesGlobal()]; ThermoWater inherits the method of
    Thermo. *)
Definition propertiesGlobal (c : cls) : list string :=
  match c with
  | Thermo | ThermoWater => Thermo_propertiesGlobal
  | ThermoAdvanced => ThermoAdvanced_propertiesGlobal
  | ThermoRefProp => ThermoRefProp_propertiesGlobal
  end.

(** [cls.propertiesPhase()]: the loop
    [for p in total: if p not in single: prop.append(p)]. *)
Definition propertiesPhase (c : cls) : list string :=
  let single := propertiesGlobal c in
  let total := propertiesKey c in
  fold_left (fun prop p => if decide (p ∈ single) then prop else prop ++ [p])
            total [].

End Catalog.

(** ** lib/thermo.py: writing and reading a state *)

Module Serialization.
Import Catalog.

(** Modelled from the spec: the constructors of [lib/unidades.py], which
    is not part of the modelled sources.  A quantity is a magnitude plus
    its unit-kind; [unidades.u(x)] keeps the magnitude of a number [x]
    and tags it with [u]; like [float], it rejects a list. *)
Definition unidades_new (u : unit) (x : pyval) : result pyval :=
  match x with
  | VInt z => Ok (VNum (Some u) (IZR z))
  | VNum _ r => Ok (VNum (Some u) r)
  | VList _ => Raise TypeError
  end.

(** The number held by an operand of [/]. *)
Definition num_of (x : pyval) : result R :=
  match x with
  | VInt z => Ok (IZR z)
  | VNum _ r => Ok r
  | VList _ => Raise TypeError
  end.

(** An instance: the flag [_bool] and the instance attributes. *)
Record object : Type := { _bool : bool; attrs : gmap string pyval }.

(** The numeric class attributes of [Thermo]: [status = 0] and
    [h = s = u = a = g = 0]. *)
Definition class_attr (name : string) : option pyval :=
  if bool_decide (name ∈ ["status"; "h"; "s"; "u"; "a"; "g"])
  then Some (VInt 0) else None.

(** [self.name]: the instance attribute, else the class attribute. *)
Definition getattr (self : object) (name : string) : result pyval :=
  match attrs self !! name with
  | Some x => Ok x
  | None =>
      match class_attr name with
      | Some x => Ok x
      | None => Raise AttributeError
      end
  end.

(** [self.name = x] *)
Definition setattr (name : string) (x : pyval) (self : object) : object :=
  {| _bool := _bool self; attrs := <[name := x]> (attrs self) |}.

Definition set_bool (b : bool) (self : object) : object :=
  {| _bool := b; attrs := attrs self |}.

(** *** Writing *)

(** [fluid[key] = self.attr] for each [(key, attr)], in order. *)
Fixpoint store_all (self : object) (items : list (string * string))
    (fluid : gmap string pyval) : result (gmap string pyval) :=
  match items with
  | [] => Ok fluid
  | (key, attr) :: rest =>
      x ← getattr self attr;
      store_all self rest (<[key := x]> fluid)
  end.

(** The assignments of [Thermo.writeStatetoJSON], as (key, attribute). *)
Definition Thermo_written : list (string * string) :=
  [("M", "M"); ("v", "v");
   ("h", "h"); ("s", "s"); ("u", "u"); ("a", "a"); ("g", "g");
   ("cv", "cv"); ("cp", "cp"); ("cp/cv", "cp_cv"); ("w", "w");
   ("Z", "Z"); ("alfav", "alfav"); ("kappa", "kappa"); ("kappas", "kappas");
   ("mu", "mu"); ("k", "k"); ("nu", "nu"); ("Prandt", "Prandt");
   ("alfa", "alfa"); ("joule", "joule"); ("deltat", "deltat");
   ("gamma", "gamma");
   ("alfap", "alfap"); ("betap", "betap"); ("fi", "fi"); ("f", "f");
   ("volFlow", "Q"); ("massFlow", "caudalmasico");
   ("molarFlow", "caudalmolar"); ("fraction", "fraccion");
   ("massFraction", "fraccion_masica");
   ("massUnitFlow", "caudalunitariomasico");
   ("molarUnitFlow", "caudalunitariomolar")].

Definition ThermoWater_written : list (string * string) :=
  [("n", "n"); ("epsilon", "epsilon")].

Definition ThermoAdvanced_written : list (string * string) :=
  [("betas", "betas"); ("Gruneisen", "Gruneisen");
   ("virialB", "virialB"); ("virialC", "virialC");
   ("dpdT_rho", "dpdT_rho"); ("dpdrho_T", "dpdrho_T");
   ("drhodT_P", "drhodT_P"); ("drhodP_T", "drhodP_T");
   ("dhdT_rho", "dhdT_rho"); ("dhdP_T", "dhdP_T"); ("dhdT_P", "dhdT_P");
   ("dhdrho_T", "dhdrho_T"); ("dhdP_rho", "dhdP_rho");
   ("kt", "kt"); ("ks", "ks"); ("Ks", "Ks"); ("Kt", "Kt");
   ("IntP", "IntP"); ("invT", "invT"); ("hInput", "hInput");
   ("epsilon", "epsilon")].

Definition ThermoRefProp_written : list (string * string) :=
  [("virialD", "virialD"); ("virialBa", "virialBa");
   ("virialCa", "virialCa"); ("dCdt", "dCdt"); ("dCdt2", "dCdt2");
   ("dBdt", "dBdt")].

Definition Thermo_writeStatetoJSON (self : object)
    (state : gmap string (gmap string pyval)) (fase : string)
  : result (gmap string (gmap string pyval)) :=
  fluid ← (if _bool self then store_all self Thermo_written ∅ else Ok ∅);
  mret (<[fase := fluid]> state).

(** The tail of a subclass writer:
    [if self._bool: state[fase][key] = self.attr ...]. *)
Definition write_more (self : object) (items : list (string * string))
    (state : gmap string (gmap string pyval)) (fase : string)
  : result (gmap string (gmap string pyval)) :=
  if _bool self then
    fluid ← getitem state fase;
    fluid' ← store_all self items fluid;
    mret (<[fase := fluid']> state)
  else Ok state.

Definition ThermoWater_writeStatetoJSON (self : object)
    (state : gmap string (gmap string pyval)) (fase : string)
  : result (gmap string (gmap string pyval)) :=
  state' ← Thermo_writeStatetoJSON self state fase;
  write_more self ThermoWater_written state' fase.

Definition ThermoAdvanced_writeStatetoJSON (self : object)
    (state : gmap string (gmap string pyval)) (fase : string)
  : result (gmap string (gmap string pyval)) :=
  state' ← Thermo_writeStatetoJSON self state fase;
  write_more self ThermoAdvanced_written state' fase.

Definition ThermoRefProp_writeStatetoJSON (self : object)
    (state : gmap string (gmap string pyval)) (fase : string)
  : result (gmap string (gmap string pyval)) :=
  state' ← ThermoAdvanced_writeStatetoJSON self state fase;
  write_more self ThermoRefProp_written state' fase.

(** [self.writeStatetoJSON(state, fase)] for an instance of class [c]. *)
Definition writeStatetoJSON (c : cls) (self : object)
    (state : gmap string (gmap string pyval)) (fase : string)
  : result (gmap string (gmap string pyval)) :=
  match c with
  | Thermo => Thermo_writeStatetoJSON self state fase
  | ThermoWater => ThermoWater_writeStatetoJSON self state fase
  | ThermoAdvanced => ThermoAdvanced_writeStatetoJSON self state fase
  | ThermoRefProp => ThermoRefProp_writeStatetoJSON self state fase
  end.

(** *** Reading

    A statement of the reader changes [self] and may raise; what it
    has assigned before raising stays assigned. *)

Definition step : Type :=
  gmap string pyval -> object -> object * option exn.

(** [self.attr = <value>], where computing the value may raise. *)
Definition assign_result (attr : string) (r : result pyval) (self : object)
  : object * option exn :=
  match r with
  | Ok x => (setattr attr x self, None)
  | Raise e => (self, Some e)
  end.

(** [self.attr = unidades.u(fluid[key])] *)
Definition assign (attr : string) (u : unit) (key : string) : step :=
  fun fluid self =>
    assign_result attr (x ← getitem fluid key; unidades_new u x) self.

(** [self.attr = unidades.u(0)] *)
Definition assign_zero (attr : string) (u : unit) : step :=
  fun fluid self => assign_result attr (unidades_new u (VInt 0)) self.

(** [self.attr = [unidades.u(x) for x in fluid[key]]] *)
Definition assign_each (attr : string) (u : unit) (key : string) : step :=
  fun fluid self =>
    assign_result attr
      (x ← getitem fluid key;
       l ← pyiter x;
       mret (VList (map (fun e : option unit * R => (Some u, e.2)) l)))
      self.

(** [self.attr = [unidades.u(fluid[key])]] *)
Definition assign_single (attr : string) (u : unit) (key : string) : step :=
  fun fluid self =>
    assign_result attr
      (x ← getitem fluid key;
       q ← unidades_new u x;
       r ← num_of q;
       mret (VList [(Some u, r)]))
      self.

(** [self.attr = unidades.u(1/self.b)] *)
Definition assign_inverse (attr : string) (u : unit) (b : string) : step :=
  fun fluid self =>
    assign_result attr
      (vb ← getattr self b;
       xb ← num_of vb;
       r ← pydiv 1 xb;
       mret (VNum (Some u) r))
      self.

(** [self.attr = unidades.u(self.a/self.b)] *)
Definition assign_ratio (attr : string) (u : unit) (a b : string) : step :=
  fun fluid self =>
    assign_result attr
      (va ← getattr self a;
       vb ← getattr self b;
       xa ← num_of va;
       xb ← num_of vb;
       r ← pydiv xa xb;
       mret (VNum (Some u) r))
      self.

(** Statements in sequence: the first one that raises ends the run. *)
Fixpoint block (body : list step) : step :=
  fun fluid self =>
    match body with
    | [] => (self, None)
    | st :: rest =>
        match st fluid self with
        | (self', None) => block rest fluid self'
        | (self', Some e) => (self', Some e)
        end
    end.

(** [try: body except e: handler] *)
Definition try_except (body : step) (e : exn) (handler : step) : step :=
  fun fluid self =>
    match body fluid self with
    | (self', None) => (self', None)
    | (self', Some e') =>
        if decide (e' = e) then handler fluid self' else (self', Some e')
    end.

(** The body of [Thermo.readStatefromJSON] under [if fluid:]. *)
Definition Thermo_read_body : list step :=
  [ (fun _ self => (set_bool true self, None));
    assign "M" Dimensionless "M";
    assign "v" SpecificVolume "v";
    assign_inverse "rho" Density "v";
    assign "h" Enthalpy "h";
    assign "s" SpecificHeat "s";
    assign "u" Enthalpy "u";
    assign "a" Enthalpy "a";
    assign "g" Enthalpy "g";
    assign "cv" SpecificHeat "cv";
    assign "cp" SpecificHeat "cp";
    assign "cp_cv" Dimensionless "cp/cv";
    assign "w" Speed "w";
    assign "Z" Dimensionless "Z";
    assign "alfav" InvTemperature "alfav";
    assign "kappa" InvPressure "kappa";
    try_except (assign "kappas" InvPressure "kappas") KeyError
               (assign_zero "kappas" InvPressure);
    assign "mu" Viscosity "mu";
    assign "k" ThermalConductivity "k";
    assign "nu" Diffusivity "nu";
    assign "Prandt" Dimensionless "Prandt";
    assign "alfa" Diffusivity "alfa";
    assign "joule" TemperaturePressure "joule";
    assign "deltat" EnthalpyPressure "deltat";
    assign "gamma" Dimensionless "gamma";
    assign "alfap" Dimensionless "alfap";
    assign "betap" Dimensionless "betap";
    try_except
      (block [assign_each "fi" Dimensionless "fi";
              assign_each "f" Pressure "f"])
      TypeError
      (block [assign_single "fi" Dimensionless "fi";
              assign_single "f" Pressure "f"]);
    assign "Q" VolFlow "volFlow";
    assign "caudalmasico" MassFlow "massFlow";
    assign "caudalmolar" MolarFlow "molarFlow";
    assign_each "fraccion" Dimensionless "fraction";
    assign_each "fraccion_masica" Dimensionless "massFraction";
    assign_each "caudalunitariomasico" MassFlow "massUnitFlow";
    assign_each "caudalunitariomolar" MolarFlow "molarUnitFlow";
    assign_ratio "rhoM" MolarDensity "rho" "M";
    assign_ratio "hM" MolarEnthalpy "h" "M";
    assign_ratio "sM" MolarSpecificHeat "s" "M";
    assign_ratio "uM" MolarEnthalpy "u" "M";
    assign_ratio "aM" MolarEnthalpy "a" "M";
    assign_ratio "gM" MolarEnthalpy "g" "M";
    assign_ratio "cvM" MolarSpecificHeat "cv" "M";
    assign_ratio "cpM" MolarSpecificHeat "cp" "M" ].

Definition ThermoWater_read_body : list step :=
  [ assign "epsilon" Dimensionless "epsilon";
    assign "n" Dimensionless "n" ].

Definition ThermoAdvanced_read_body : list step :=
  [ assign "betas" TemperaturePressure "betas";
    assign "Gruneisen" Dimensionless "Gruneisen";
    try_except
      (block [assign "virialB" SpecificVolume "virialB";
              assign "virialC" SpecificVolume_square "virialC"])
      KeyError
      (block [assign_zero "virialB" SpecificVolume;
              assign_zero "virialC" SpecificVolume_square]);
    assign "dpdT_rho" PressureTemperature "dpdT_rho";
    assign "dpdrho_T" PressureDensity "dpdrho_T";
    assign "drhodT_P" DensityTemperature "drhodT_P";
    assign "drhodP_T" DensityPressure "drhodP_T";
    assign "dhdT_rho" SpecificHeat "dhdT_rho";
    assign "dhdP_T" EnthalpyPressure "dhdP_T";
    assign "dhdT_P" SpecificHeat "dhdT_P";
    assign "dhdrho_T" EnthalpyDensity "dhdrho_T";
    assign "dhdP_rho" EnthalpyPressure "dhdP_rho";
    assign "kt" Dimensionless "kt";
    assign "ks" InvPressure "ks";
    assign "Ks" Pressure "Ks";
    assign "Kt" Pressure "Kt";
    assign "IntP" Pressure "IntP";
    try_except (assign "invT" InvTemperature "invT") KeyError
               (assign_zero "invT" InvTemperature);
    assign "hInput" Enthalpy "hInput";
    assign "epsilon" Dimensionless "epsilon" ].

Definition ThermoRefProp_read_body : list step :=
  [ assign "virialD" Dimensionless "virialD";
    assign "virialBa" SpecificVolume "virialBa";
    assign "virialCa" SpecificVolume_square "virialCa";
    assign "dCdt" Dimensionless "dCdt";
    assign "dCdt2" Dimensionless "dCdt2";
    assign "dBdt" Dimensionless "dBdt" ].

(** [if fluid: body]: an empty dict is false. *)
Definition if_fluid (body : list step) : step :=
  fun fluid self =>
    if decide (fluid = ∅) then (self, None) else block body fluid self.

Definition Thermo_readStatefromJSON : step := if_fluid Thermo_read_body.

Definition ThermoWater_readStatefromJSON : step :=
  block [Thermo_readStatefromJSON; if_fluid ThermoWater_read_body].

Definition ThermoAdvanced_readStatefromJSON : step :=
  block [Thermo_readStatefromJSON; if_fluid ThermoAdvanced_read_body].

Definition ThermoRefProp_readStatefromJSON : step :=
  block [ThermoAdvanced_readStatefromJSON; if_fluid ThermoRefProp_read_body].

(** [self.readStatefromJSON(fluid)] for an instance of class [c]: the
    instance after the call and the exception raised, if any. *)
Definition readStatefromJSON (c : cls) (self : object)
    (fluid : gmap string pyval) : object * option exn :=
  match c with
  | Thermo => Thermo_readStatefromJSON fluid self
  | ThermoWater => ThermoWater_readStatefromJSON fluid self
  | ThermoAdvanced => ThermoAdvanced_readStatefromJSON fluid self
  | ThermoRefProp => ThermoRefProp_readStatefromJSON fluid self
  end.

(** *** Dicts that can be restored

    What the reader needs of the dict it is given. *)

Definition numeric (x : pyval) : Prop :=
  match x with
  | VList _ => False
  | _ => True
  end.

Definition magnitude (x : pyval) : R :=
  match x with
  | VInt z => IZR z
  | VNum _ r => r
  | VList _ => 0%R
  end.

Definition has_number (fluid : gmap string pyval) (key : string) : Prop :=
  exists x, fluid !! key = Some x /\ numeric x.

Definition has_list (fluid : gmap string pyval) (key : string) : Prop :=
  exists l, fluid !! key = Some (VList l).

(** The assignments of the writer of class [c], those of the parent
    classes first. *)
Definition written_items (c : cls) : list (string * string) :=
  match c with
  | Thermo => Thermo_written
  | ThermoWater => Thermo_written ++ ThermoWater_written
  | ThermoAdvanced => Thermo_written ++ ThermoAdvanced_written
  | ThermoRefProp =>
      Thermo_written ++ ThermoAdvanced_written ++ ThermoRefProp_written
  end.

(** The keys that the writer of class [c] stores. *)
Definition written (c : cls) : list string := map fst (written_items c).

(** The keys guarded by [try ... except KeyError]. *)
Definition optional_keys : list string :=
  ["kappas"; "virialB"; "virialC"; "invT"].

(** The keys read by a list comprehension. *)
Definition list_keys : list string :=
  ["fraction"; "massFraction"; "massUnitFlow"; "molarUnitFlow"].

(** The remaining keys, each read as one number. *)
Definition number_keys (c : cls) : list string :=
  filter (fun k => k ∉ optional_keys ++ list_keys ++ ["fi"; "f"])
         (written c).

(** A dict that holds every key but, possibly, the optional ones, with
    numbers where numbers are read, lists where lists are iterated,
    [fi] and [f] both numbers or both lists, and nonzero [M] and [v],
    by which the reader divides. *)
Definition restorable (c : cls) (fluid : gmap string pyval) : Prop :=
  Forall (has_number fluid) (number_keys c) /\
  Forall (has_list fluid) list_keys /\
  Forall (fun k => forall x, fluid !! k = Some x -> numeric x)
         optional_keys /\
  ((has_number fluid "fi" /\ has_number fluid "f") \/
   (has_list fluid "fi" /\ has_list fluid "f")) /\
  (forall x, fluid !! "M" = Some x -> magnitude x <> 0%R) /\
  (forall x, fluid !! "v" = Some x -> magnitude x <> 0%R).

(** *** The attributes that a read assigns

    The value of every attribute that [readStatefromJSON] assigns on a
    restorable dict, in the order of the assignments. *)

#[global] Instance pyval_inhabited : Inhabited pyval := populate (VInt 0).

(** The number under an optional key, zero when the key is missing. *)
Definition optional_magnitude (fluid : gmap string pyval) (key : string)
  : R :=
  match fluid !! key with
  | Some x => magnitude x
  | None => 0%R
  end.

(** The number under [key], one of two optional keys read in one [try]
    block: zero as soon as one of the two is missing. *)
Definition pair_magnitude (fluid : gmap string pyval)
    (key1 key2 key : string) : R :=
  match fluid !! key1, fluid !! key2 with
  | Some _, Some _ => magnitude (fluid !!! key)
  | _, _ => 0%R
  end.

Definition items_of (x : pyval) : list (option unit * R) :=
  match x with
  | VList l => l
  | _ => []
  end.

Definition retag (u : unit) (l : list (option unit * R))
  : list (option unit * R) :=
  map (fun e : option unit * R => (Some u, e.2)) l.

(** [fi] and [f]: a list is retagged, a number becomes a list of one. *)
Definition fugacity (u : unit) (x : pyval) : pyval :=
  match x with
  | VList l => VList (retag u l)
  | _ => VList [(Some u, magnitude x)]
  end.

(** Assignments [self.a = x], from left to right. *)
Definition applied (l : list (string * pyval)) (self : object) : object :=
  fold_left (fun s ax => setattr ax.1 ax.2 s) l self.

Definition Thermo_restored (fluid : gmap string pyval)
  : list (string * pyval) :=
  [("M", VNum (Some Dimensionless) (magnitude (fluid !!! "M")));
   ("v", VNum (Some SpecificVolume) (magnitude (fluid !!! "v")));
   ("rho", VNum (Some Density) (1 / magnitude (fluid !!! "v")));
   ("h", VNum (Some Enthalpy) (magnitude (fluid !!! "h")));
   ("s", VNum (Some SpecificHeat) (magnitude (fluid !!! "s")));
   ("u", VNum (Some Enthalpy) (magnitude (fluid !!! "u")));
   ("a", VNum (Some Enthalpy) (magnitude (fluid !!! "a")));
   ("g", VNum (Some Enthalpy) (magnitude (fluid !!! "g")));
   ("cv", VNum (Some SpecificHeat) (magnitude (fluid !!! "cv")));
   ("cp", VNum (Some SpecificHeat) (magnitude (fluid !!! "cp")));
   ("cp_cv", VNum (Some Dimensionless) (magnitude (fluid !!! "cp/cv")));
   ("w", VNum (Some Speed) (magnitude (fluid !!! "w")));
   ("Z", VNum (Some Dimensionless) (magnitude (fluid !!! "Z")));
   ("alfav", VNum (Some InvTemperature) (magnitude (fluid !!! "alfav")));
   ("kappa", VNum (Some InvPressure) (magnitude (fluid !!! "kappa")));
   ("kappas", VNum (Some InvPressure) (optional_magnitude fluid "kappas"));
   ("mu", VNum (Some Viscosity) (magnitude (fluid !!! "mu")));
   ("k", VNum (Some ThermalConductivity) (magnitude (fluid !!! "k")));
   ("nu", VNum (Some Diffusivity) (magnitude (fluid !!! "nu")));
   ("Prandt", VNum (Some Dimensionless) (magnitude (fluid !!! "Prandt")));
   ("alfa", VNum (Some Diffusivity) (magnitude (fluid !!! "alfa")));
   ("joule", VNum (Some TemperaturePressure) (magnitude (fluid !!! "joule")));
   ("deltat", VNum (Some EnthalpyPressure) (magnitude (fluid !!! "deltat")));
   ("gamma", VNum (Some Dimensionless) (magnitude (fluid !!! "gamma")));
   ("alfap", VNum (Some Dimensionless) (magnitude (fluid !!! "alfap")));
   ("betap", VNum (Some Dimensionless) (magnitude (fluid !!! "betap")));
   ("fi", fugacity Dimensionless (fluid !!! "fi"));
   ("f", fugacity Pressure (fluid !!! "f"));
   ("Q", VNum (Some VolFlow) (magnitude (fluid !!! "volFlow")));
   ("caudalmasico", VNum (Some MassFlow) (magnitude (fluid !!! "massFlow")));
   ("caudalmolar", VNum (Some MolarFlow) (magnitude (fluid !!! "molarFlow")));
   ("fraccion", VList (retag Dimensionless (items_of (fluid !!! "fraction"))));
   ("fraccion_masica", VList (retag Dimensionless (items_of (fluid !!! "massFraction"))));
   ("caudalunitariomasico", VList (retag MassFlow (items_of (fluid !!! "massUnitFlow"))));
   ("caudalunitariomolar", VList (retag MolarFlow (items_of (fluid !!! "molarUnitFlow"))));
   ("rhoM", VNum (Some MolarDensity) (1 / magnitude (fluid !!! "v") / magnitude (fluid !!! "M")));
   ("hM", VNum (Some MolarEnthalpy) (magnitude (fluid !!! "h") / magnitude (fluid !!! "M")));
   ("sM", VNum (Some MolarSpecificHeat) (magnitude (fluid !!! "s") / magnitude (fluid !!! "M")));
   ("uM", VNum (Some MolarEnthalpy) (magnitude (fluid !!! "u") / magnitude (fluid !!! "M")));
   ("aM", VNum (Some MolarEnthalpy) (magnitude (fluid !!! "a") / magnitude (fluid !!! "M")));
   ("gM", VNum (Some MolarEnthalpy) (magnitude (fluid !!! "g") / magnitude (fluid !!! "M")));
   ("cvM", VNum (Some MolarSpecificHeat) (magnitude (fluid !!! "cv") / magnitude (fluid !!! "M")));
   ("cpM", VNum (Some MolarSpecificHeat) (magnitude (fluid !!! "cp") / magnitude (fluid !!! "M")))]%R.

Definition ThermoWater_restored (fluid : gmap string pyval)
  : list (string * pyval) :=
  [("epsilon", VNum (Some Dimensionless) (magnitude (fluid !!! "epsilon")));
   ("n", VNum (Some Dimensionless) (magnitude (fluid !!! "n")))]%R.

Definition ThermoAdvanced_restored (fluid : gmap string pyval)
  : list (string * pyval) :=
  [("betas", VNum (Some TemperaturePressure) (magnitude (fluid !!! "betas")));
   ("Gruneisen", VNum (Some Dimensionless) (magnitude (fluid !!! "Gruneisen")));
   ("virialB", VNum (Some SpecificVolume) (pair_magnitude fluid "virialB" "virialC" "virialB"));
   ("virialC", VNum (Some SpecificVolume_square) (pair_magnitude fluid "virialB" "virialC" "virialC"));
   ("dpdT_rho", VNum (Some PressureTemperature) (magnitude (fluid !!! "dpdT_rho")));
   ("dpdrho_T", VNum (Some PressureDensity) (magnitude (fluid !!! "dpdrho_T")));
   ("drhodT_P", VNum (Some DensityTemperature) (magnitude (fluid !!! "drhodT_P")));
   ("drhodP_T", VNum (Some DensityPressure) (magnitude (fluid !!! "drhodP_T")));
   ("dhdT_rho", VNum (Some SpecificHeat) (magnitude (fluid !!! "dhdT_rho")));
   ("dhdP_T", VNum (Some EnthalpyPressure) (magnitude (fluid !!! "dhdP_T")));
   ("dhdT_P", VNum (Some SpecificHeat) (magnitude (fluid !!! "dhdT_P")));
   ("dhdrho_T", VNum (Some EnthalpyDensity) (magnitude (fluid !!! "dhdrho_T")));
   ("dhdP_rho", VNum (Some EnthalpyPressure) (magnitude (fluid !!! "dhdP_rho")));
   ("kt", VNum (Some Dimensionless) (magnitude (fluid !!! "kt")));
   ("ks", VNum (Some InvPressure) (magnitude (fluid !!! "ks")));
   ("Ks", VNum (Some Pressure) (magnitude (fluid !!! "Ks")));
   ("Kt", VNum (Some Pressure) (magnitude (fluid !!! "Kt")));
   ("IntP", VNum (Some Pressure) (magnitude (fluid !!! "IntP")));
   ("invT", VNum (Some InvTemperature) (optional_magnitude fluid "invT"));
   ("hInput", VNum (Some Enthalpy) (magnitude (fluid !!! "hInput")));
   ("epsilon", VNum (Some Dimensionless) (magnitude (fluid !!! "epsilon")))]%R.

Definition ThermoRefProp_restored (fluid : gmap string pyval)
  : list (string * pyval) :=
  [("virialD", VNum (Some Dimensionless) (magnitude (fluid !!! "virialD")));
   ("virialBa", VNum (Some SpecificVolume) (magnitude (fluid !!! "virialBa")));
   ("virialCa", VNum (Some SpecificVolume_square) (magnitude (fluid !!! "virialCa")));
   ("dCdt", VNum (Some Dimensionless) (magnitude (fluid !!! "dCdt")));
   ("dCdt2", VNum (Some Dimensionless) (magnitude (fluid !!! "dCdt2")));
   ("dBdt", VNum (Some Dimensionless) (magnitude (fluid !!! "dBdt")))]%R.

(** The assignments of the reader of class [c], those of the parent
    classes first. *)
Definition restored (c : cls) (fluid : gmap string pyval)
  : list (string * pyval) :=
  match c with
  | Thermo => Thermo_restored fluid
  | ThermoWater => Thermo_restored fluid ++ ThermoWater_restored fluid
  | ThermoAdvanced => Thermo_restored fluid ++ ThermoAdvanced_restored fluid
  | ThermoRefProp =>
      Thermo_restored fluid ++ ThermoAdvanced_restored fluid
        ++ ThermoRefProp_restored fluid
  end.

(** The last value assigned to attribute [b], if any. *)
Fixpoint last_assigned (l : list (string * pyval)) (b : string)
  : option pyval :=
  match l with
  | [] => None
  | (a, x) :: l' =>
      match last_assigned l' b with
      | Some y => Some y
      | None => if decide (a = b) then Some x else None
      end
  end.

(** *** Solved states

    The dict that the writer of class [c] stores for a computed phase,
    and the instances on which writing and reading back both succeed. *)

(** [self.attr] where it is set, for use where it is known to be. *)
Definition attr_value (self : object) (attr : string) : pyval :=
  match getattr self attr with
  | Ok x => x
  | Raise _ => VInt 0
  end.

Definition snapshot (c : cls) (self : object) : gmap string pyval :=
  fold_left (fun d ka => <[ka.1 := attr_value self ka.2]> d)
            (written_items c) ∅.

(** A computed phase: [_bool] is set, every attribute that the writer
    reads exists, and the values are of the kinds the reader accepts. *)
Definition solved (c : cls) (self : object) : Prop :=
  _bool self = true /\
  Forall (fun ka => exists x, getattr self ka.2 = Ok x) (written_items c) /\
  restorable c (snapshot c self).

End Serialization.

(** ** tools/UI_Tables/lib.py: [getMethod], [calcPoint] *)

Module UI_Tables.
Local Open Scope R_scope.

Inductive Method : Type := MEOS | COOLPROP | REFPROP.

(** The two flags of section "MEOS" of the preferences file. *)
Record Preferences : Type := { coolprop : bool; refprop : bool }.

Definition getMethod (pref : Preferences) : Method :=
  if coolprop pref && refprop pref then REFPROP
  else if coolprop pref then COOLPROP
  else MEOS.

(** The solved instance that [fluid._new(kwargs)] returns: the
    attributes and the method that [calcPoint] uses.  An empty
    [_melting] stands for a fluid without melting curve. *)
Record Fluido : Type := {
  status : Z;
  T : R;
  P : R;
  _melting : gmap string R;
  _Melting_Pressure : R -> R
}.

(** [fluid.eq]: a tuple of equation records for a mEoS fluid, one
    record for a CoolProp fluid.  A record is read as a dict of
    numbers. *)
Inductive eq_attr : Type :=
  | EqTuple (records : list (gmap string R))
  | EqDict (record : gmap string R).

(** The fluid given to [calcPoint]; the classes behind it are external,
    so its two entry points are fields:
    [fluid(T=t, x=0).P] and [fluid._new(kwargs)]. *)
Record Fluid : Type := {
  eq : eq_attr;
  saturation_P : R -> result R;
  _new : gmap string R -> result Fluido
}.

(** The argument [config]: a dict of options, or a ConfigParser of
    which the integer options of section "MEoS" are read. *)
Inductive Config : Type :=
  | ConfigDict (option : gmap string Z)
  | ConfigParser (MEoS : gmap string Z).

(** What [calcPoint] asks of its collaborators, in order. *)
Inductive event : Type :=
  | CallSaturation (t : R)
  | CallNew (kwargs : gmap string R)
  | CallMeltingPressure (t : R).

(** A computation that logs its calls and may raise. *)
Definition prog (A : Type) : Type := list event -> list event * result A.

#[global] Instance prog_ret : MRet prog := fun A a log => (log, Ok a).
#[global] Instance prog_bind : MBind prog := fun A B f m log =>
  match m log with
  | (log', Ok a) => f a log'
  | (log', Raise e) => (log', Raise e)
  end.

Definition emit (e : event) : prog () := fun log => (log ++ [e], Ok ()).
Definition lift {A : Type} (r : result A) : prog A := fun log => (log, r).

(** [t[i]] on a tuple: a negative index counts from the end. *)
Definition py_index {A : Type} (l : list A) (i : Z) : result A :=
  let n := Z.of_nat (length l) in
  let j := if bool_decide (i < 0)%Z then (i + n)%Z else i in
  if bool_decide (0 <= j < n)%Z then
    match l !! Z.to_nat j with
    | Some a => Ok a
    | None => Raise IndexError
    end
  else Raise IndexError.

(** [config.getint("MEoS", name)] *)
Definition getint (MEoS : gmap string Z) (name : string) : result Z :=
  match MEoS !! name with
  | Some z => Ok z
  | None => Raise NoOptionError
  end.

(** The local names [Tmin], [Tmax], [Pmin], [Pmax]. *)
Record Limits : Type := { Tmin : R; Tmax : R; Pmin : R; Pmax : R }.

(** [fluid.eq[i][key]] on the MEOS branch. *)
Definition eq_item (fluid : Fluid) (i : Z) (key : string) : result R :=
  match eq fluid with
  | EqTuple records => record ← py_index records i; getitem record key
  | EqDict _ => Raise KeyError
  end.

(** [fluid.eq[key]] on the COOLPROP branch. *)
Definition eq_key (fluid : Fluid) (key : string) : result R :=
  match eq fluid with
  | EqTuple _ => Raise TypeError
  | EqDict record => getitem record key
  end.

(** The first [if]/[elif] chain: the keyword arguments as updated and
    the limits, which stay unbound on the REFPROP branch. *)
Definition bind_limits (method : Method) (fluid : Fluid) (config : Config)
    (kwargs : gmap string R) : prog (gmap string R * option Limits) :=
  match method with
  | MEOS =>
      option ← lift (match config with
                     | ConfigDict option => Ok option
                     | ConfigParser MEoS =>
                         e ← getint MEoS "eq";
                         v ← getint MEoS "visco";
                         t ← getint MEoS "thermal";
                         mret (<["thermal" := t]>
                                 (<["visco" := v]> (<["eq" := e]> ∅)))
                     end);
      let kwargs := (IZR <$> option) ∪ kwargs in
      i ← lift (getitem option "eq");
      tmin ← lift (eq_item fluid i "Tmin");
      i ← lift (getitem option "eq");
      tmax ← lift (eq_item fluid i "Tmax");
      i ← lift (getitem option "eq");
      t ← lift (eq_item fluid i "Tmin");
      _ ← emit (CallSaturation t);
      pmin ← lift (saturation_P fluid t);
      i ← lift (getitem option "eq");
      pmax ← lift (eq_item fluid i "Pmax");
      mret (kwargs, Some {| Tmin := tmin; Tmax := tmax;
                            Pmin := pmin; Pmax := pmax * 1000 |})
  | COOLPROP =>
      tmin ← lift (eq_key fluid "Tmin");
      tmax ← lift (eq_key fluid "Tmax");
      pmin ← lift (eq_key fluid "Pmin");
      pmax ← lift (eq_key fluid "Pmax");
      mret (kwargs, Some {| Tmin := tmin; Tmax := tmax;
                            Pmin := pmin; Pmax := pmax |})
  | REFPROP => mret (kwargs, None)
  end.

(** Reading the local names: an unbound one raises. *)
Definition bound (limits : option Limits) : result Limits :=
  match limits with
  | Some l => Ok l
  | None => Raise NameError
  end.

(** The two tests on the arguments; [true] when the point is refused. *)
Definition refused_before (limits : option Limits) (kwargs : gmap string R)
  : result bool :=
  byT ← match kwargs !! "T" with
        | Some t =>
            l ← bound limits;
            Ok (bool_decide (t < Tmin l) || bool_decide (t > Tmax l))
        | None => Ok false
        end;
  if byT : bool then Ok true
  else
    match kwargs !! "P" with
    | Some p =>
        l ← bound limits;
        Ok (bool_decide (p < Pmin l - 1) || bool_decide (p > Pmax l + 1))
    | None => Ok false
    end.

(** The melting-curve block: the limits with [Pmax] lowered to the
    melting pressure where the curve applies. *)
Definition melting_clamp (method : Method) (limits : option Limits)
    (fluido : Fluido) : prog (option Limits) :=
  match method with
  | MEOS =>
      if decide (_melting fluido = ∅) then mret limits
      else
        tmin ← lift (getitem (_melting fluido) "Tmin");
        if bool_decide (tmin <= T fluido) then
          tmax ← lift (getitem (_melting fluido) "Tmax");
          if bool_decide (T fluido <= tmax) then
            _ ← emit (CallMeltingPressure (T fluido));
            let Pmel := _Melting_Pressure fluido (T fluido) in
            l ← lift (bound limits);
            mret (Some {| Tmin := Tmin l; Tmax := Tmax l; Pmin := Pmin l;
                          Pmax := if bool_decide (Pmel < Pmax l)
                                  then Pmel else Pmax l |})
          else mret limits
        else mret limits
  | _ => mret limits
  end.

(** The last test, on the solved instance. *)
Definition refused_after (limits : option Limits) (fluido : Fluido)
  : result bool :=
  l ← bound limits;
  Ok (bool_decide (P fluido < Pmin l - 1)
        || bool_decide (P fluido > Pmax l + 1)
        || bool_decide (T fluido < Tmin l)
        || bool_decide (T fluido > Tmax l)).

(** [calcPoint(fluid, config, kwargs)], with the method that
    [getMethod()] returned: [None] or the solved instance. *)
Definition calcPoint (method : Method) (fluid : Fluid) (config : Config)
    (kwargs : gmap string R) : prog (option Fluido) :=
  '(kwargs, limits) ← bind_limits method fluid config kwargs;
  out ← lift (refused_before limits kwargs);
  if out : bool then mret None
  else
    _ ← emit (CallNew kwargs);
    fluido ← lift (_new fluid kwargs);
    if bool_decide (status fluido ∉ [1; 3]%Z) then mret None
    else
      limits ← melting_clamp method limits fluido;
      out ← lift (refused_after limits fluido);
      if out : bool then mret None else mret (Some fluido).

End UI_Tables.

(** ** Sample inputs *)

Module Samples.
Local Open Scope R_scope.

(** A state for the derivative engine. *)
Definition self1 : Derivative.Self :=
  {| Derivative.P := 1; Derivative.T := 1 |}.
Definition fase1 : Derivative.Fase :=
  {| Derivative.v := 1; Derivative.alfav := 1; Derivative.kappa := 1;
     Derivative.cp := 1; Derivative.s := 1 |}.

(** Coefficient dicts with one term, of form 6 and of form 3. *)
Definition coef6 : gmap string pyval :=
  pydict [("eq", VInt 6); ("n", VList [(None, 1)]); ("t", VList [(None, 1)])].
Definition coef3 : gmap string pyval :=
  pydict [("eq", VInt 3); ("n", VList [(None, 1)]); ("t", VList [(None, 1)])].

(** A computed phase of an advanced model: every serialized attribute
    is the float 2, the per-component ones the list [1/2, 1/2]. *)
Definition sample_value (key : string) : pyval :=
  if bool_decide (key ∈ Serialization.list_keys)
  then VList [(None, 1 / 2); (None, 1 / 2)]
  else VNum None 2.

Definition sample_state : Serialization.object :=
  {| Serialization._bool := true;
     Serialization.attrs :=
       pydict (map (fun ka : string * string => (ka.2, sample_value ka.1))
                   (Serialization.written_items Catalog.ThermoAdvanced)) |}.

(** The dict of [sample_state] as an older version wrote it, without
    the optional keys. *)
Definition sample_old_fluid : gmap string pyval :=
  foldr delete
        (Serialization.snapshot Catalog.ThermoAdvanced sample_state)
        Serialization.optional_keys.

(** An instance on which nothing was computed. *)
Definition empty_state : Serialization.object :=
  {| Serialization._bool := false; Serialization.attrs := ∅ |}.

(** A mEoS fluid whose melting curve lies below the saturation
    pressure at [Tmin], queried on its (Tmin, Pmin) corner; the solver
    returns the queried point. *)
Definition melting_fluido : UI_Tables.Fluido :=
  {| UI_Tables.status := 1;
     UI_Tables.T := 100;
     UI_Tables.P := 1000;
     UI_Tables._melting := pydict [("Tmin", 100); ("Tmax", 200)];
     UI_Tables._Melting_Pressure := fun _ => 50 |}.

Definition melting_fluid : UI_Tables.Fluid :=
  {| UI_Tables.eq :=
       UI_Tables.EqTuple
         [pydict [("Tmin", 100); ("Tmax", 500); ("Pmax", 10)]];
     UI_Tables.saturation_P := fun _ => Ok 1000;
     UI_Tables._new := fun _ => Ok melting_fluido |}.

(** The same fluid without melting curve. *)
Definition plain_fluido : UI_Tables.Fluido :=
  {| UI_Tables.status := 1;
     UI_Tables.T := 100;
     UI_Tables.P := 1000;
     UI_Tables._melting := ∅;
     UI_Tables._Melting_Pressure := fun _ => 0 |}.

Definition plain_fluid : UI_Tables.Fluid :=
  {| UI_Tables.eq :=
       UI_Tables.EqTuple
         [pydict [("Tmin", 100); ("Tmax", 500); ("Pmax", 10)]];
     UI_Tables.saturation_P := fun _ => Ok 1000;
     UI_Tables._new := fun _ => Ok plain_fluido |}.

Definition corner_config : UI_Tables.Config :=
  UI_Tables.ConfigDict (pydict [("eq", 0%Z)]).

Definition corner_kwargs : gmap string R :=
  pydict [("T", 100); ("P", 1000)].

(** A query below [Tmin]. *)
Definition cold_kwargs : gmap string R :=
  pydict [("T", 100 - 1); ("P", 1000)].

(** The keyword arguments of the corner query after
    [kwargs.update(option)]. *)
Definition corner_kw : gmap string R :=
  (IZR <$> pydict [("eq", 0%Z)]) ∪ corner_kwargs.

Definition cold_kw : gmap string R :=
  (IZR <$> pydict [("eq", 0%Z)]) ∪ cold_kwargs.

Definition corner_limits : UI_Tables.Limits :=
  {| UI_Tables.Tmin := 100; UI_Tables.Tmax := 500;
     UI_Tables.Pmin := 1000; UI_Tables.Pmax := 10 * 1000 |}.

End Samples.

(** ** lib/mEoS/SF6.py: the ancillary dicts *)

Module SF6.
Local Open Scope R_scope.

Definition Tc : R := 318.7232.

Definition _vapor_Pressure : gmap string pyval :=
  pydict
    [("eq", VInt 6);
     ("ao", VList [(None, -7.09634642); (None, 1.676662);
                   (None, -2.3921599); (None, 5.86078302);
                   (None, -9.02978735)]);
     ("exp", VList [(None, 2.0); (None, 3.0); (None, 5.0); (None, 8.0);
                    (None, 9.0)])].

Definition _liquid_Density : gmap string pyval :=
  pydict
    [("eq", VInt 6);
     ("ao", VList [(None, 2.31174688); (None, -1.12912486);
                   (None, -1.439347); (None, 0.282489982)]);
     ("exp", VList [(None, 1.065); (None, 1.5); (None, 4.0); (None, 5.0)])].

Definition _vapor_Density : gmap string pyval :=
  pydict
    [("eq", VInt 6);
     ("ao", VList [(None, 23.68063442); (None, 0.513062232);
                   (None, -24.4706238); (None, -4.6715244);
                   (None, -1.7536843); (None, -6.65585369)]);
     ("exp", VList [(None, 1.044); (None, 0.5); (None, 1.0); (None, 2.0);
                    (None, 8.0); (None, 17.0)])].

End SF6.

(** ** More sample inputs *)

Module MoreSamples.
Local Open Scope R_scope.

(** The dict of [Samples.sample_state] without the key "virialC". *)
Definition sample_partial_fluid : gmap string pyval :=
  delete "virialC"
    (Serialization.snapshot Catalog.ThermoAdvanced Samples.sample_state).

(** A computed phase of which the attribute [w] was never set. *)
Definition sample_incomplete : Serialization.object :=
  {| Serialization._bool := true;
     Serialization.attrs := delete "w" (Serialization.attrs Samples.sample_state) |}.

End MoreSamples.

(** ** The options of [calcPoint] *)

Module CalcPointOptions.
Import UI_Tables.

(** The dict [option] of the MEOS branch: [config] itself, or the three
    integer options read from section "MEoS". *)
Definition options_read (config : Config) (option : gmap string Z) : Prop :=
  match config with
  | ConfigDict d => option = d
  | ConfigParser MEoS =>
      exists e v t,
        MEoS !! "eq" = Some e /\ MEoS !! "visco" = Some v /\
        MEoS !! "thermal" = Some t /\
        option = <["thermal" := t]> (<["visco" := v]> (<["eq" := e]> ∅))
  end.

End CalcPointOptions.

(** ** lib/utilities.py: [spreadsheetColumn] *)

Module Spreadsheet.
Local Open Scope Z_scope.

(** [chr(n)] for a code below 256. *)
Definition chr (n : Z) : Ascii.ascii := Ascii.ascii_of_nat (Z.to_nat n).

(** The loop [while index: ...]; [fuel] bounds the number of iterations,
    [None] stands for a loop that is still running when it is spent.
    [%] and [//] round towards minus infinity, as [mod] and [/] on [Z]. *)
Fixpoint column_loop (fuel : nat) (index : Z) (letters : list Ascii.ascii)
  : option (list Ascii.ascii) :=
  if bool_decide (index = 0) then Some letters
  else
    match fuel with
    | O => None
    | S fuel' =>
        let mod_ := index mod 26 in
        let index := index / 26 in
        column_loop fuel' index (letters ++ [chr (mod_ + 64)])
    end.

Definition spreadsheetColumn (fuel : nat) (index : Z) : option string :=
  letters ← column_loop fuel (index + 1) [];
  Some (String.string_of_list_ascii (reverse letters)).

(** The number that a column name spells in base 26, with the character
    of code 64 + d for the digit d. *)
Definition column_value (name : string) : Z :=
  fold_left (fun acc c => acc * 26 + (Z.of_nat (Ascii.nat_of_ascii c) - 64))
            (String.list_ascii_of_string name) 0.

End Spreadsheet.

(** ** tools/UI_Tables/lib.py: [get_propiedades] *)

Module Propiedades.
Import Catalog UI_Tables.

(** The loop [for indice, bool in zip(order, booleanos)] with its three
    accumulators; [zip] stops with the shorter list and indexing the
    catalog may raise. *)
Fixpoint get_propiedades_loop (pairs : list (Z * bool))
    (propiedades keys : list string) (units : list unit)
  : result (list string * list string * list unit) :=
  match pairs with
  | [] => Ok (propiedades, keys, units)
  | (indice, b) :: rest =>
      if b then
        prop ← py_index (properties ThermoAdvanced) indice;
        get_propiedades_loop rest (propiedades ++ [prop.1.1])
                             (keys ++ [prop.1.2]) (units ++ [prop.2])
      else get_propiedades_loop rest propiedades keys units
  end.

(** [get_propiedades(config)], from the two lists read in the
    configuration, once evaluated. *)
Definition get_propiedades (booleanos : list bool) (order : list Z)
  : result (list string * list string * list unit) :=
  get_propiedades_loop (zip order booleanos) [] [] [].

(** The indices that the loop looks up. *)
Definition chosen (booleanos : list bool) (order : list Z) : list Z :=
  (filter (fun p : Z * bool => p.2 = true) (zip order booleanos)).*1.

End Propiedades.

(** ** lib/thermo.py: the global properties of a stream *)

Module GlobalState.
Import Catalog Serialization.

(** [corriente.__getattribute__(name)] on an instance of another class,
    of which only the instance attributes are known. *)
Definition getattribute (corriente : object) (name : string) : result pyval :=
  match attrs corriente !! name with
  | Some x => Ok x
  | None => Raise AttributeError
  end.

Fixpoint fill_loop (self : object) (props : list string) (corriente : object)
  : object * option exn :=
  match props with
  | [] => (corriente, None)
  | prop :: rest =>
      match getattr self prop with
      | Ok x => fill_loop self rest (setattr prop x corriente)
      | Raise e => (corriente, Some e)
      end
  end.

(** [self._fillCorriente(corriente)] for [self] of class [c]. *)
Definition _fillCorriente (c : cls) (self corriente : object)
  : object * option exn :=
  fill_loop self (propertiesGlobal c) corriente.

Fixpoint write_loop (corriente : object) (props : list string)
    (state : gmap string pyval) : gmap string pyval * option exn :=
  match props with
  | [] => (state, None)
  | prop :: rest =>
      match getattribute corriente prop with
      | Ok x => write_loop corriente rest (<[prop := x]> state)
      | Raise e => (state, Some e)
      end
  end.

(** [self._writeGlobalState(corriente, state)] *)
Definition _writeGlobalState (c : cls) (corriente : object)
    (state : gmap string pyval) : gmap string pyval * option exn :=
  write_loop corriente (propertiesGlobal c) state.

(** The names read as lists in [_readGlobalState]. *)
Definition global_lists : list string :=
  ["K"; "csat"; "dpdt_sat"; "cv2p"; "chempot"].

(** The value that [_readGlobalState] assigns for [prop]: in the list
    comprehension [state[prop]] is evaluated first and [units[prop]] at
    the first element; otherwise [units[prop]] comes first. *)
Definition read_value (units : gmap string unit) (state : gmap string pyval)
    (prop : string) : result pyval :=
  if bool_decide (prop ∈ global_lists) then
    x ← getitem state prop;
    l ← pyiter x;
    match l with
    | [] => Ok (VList [])
    | _ :: _ =>
        u ← getitem units prop;
        Ok (VList (map (fun e : option unit * R => (Some u, e.2)) l))
    end
  else
    u ← getitem units prop;
    x ← getitem state prop;
    unidades_new u x.

Fixpoint read_loop (units : gmap string unit) (state : gmap string pyval)
    (props : list string) (corriente : object) : object * option exn :=
  match props with
  | [] => (corriente, None)
  | prop :: rest =>
      match read_value units state prop with
      | Ok value => read_loop units state rest (setattr prop value corriente)
      | Raise e => (corriente, Some e)
      end
  end.

(** [self._readGlobalState(corriente, state)] *)
Definition _readGlobalState (c : cls) (corriente : object)
    (state : gmap string pyval) : object * option exn :=
  read_loop (_dictUnit c) state (propertiesGlobal c) corriente.

(** The shape that [_readGlobalState] accepts for [prop]. *)
Definition shaped (prop : string) (x : pyval) : Prop :=
  if bool_decide (prop ∈ global_lists) then exists l, x = VList l
  else numeric x.

(** A value with the unit-kind [u] put on it. *)
Definition tagged (u : unit) (x : pyval) : pyval :=
  match x with
  | VList l => VList (map (fun e : option unit * R => (Some u, e.2)) l)
  | _ => VNum (Some u) (magnitude x)
  end.

End GlobalState.

(** ** lib/thermo.py: [Thermo._cp0] *)

Module Cp0.
Import Catalog Serialization.
Local Open Scope R_scope.

(** The arithmetic on attributes of [self] found in [_cp0]. *)
Inductive expr : Type :=
  | Attr (name : string)
  | Sub (a b : expr)
  | Mul (a b : expr)
  | Div (a b : expr).

(** Both operands are evaluated, then the operation is applied. *)
Fixpoint eval (self : object) (e : expr) : result pyval :=
  match e with
  | Attr name => getattr self name
  | Sub a b =>
      x ← eval self a; y ← eval self b;
      rx ← num_of x; ry ← num_of y;
      Ok (VNum None (rx - ry))
  | Mul a b =>
      x ← eval self a; y ← eval self b;
      rx ← num_of x; ry ← num_of y;
      Ok (VNum None (rx * ry))
  | Div a b =>
      x ← eval self a; y ← eval self b;
      rx ← num_of x; ry ← num_of y;
      r ← pydiv rx ry;
      Ok (VNum None r)
  end.

(** [self.attr = unidades.u(1./cp0[key])] *)
Definition assign_inverse_item (attr : string) (u : unit) (key : string)
  : step :=
  fun cp0 self =>
    assign_result attr
      (x ← getitem cp0 key;
       r ← num_of x;
       q ← pydiv 1 r;
       unidades_new u (VNum None q))
      self.

(** [self.attr = unidades.u(e)] *)
Definition assign_expr (attr : string) (u : unit) (e : expr) : step :=
  fun _ self => assign_result attr (x ← eval self e; unidades_new u x) self.

(** [self.attr = self.src] *)
Definition assign_copy (attr src : string) : step :=
  fun _ self => assign_result attr (getattr self src) self.

Definition _cp0_body : list step :=
  [ assign "v0" SpecificVolume "v";
    assign_inverse_item "rho0" Density "v";
    assign "h0" Enthalpy "h";
    assign_expr "u0" Enthalpy (Sub (Attr "h0") (Mul (Attr "P") (Attr "v0")));
    assign "s0" SpecificHeat "s";
    assign_expr "a0" Enthalpy (Sub (Attr "u0") (Mul (Attr "T") (Attr "s0")));
    assign_expr "g0" Enthalpy (Sub (Attr "h0") (Mul (Attr "T") (Attr "s0")));
    assign "cp0" SpecificHeat "cp";
    assign "cv0" SpecificHeat "cv";
    assign_expr "cp0_cv" Dimensionless (Div (Attr "cp0") (Attr "cv0"));
    assign "w0" Speed "w";
    assign_copy "gamma0" "cp0_cv";
    assign_expr "rhoM0" MolarDensity (Div (Attr "rho0") (Attr "M"));
    assign_expr "hM0" MolarEnthalpy (Mul (Attr "h0") (Attr "M"));
    assign_expr "uM0" MolarEnthalpy (Mul (Attr "u0") (Attr "M"));
    assign_expr "sM0" MolarSpecificHeat (Mul (Attr "s0") (Attr "M"));
    assign_expr "aM0" MolarEnthalpy (Mul (Attr "a0") (Attr "M"));
    assign_expr "gM0" MolarEnthalpy (Mul (Attr "g0") (Attr "M"));
    assign_expr "cpM0" MolarSpecificHeat (Mul (Attr "cp0") (Attr "M"));
    assign_expr "cvM0" MolarSpecificHeat (Mul (Attr "cv0") (Attr "M")) ].

(** [self._cp0(cp0)] *)
Definition _cp0 (cp0 : gmap string pyval) (self : object)
  : object * option exn :=
  block _cp0_body cp0 self.

(** The magnitude and the unit-kind of an attribute. *)
Definition quantity (self : object) (attr : string) : option (unit * R) :=
  match attrs self !! attr with
  | Some (VNum (Some u) r) => Some (u, r)
  | _ => None
  end.

(** The dict holds a number of magnitude [r] under [key]; the instance
    has a numeric attribute [name] of magnitude [r]. *)
Definition item_is (cp0 : gmap string pyval) (key : string) (r : R) : Prop :=
  exists x, cp0 !! key = Some x /\ numeric x /\ magnitude x = r.

Definition attr_is (self : object) (name : string) (r : R) : Prop :=
  exists x, getattr self name = Ok x /\ numeric x /\ magnitude x = r.

(** The attributes that [_cp0] assigns, in the order of assignment. *)
Definition specific_names : list string :=
  ["v0"; "rho0"; "h0"; "u0"; "s0"; "a0"; "g0"; "cp0"; "cv0"; "cp0_cv";
   "w0"; "gamma0"].

Definition molar_names : list string :=
  ["rhoM0"; "hM0"; "uM0"; "sM0"; "aM0"; "gM0"; "cpM0"; "cvM0"].

End Cp0.

(** ** Sample streams *)

Module GlobalSamples.
Import Catalog Serialization GlobalState.
Local Open Scope R_scope.

(** A stream that holds every global property of class [c]: the float
    2, and the list [1/2, 1/2] for the names read as lists. *)
Definition sample_stream (c : cls) : object :=
  {| _bool := true;
     attrs :=
       pydict (map (fun p : string =>
                      (p, if bool_decide (p ∈ global_lists)
                          then VList [(None, 1 / 2); (None, 1 / 2)]
                          else VNum None 2))
                   (propertiesGlobal c)) |}.

(** A stream without attributes. *)
Definition empty_stream : object := {| _bool := false; attrs := ∅ |}.

(** A state dict that ends after the reduced temperature. *)
Definition short_state : gmap string pyval :=
  pydict [("T", VNum None 300); ("Tr", VNum None 2)].

(** A state on which only the temperature was computed. *)
Definition cold_state : object :=
  {| _bool := true; attrs := pydict [("T", VNum None 300)] |}.

End GlobalSamples.

(** ** Sample ideal-gas data *)

Module Cp0Samples.
Import Serialization.
Local Open Scope R_scope.

(** The dict of ideal-gas properties handed to [_cp0]. *)
Definition sample_cp0 : gmap string pyval :=
  pydict [("v", VNum None 2); ("h", VNum None 10); ("s", VNum None 1);
          ("cp", VNum None 3); ("cv", VNum None 2); ("w", VNum None 5)].

(** The same with a zero volume. *)
Definition zero_cp0 : gmap string pyval := <["v" := VInt 0]> sample_cp0.

(** A state with pressure, temperature and molar mass. *)
Definition sample_self : object :=
  {| _bool := true;
     attrs := pydict [("P", VNum (Some Pressure) 4);
                      ("T", VNum (Some Temperature) 3);
                      ("M", VNum None 2)] |}.

(** A state whose class defines no molar mass. *)
Definition massless_self : object :=
  {| _bool := true;
     attrs := pydict [("P", VNum (Some Pressure) 4);
                      ("T", VNum (Some Temperature) 3)] |}.

End Cp0Samples.

(** ** Sample coefficient dicts outside the range of real powers *)

Module PowerSamples.
Local Open Scope R_scope.

(** The principal value of [x ** y] for a negative [x]. *)
Definition Cpower (x y : R) : R * R :=
  (Rpower (- x) y * cos (y * PI), Rpower (- x) y * sin (y * PI)).

(** One term with the exponent -1, of form 6. *)
Definition coef_inverse : gmap string pyval :=
  pydict [("eq", VInt 6); ("n", VList [(None, 1)]);
          ("t", VList [(None, -1)])].

(** One term with the exponent 1/2, of form 2 and of form 6. *)
Definition coef_root2 : gmap string pyval :=
  pydict [("eq", VInt 2); ("n", VList [(None, 1)]);
          ("t", VList [(None, 1 / 2)])].
Definition coef_root6 : gmap string pyval :=
  pydict [("eq", VInt 6); ("n", VList [(None, 1)]);
          ("t", VList [(None, 1 / 2)])].

(** Two lists and no equation form. *)
Definition coef_noeq : gmap string pyval :=
  pydict [("n", VList [(None, 1)]); ("t", VList [(None, 1)])].

End PowerSamples.

(** ** A dict with every key and a zero volume *)

Module ZeroVolume.
Local Open Scope R_scope.

(** The dict of [Samples.sample_old_fluid], which holds every key but
    the optional ones, with the number zero under "v". *)
Definition zero_volume_fluid : gmap string pyval :=
  <["v" := VNum None 0]> Samples.sample_old_fluid.

End ZeroVolume.

(** * Verified properties *)

(** ** Generic facts about the Python primitives *)

Section PrimitiveFacts.
Local Open Scope R_scope.

Lemma pydiv_ok a b : b <> 0 -> pydiv a b = Ok (a / b).
Proof. intros H. unfold pydiv. case_decide; [contradiction | reflexivity]. Qed.

Lemma pydiv_zero a : pydiv a 0 = Raise ZeroDivisionError.
Proof. unfold pydiv. case_decide; [reflexivity | congruence]. Qed.

Lemma getitem_total {V} `{Inhabited V} (d : gmap string V) k :
  is_Some (d !! k) -> getitem d k = Ok (d !!! k).
Proof.
  intros [w Hw]. unfold getitem.
  rewrite (lookup_total_correct _ _ _ Hw), Hw. reflexivity.
Qed.

Lemma bind_Ok {A B} (a : A) (f : A -> result B) : (Ok a ≫= f) = f a.
Proof. reflexivity. Qed.

Lemma bind_Raise {A B} (e : exn) (f : A -> result B) :
  (Raise e ≫= f) = Raise e.
Proof. reflexivity. Qed.

End PrimitiveFacts.

(** ** The derivative engine of [Thermo.derivative] *)

Section DerivativeFacts.
Import Derivative Samples.
Local Open Scope R_scope.

Lemma build_dT_inv self fase dT :
  build_dT self fase = Ok dT ->
  T self <> 0 /\
  dT = pydict
    [("P", 0); ("T", 1); ("v", v fase * alfav fase);
     ("u", cp fase - P self * v fase * alfav fase);
     ("h", cp fase); ("s", cp fase / T self); ("g", - s fase);
     ("a", - P self * v fase * alfav fase - s fase)].
Proof.
  unfold build_dT, pydiv. case_decide as H0; simpl; [discriminate|].
  intros [= <-]. split; [assumption | reflexivity].
Qed.

Ltac split_base H :=
  unfold base_variables in H;
  repeat (apply elem_of_cons in H as [-> | H]; [|]);
  [.. | inversion H].

Lemma base_in_dP self fase k :
  k ∈ base_variables -> is_Some (build_dP self fase !! k).
Proof. intros H. split_base H; eexists; reflexivity. Qed.

Lemma base_in_dT self fase dT k :
  build_dT self fase = Ok dT ->
  k ∈ base_variables -> is_Some (dT !! k).
Proof.
  intros [_ ->]%build_dT_inv H. split_base H; eexists; reflexivity.
Qed.

Lemma derivative_unfold self fase dT z x y :
  build_dT self fase = Ok dT ->
  z ∈ base_variables -> x ∈ base_variables -> y ∈ base_variables ->
  derivative self z x y fase =
  pydiv (jacobian dT (build_dP self fase) z y)
        (jacobian dT (build_dP self fase) x y).
Proof.
  intros HdT Hz Hx Hy. unfold derivative. rewrite HdT. simpl.
  rewrite !getitem_total
    by (eauto using base_in_dP, base_in_dT).
  simpl. reflexivity.
Qed.

Lemma jacobian_antisym dT dP a b : jacobian dT dP a b = - jacobian dT dP b a.
Proof. unfold jacobian. ring. Qed.

Lemma jacobian_diag dT dP a : jacobian dT dP a a = 0.
Proof. unfold jacobian. ring. Qed.



Lemma build_dP_entries self fase :
  let dP := build_dP self fase in
  dP !!! "P" = 1 /\ dP !!! "T" = 0 /\
  dP !!! "v" = - v fase * kappa fase /\
  dP !!! "u" = v fase * (P self * kappa fase - T self * alfav fase) /\
  dP !!! "h" = v fase * (1 - T self * alfav fase) /\
  dP !!! "s" = - v fase * alfav fase /\
  dP !!! "g" = v fase /\
  dP !!! "a" = P self * v fase * kappa fase.
Proof.
  intros dP.
  repeat (split; [apply lookup_total_correct; reflexivity |]).
  apply lookup_total_correct; reflexivity.
Qed.

Lemma build_dT_entries self fase dT :
  build_dT self fase = Ok dT ->
  dT !!! "P" = 0 /\ dT !!! "T" = 1 /\
  dT !!! "v" = v fase * alfav fase /\
  dT !!! "u" = cp fase - P self * v fase * alfav fase /\
  dT !!! "h" = cp fase /\
  dT !!! "s" = cp fase / T self /\
  dT !!! "g" = - s fase /\
  dT !!! "a" = - P self * v fase * alfav fase - s fase.
Proof.
  intros [_ ->]%build_dT_inv.
  repeat (split; [apply lookup_total_correct; reflexivity |]).
  apply lookup_total_correct; reflexivity.
Qed.

(** C1.  Once the table [dT] is built (its entry for "s" is cp/T), for
    base variables z, x, y with x ≠ y and a nonzero denominator,
    [derivative] returns the Jacobian ratio
    (dP[z]·dT[y] − dT[z]·dP[y]) / (dP[x]·dT[y] − dT[x]·dP[y]);
    [derivative(z, "P", "T")] is the entry dP[z] and
    [derivative(z, "T", "P")] the entry dT[z], with
    dP["h"] = v·(1 − T·αv), dP["g"] = v, dT["h"] = cp, dT["s"] = cp/T and
    dT["g"] = −s. *)
Theorem derivative_jacobian_ratio self fase dT z x y :
  build_dT self fase = Ok dT ->
  z ∈ base_variables -> x ∈ base_variables -> y ∈ base_variables ->
  x <> y ->
  jacobian dT (build_dP self fase) x y <> 0 ->
  let dP := build_dP self fase in
  derivative self z x y fase =
    Ok ((dP !!! z * dT !!! y - dT !!! z * dP !!! y) /
        (dP !!! x * dT !!! y - dT !!! x * dP !!! y))
  /\ derivative self z "P" "T" fase = Ok (dP !!! z)
  /\ derivative self z "T" "P" fase = Ok (dT !!! z)
  /\ dP !!! "h" = v fase * (1 - T self * alfav fase)
  /\ dP !!! "g" = v fase
  /\ dT !!! "h" = cp fase
  /\ dT !!! "s" = cp fase / T self
  /\ dT !!! "g" = - s fase.
Proof.
  intros HdT Hz Hx Hy Hxy Hden dP.
  assert (HP : "P" ∈ base_variables) by (unfold base_variables; repeat constructor).
  assert (HT : "T" ∈ base_variables) by (unfold base_variables; repeat constructor).
  destruct (build_dP_entries self fase) as (PP & PT & _ & _ & Ph & _ & Pg & _).
  destruct (build_dT_entries self fase dT HdT) as (TP & TT & _ & _ & Th & Ts & Tg & _).
  fold dP in PP, PT, Ph, Pg.
  split; [| split; [| split]].
  - rewrite (derivative_unfold _ _ dT) by assumption.
    rewrite pydiv_ok by assumption. reflexivity.
  - rewrite (derivative_unfold _ _ dT) by assumption.
    unfold jacobian. fold dP. rewrite PP, PT, TP, TT.
    rewrite pydiv_ok by lra. f_equal. field.
  - rewrite (derivative_unfold _ _ dT) by assumption.
    unfold jacobian. fold dP. rewrite PP, PT, TP, TT.
    rewrite pydiv_ok by lra. f_equal. field.
  - auto.
Qed.

(** C2.  With the tables built and z, x, y base variables: if x ≠ y and
    both denominators are nonzero, the two derivatives exist and
    derivative(z,x,y)·derivative(x,z,y) = 1; if z, x, y are pairwise
    distinct and the three Jacobians involved are nonzero, the three
    derivatives exist and derivative(z,x,y) is the float quotient
    −derivative(z,y,x) / derivative(x,y,z). *)
Theorem reciprocal_and_triple_product self fase dT z x y :
  build_dT self fase = Ok dT ->
  z ∈ base_variables -> x ∈ base_variables -> y ∈ base_variables ->
  let J := jacobian dT (build_dP self fase) in
  (x <> y -> J x y <> 0 -> J z y <> 0 ->
   exists a b,
     derivative self z x y fase = Ok a /\
     derivative self x z y fase = Ok b /\
     a * b = 1)
  /\
  (x <> y -> y <> z -> z <> x ->
   J x y <> 0 -> J y z <> 0 -> J x z <> 0 ->
   exists a b c,
     derivative self z x y fase = Ok a /\
     derivative self z y x fase = Ok b /\
     derivative self x y z fase = Ok c /\
     pydiv (- b) c = Ok a).
Proof.
  intros HdT Hz Hx Hy J. split.
  - intros _ Hxy Hzy.
    exists (J z y / J x y), (J x y / J z y).
    rewrite !(derivative_unfold _ _ dT) by assumption. fold J.
    rewrite !pydiv_ok by assumption.
    split; [reflexivity | split; [reflexivity |]].
    field. split; assumption.
  - intros _ _ _ Hxy Hyz Hxz.
    assert (Hyx : J y x <> 0).
    { unfold J. rewrite jacobian_antisym. fold J. lra. }
    exists (J z y / J x y), (J z x / J y x), (J x z / J y z).
    rewrite !(derivative_unfold _ _ dT) by assumption. fold J.
    rewrite !pydiv_ok by assumption.
    assert (Hc : J x z / J y z <> 0).
    { unfold Rdiv. apply Rmult_integral_contrapositive_currified;
        [assumption | apply Rinv_neq_0_compat; assumption]. }
    rewrite pydiv_ok by assumption.
    split; [reflexivity | split; [reflexivity | split; [reflexivity |]]].
    f_equal.
    assert (E1 : J z x = - J x z) by (unfold J; apply jacobian_antisym).
    assert (E2 : J y x = - J x y) by (unfold J; apply jacobian_antisym).
    assert (E3 : J z y = - J y z) by (unfold J; apply jacobian_antisym).
    rewrite E1, E2, E3. field. auto.
Qed.

(** C8.  For base variables z and x, [derivative(z, x, x)] raises
    ZeroDivisionError whatever the state, and its denominator
    dP[x]·dT[x] − dT[x]·dP[x] is zero for every table. *)
Theorem derivative_same_variable_undefined self fase z x :
  z ∈ base_variables -> x ∈ base_variables ->
  derivative self z x x fase = Raise ZeroDivisionError
  /\ forall dT, jacobian dT (build_dP self fase) x x = 0.
Proof.
  intros Hz Hx. split; [| intros; apply jacobian_diag].
  destruct (build_dT self fase) as [dT | e] eqn:HdT.
  - rewrite (derivative_unfold _ _ dT) by assumption.
    rewrite jacobian_diag. apply pydiv_zero.
  - unfold derivative. rewrite HdT.
    unfold build_dT, pydiv in HdT.
    destruct (decide (T self = 0)); [injection HdT as <- | discriminate].
    reflexivity.
Qed.


Lemma build_dT_self1 : build_dT self1 fase1 = Ok (pydict
    [("P", 0); ("T", 1); ("v", 1 * 1); ("u", 1 - 1 * 1 * 1);
     ("h", 1); ("s", 1 / 1); ("g", - 1); ("a", - 1 * 1 * 1 - 1)]).
Proof. unfold build_dT. simpl. rewrite pydiv_ok by lra. reflexivity. Qed.

Lemma jacobians_self1 :
  let dT := pydict
    [("P", 0); ("T", 1); ("v", 1 * 1); ("u", 1 - 1 * 1 * 1);
     ("h", 1); ("s", 1 / 1); ("g", - 1); ("a", - 1 * 1 * 1 - 1)] in
  let J := jacobian dT (build_dP self1 fase1) in
  J "P" "T" = 1 /\ J "g" "T" = 1 /\ J "T" "g" = -1 /\ J "P" "g" = -1.
Proof.
  intros dT J.
  pose proof (build_dT_entries _ _ _ build_dT_self1)
    as (TP & TT & _ & _ & _ & _ & Tg & _).
  pose proof (build_dP_entries self1 fase1)
    as (PP & PT & _ & _ & _ & _ & Pg & _).
  cbn [v s fase1] in *. fold dT in TP, TT, Tg.
  unfold J, jacobian. rewrite PP, PT, Pg, TP, TT, Tg.
  split; [lra | split; [lra | split; lra]].
Qed.

Ltac base_member := unfold base_variables; repeat constructor.

Lemma derivative_jacobian_ratio_witness :
  derivative self1 "g" "P" "T" fase1 = Ok (build_dP self1 fase1 !!! "g").
Proof.
  destruct jacobians_self1 as (JPT & _).
  apply (derivative_jacobian_ratio self1 fase1 _ "g" "P" "T" build_dT_self1);
    [base_member | base_member | base_member | discriminate |].
  rewrite JPT. lra.
Defined.

Lemma reciprocal_and_triple_product_witness :
  (exists a b,
     derivative self1 "g" "P" "T" fase1 = Ok a /\
     derivative self1 "P" "g" "T" fase1 = Ok b /\ a * b = 1)
  /\
  (exists a b c,
     derivative self1 "g" "P" "T" fase1 = Ok a /\
     derivative self1 "g" "T" "P" fase1 = Ok b /\
     derivative self1 "P" "T" "g" fase1 = Ok c /\
     pydiv (- b) c = Ok a).
Proof.
  destruct jacobians_self1 as (JPT & JgT & JTg & JPg).
  destruct (reciprocal_and_triple_product self1 fase1 _ "g" "P" "T"
              build_dT_self1) as [Hrec Htri];
    [base_member | base_member | base_member |].
  split.
  - apply Hrec; [discriminate | rewrite JPT; lra | rewrite JgT; lra].
  - apply Htri; [discriminate | discriminate | discriminate
                | rewrite JPT; lra | rewrite JTg; lra | rewrite JPg; lra].
Defined.

Lemma derivative_same_variable_undefined_witness :
  derivative self1 "g" "P" "P" fase1 = Raise ZeroDivisionError.
Proof.
  apply (derivative_same_variable_undefined self1 fase1 "g" "P");
    base_member.
Defined.

End DerivativeFacts.

(** ** The ancillary equation [SimpleEq] *)

Section SimpleEqFacts.
Import Utilities.
Local Open Scope R_scope.

Variable float_pow : R -> R -> R.
Variable complex_pow : R -> R -> R * R.

(** *** The power *)

Lemma py_pow_real x y :
  real_power x y -> py_pow float_pow complex_pow x y = Ok (Float (float_pow x y)).
Proof.
  intros [Hz Hc]. unfold py_pow.
  rewrite bool_decide_eq_false_2 by exact Hz.
  rewrite bool_decide_eq_false_2 by exact Hc. reflexivity.
Qed.

Lemma py_pow_zero y :
  y < 0 -> py_pow float_pow complex_pow 0 y = Raise ZeroDivisionError.
Proof.
  intros Hy. unfold py_pow. rewrite bool_decide_eq_true_2; [reflexivity |].
  split; [reflexivity | exact Hy].
Qed.

Lemma py_pow_zero_base y :
  0 <= y -> py_pow float_pow complex_pow 0 y = Ok (Float (float_pow 0 y)).
Proof.
  intros Hy. apply py_pow_real. split; intros [H1 H2]; lra.
Qed.

Lemma py_pow_complex x y :
  x < 0 -> ~ whole y ->
  py_pow float_pow complex_pow x y
  = Ok (Complex (complex_pow x y).1 (complex_pow x y).2).
Proof.
  intros Hx Hy. unfold py_pow.
  rewrite bool_decide_eq_false_2 by (intros [H _]; lra).
  rewrite bool_decide_eq_true_2 by (split; assumption). reflexivity.
Qed.

Lemma py_pow_nonzero x y :
  x <> 0 -> exists p, py_pow float_pow complex_pow x y = Ok p.
Proof.
  intros Hx. unfold py_pow.
  rewrite bool_decide_eq_false_2 by (intros [H _]; contradiction).
  case_bool_decide; eexists; reflexivity.
Qed.

Lemma real_power_positive x y : 0 < x -> real_power x y.
Proof. intros Hx. split; intros [H _]; lra. Qed.

(** *** The loop *)

Lemma accumulate_loop_real Tita (ns ts : list (option unit * R)) :
  forall acc,
    Forall (real_power Tita) (exponents ns ts) ->
    accumulate_loop float_pow complex_pow Tita (zip ns ts) (Float acc)
    = Ok (Float (acc + theta_sum float_pow Tita (map snd ns) (map snd ts))).
Proof.
  revert ts. induction ns as [| n ns IH]; intros ts acc Hall.
  - cbn. do 2 f_equal. ring.
  - destruct ts as [| t ts].
    + cbn. do 2 f_equal. ring.
    + unfold exponents in Hall. cbn [zip zip_with fmap list_fmap] in Hall.
      apply Forall_cons in Hall as [Ht Hall].
      cbn [zip zip_with accumulate_loop map theta_sum].
      cbn [fst snd] in *. rewrite (py_pow_real _ _ Ht), bind_Ok.
      cbn [num_scale num_add]. rewrite (IH ts _ Hall).
      do 2 f_equal. ring.
Qed.

Lemma accumulate_real Tita ns ts :
  Forall (real_power Tita) (exponents ns ts) ->
  accumulate float_pow complex_pow Tita ns ts
  = Ok (Float (theta_sum float_pow Tita (map snd ns) (map snd ts))).
Proof.
  intros Hall. unfold accumulate. rewrite (accumulate_loop_real _ _ _ _ Hall).
  do 2 f_equal. ring.
Qed.

(** At a zero base the loop stops at the first negative exponent. *)
Lemma accumulate_loop_zero (ns ts : list (option unit * R)) :
  forall pr,
    Exists (fun t => t < 0) (exponents ns ts) ->
    accumulate_loop float_pow complex_pow 0 (zip ns ts) pr
    = Raise ZeroDivisionError.
Proof.
  revert ts. induction ns as [| n ns IH]; intros ts pr Hex.
  - cbn in Hex. inversion Hex.
  - destruct ts as [| t ts]; [cbn in Hex; inversion Hex |].
    unfold exponents in Hex. cbn [zip zip_with fmap list_fmap] in Hex.
    cbn [zip zip_with accumulate_loop]. cbn [fst snd] in *.
    destruct (Rlt_dec t.2 0) as [Hneg | Hpos].
    + rewrite (py_pow_zero _ Hneg). apply bind_Raise.
    + rewrite py_pow_zero_base by lra. rewrite bind_Ok. apply IH.
      apply Exists_cons in Hex as [Hneg | Hex]; [contradiction | exact Hex].
Qed.

(** Away from a zero base, and without negative exponents, the loop
    does not raise. *)
Lemma accumulate_loop_returns Tita (ns ts : list (option unit * R)) :
  forall pr,
    Tita <> 0 \/ Forall (fun t => 0 <= t) (exponents ns ts) ->
    exists pr', accumulate_loop float_pow complex_pow Tita (zip ns ts) pr
                = Ok pr'.
Proof.
  revert ts. induction ns as [| n ns IH]; intros ts pr Hok.
  - eexists. reflexivity.
  - destruct ts as [| t ts]; [eexists; reflexivity |].
    cbn [zip zip_with accumulate_loop]. cbn [fst snd].
    assert (Hp : exists p, py_pow float_pow complex_pow Tita t.2 = Ok p).
    { destruct Hok as [Hne | Hall].
      - by apply py_pow_nonzero.
      - unfold exponents in Hall. cbn [zip zip_with fmap list_fmap] in Hall.
        apply Forall_cons in Hall as [Ht _]. cbn [snd] in Ht.
        destruct (Req_dec_T Tita 0) as [-> | Hne].
        + eexists. by apply py_pow_zero_base.
        + by apply py_pow_nonzero. }
    destruct Hp as [p Hp]. rewrite Hp, bind_Ok. apply IH.
    destruct Hok as [Hne | Hall]; [by left | right].
    unfold exponents in Hall. cbn [zip zip_with fmap list_fmap] in Hall.
    by apply Forall_cons in Hall as [_ Hall].
Qed.

(** Below a zero base a complex sum stays complex, and the first
    exponent that is not whole makes the sum complex. *)
Lemma accumulate_loop_stays_complex Tita
    (pairs : list ((option unit * R) * (option unit * R))) :
  Tita < 0 ->
  forall re im, exists re' im',
    accumulate_loop float_pow complex_pow Tita pairs (Complex re im)
    = Ok (Complex re' im').
Proof.
  intros Hneg. induction pairs as [| nt pairs IH]; intros re im.
  - do 2 eexists. reflexivity.
  - cbn [accumulate_loop].
    destruct (py_pow_nonzero Tita nt.2.2) as [p Hp]; [lra |].
    rewrite Hp, bind_Ok. destruct p; cbn [num_scale num_add]; apply IH.
Qed.

Lemma accumulate_loop_complex Tita (ns ts : list (option unit * R)) :
  Tita < 0 ->
  forall pr,
    Exists (fun t => ~ whole t) (exponents ns ts) ->
    exists re im,
      accumulate_loop float_pow complex_pow Tita (zip ns ts) pr
      = Ok (Complex re im).
Proof.
  intros Hneg. revert ts. induction ns as [| n ns IH]; intros ts pr Hex.
  - cbn in Hex. inversion Hex.
  - destruct ts as [| t ts]; [cbn in Hex; inversion Hex |].
    unfold exponents in Hex. cbn [zip zip_with fmap list_fmap] in Hex.
    cbn [zip zip_with accumulate_loop]. cbn [fst snd] in *.
    apply Exists_cons in Hex as [Hfrac | Hex].
    + rewrite (py_pow_complex _ _ Hneg Hfrac), bind_Ok.
      destruct pr; cbn [num_scale num_add];
        by apply accumulate_loop_stays_complex.
    + destruct (py_pow_nonzero Tita t.2) as [p Hp]; [lra |].
      rewrite Hp, bind_Ok. by apply IH.
Qed.

(** *** One run *)

(** [SimpleEq] on a well-typed coefficient dict: the loop, then the
    three tests on the equation form. *)
Lemma SimpleEq_run Tc T coef ns ts (e : Z) :
  Tc <> 0 ->
  coef !! "n" = Some (VList ns) ->
  coef !! "t" = Some (VList ts) ->
  coef !! "eq" = Some (VInt e) ->
  SimpleEq float_pow complex_pow Tc T coef =
    match accumulate float_pow complex_pow (1 - T / Tc) ns ts with
    | Raise err => Raise err
    | Ok s =>
        let pr := if bool_decide (e = 1%Z) then num_add s (Float 1) else s in
        if bool_decide (e = 3%Z)
        then match pydiv Tc T with
             | Ok q => math_exp (num_times pr q)
             | Raise err => Raise err
             end
        else if bool_decide (e = 2%Z) then math_exp pr else Ok pr
    end.
Proof.
  intros HTc Hn Ht He. unfold SimpleEq, getitem.
  rewrite (pydiv_ok T Tc HTc), Hn, Ht, He, !bind_Ok. cbn [pyiter].
  rewrite !bind_Ok.
  destruct (accumulate float_pow complex_pow (1 - T / Tc) ns ts) as [s | err];
    [rewrite !bind_Ok | apply bind_Raise].
  cbn [eq_int]. cbv zeta.
  destruct (bool_decide (e = 3%Z)) eqn:E3.
  - destruct (pydiv Tc T) as [q | err];
      [rewrite !bind_Ok | rewrite bind_Raise; apply bind_Raise].
    cbn [eq_int]. rewrite E3, orb_true_r. reflexivity.
  - rewrite !bind_Ok. cbn [eq_int]. rewrite E3, orb_false_r.
    destruct (bool_decide (e = 2%Z)); reflexivity.
Qed.

(** The run when every power is a float. *)
Lemma SimpleEq_real Tc T coef ns ts (e : Z) :
  Tc <> 0 ->
  coef !! "n" = Some (VList ns) ->
  coef !! "t" = Some (VList ts) ->
  coef !! "eq" = Some (VInt e) ->
  Forall (real_power (1 - T / Tc)) (exponents ns ts) ->
  SimpleEq float_pow complex_pow Tc T coef =
    let s := theta_sum float_pow (1 - T / Tc) (map snd ns) (map snd ts) in
    let pr := if bool_decide (e = 1%Z) then s + 1 else s in
    if bool_decide (e = 3%Z)
    then match pydiv Tc T with
         | Ok q => Ok (Float (exp (pr * q)))
         | Raise err => Raise err
         end
    else Ok (Float (if bool_decide (e = 2%Z) then exp pr else pr)).
Proof.
  intros HTc Hn Ht He Hreal.
  rewrite (SimpleEq_run Tc T coef ns ts e HTc Hn Ht He).
  rewrite (accumulate_real _ _ _ Hreal). cbv zeta.
  destruct (bool_decide (e = 1%Z)); destruct (bool_decide (e = 3%Z));
    destruct (bool_decide (e = 2%Z)); cbn [num_add num_times math_exp];
    try reflexivity; destruct (pydiv Tc T); reflexivity.
Qed.

Lemma theta_below_Tc Tc T : 0 < Tc -> T < Tc -> 0 < 1 - T / Tc.
Proof.
  intros HTc HT. apply Rlt_0_minus.
  apply (Rmult_lt_reg_r Tc); [exact HTc |].
  replace (T / Tc * Tc) with T by (field; lra). lra.
Qed.

Lemma theta_at_Tc Tc : Tc <> 0 -> 1 - Tc / Tc = 0.
Proof. intros H. field. exact H. Qed.

Lemma theta_above_Tc Tc T : 0 < Tc -> Tc < T -> 1 - T / Tc < 0.
Proof.
  intros HTc HT. apply Rlt_minus.
  apply (Rmult_lt_reg_r Tc); [exact HTc |].
  replace (T / Tc * Tc) with T by (field; lra). lra.
Qed.

(** C3 (amended).  For Tc > 0 and a coefficient dict with lists [n], [t]
    and integer [eq], with θ = 1 − T/Tc and s = Σ nᵢ·θ^tᵢ over the paired
    entries.  When every power θ^tᵢ is a float (as it is for T < Tc;
    in general: not a zero θ with a negative tᵢ, and not a negative θ
    with a tᵢ that is not whole): form 1 returns 1 + s, form 2 returns
    exp(s), form 3 returns exp(s·(Tc/T)) when T ≠ 0 and raises
    ZeroDivisionError when T = 0, and forms 5 and 6 return s itself,
    without exponential.  When T = Tc and some paired exponent is
    negative, the loop raises ZeroDivisionError, whatever the form.
    When T > Tc and some paired exponent is not whole, the sum is a
    complex number: forms 2 and 3 raise TypeError in [exp], forms 1, 5
    and 6 return a complex number. *)
Theorem SimpleEq_forms Tc T coef ns ts (e : Z) :
  0 < Tc ->
  coef !! "n" = Some (VList ns) ->
  coef !! "t" = Some (VList ts) ->
  coef !! "eq" = Some (VInt e) ->
  let theta := 1 - T / Tc in
  let s := theta_sum float_pow theta (map snd ns) (map snd ts) in
  let run := SimpleEq float_pow complex_pow Tc T coef in
  (T < Tc -> Forall (real_power theta) (exponents ns ts)) /\
  (Forall (real_power theta) (exponents ns ts) ->
     (e = 1%Z -> run = Ok (Float (1 + s))) /\
     (e = 2%Z -> run = Ok (Float (exp s))) /\
     (e = 3%Z -> T <> 0 -> run = Ok (Float (exp (s * (Tc / T))))) /\
     (e = 3%Z -> T = 0 -> run = Raise ZeroDivisionError) /\
     (e = 5%Z \/ e = 6%Z -> run = Ok (Float s))) /\
  (T = Tc -> Exists (fun t => t < 0) (exponents ns ts) ->
     run = Raise ZeroDivisionError) /\
  (Tc < T -> Exists (fun t => ~ whole t) (exponents ns ts) ->
     (e = 2%Z \/ e = 3%Z -> run = Raise TypeError) /\
     (e = 1%Z \/ e = 5%Z \/ e = 6%Z ->
        exists re im, run = Ok (Complex re im))).
Proof.
  intros HTc Hn Ht He theta s run.
  assert (HTc' : Tc <> 0) by lra.
  split; [| split; [| split]].
  - intros HT. apply Forall_forall. intros t _. apply real_power_positive.
    by apply theta_below_Tc.
  - intros Hreal.
    assert (Hrun := SimpleEq_real Tc T coef ns ts e HTc' Hn Ht He Hreal).
    fold theta s run in Hrun. cbv zeta in Hrun.
    split; [| split; [| split; [| split]]].
    + intros ->. rewrite Hrun. simpl. do 2 f_equal. ring.
    + intros ->. rewrite Hrun. reflexivity.
    + intros -> HT. rewrite Hrun. simpl. rewrite (pydiv_ok Tc T HT).
      reflexivity.
    + intros -> ->. rewrite Hrun. simpl. rewrite pydiv_zero. reflexivity.
    + intros [-> | ->]; rewrite Hrun; reflexivity.
  - intros -> Hex. unfold run.
    rewrite (SimpleEq_run Tc Tc coef ns ts e HTc' Hn Ht He).
    unfold accumulate. rewrite (theta_at_Tc Tc HTc').
    rewrite (accumulate_loop_zero _ _ _ Hex). reflexivity.
  - intros HT Hex.
    assert (Hneg : theta < 0) by (by apply theta_above_Tc).
    destruct (accumulate_loop_complex theta ns ts Hneg (Float 0) Hex)
      as (re & im & Hacc).
    assert (Hrun := SimpleEq_run Tc T coef ns ts e HTc' Hn Ht He).
    fold theta run in Hrun.
    unfold accumulate in Hrun. rewrite Hacc in Hrun. cbv zeta in Hrun.
    split.
    + intros [-> | ->]; rewrite Hrun; simpl; [reflexivity |].
      rewrite pydiv_ok by lra. reflexivity.
    + intros [-> | [-> | ->]]; rewrite Hrun; simpl; do 2 eexists;
        reflexivity.
Qed.

End SimpleEqFacts.

Section SimpleEqSamples.
Import Utilities Samples PowerSamples.
Local Open Scope R_scope.

Lemma half_positive : 0 < 1 - 1 / 2.
Proof. lra. Qed.

Lemma one_positive : 0 < 1 - 0 / 2.
Proof. lra. Qed.

Lemma half_not_whole : ~ whole (1 / 2).
Proof.
  unfold whole. generalize (Int_part (1 / 2)). intros k Hk.
  assert (H : IZR (2 * k) = IZR 1) by (rewrite mult_IZR, <- Hk; lra).
  apply eq_IZR in H. lia.
Qed.

Lemma SimpleEq_coef6 :
  SimpleEq Rpower Cpower 2 1 coef6
  = Ok (Float (theta_sum Rpower (1 - 1 / 2) [1] [1])).
Proof.
  assert (H2 : (2 : R) <> 0) by lra.
  rewrite (SimpleEq_real Rpower Cpower 2 1 coef6 [(None, 1)] [(None, 1)] 6
             H2 eq_refl eq_refl eq_refl).
  - reflexivity.
  - apply List.Forall_cons; [| apply List.Forall_nil].
    apply real_power_positive, half_positive.
Qed.

(** C3, counterexample.  On a dict of form 6 the result is the sum, not
    its exponential; on a dict of form 3 at T = 0 the call raises. *)
Lemma SimpleEq_form6_and_T0_counterexample :
  SimpleEq Rpower Cpower 2 1 coef6
    <> Ok (Float (exp (theta_sum Rpower (1 - 1 / 2) [1] [1])))
  /\ SimpleEq Rpower Cpower 2 0 coef3 = Raise ZeroDivisionError.
Proof.
  split.
  - rewrite SimpleEq_coef6.
    generalize (theta_sum Rpower (1 - 1 / 2) [1] [1]). intros x H.
    assert (Hx : x = exp x) by congruence.
    pose proof (exp_ineq1_le x). lra.
  - assert (H2 : (2 : R) <> 0) by lra.
    rewrite (SimpleEq_real Rpower Cpower 2 0 coef3 [(None, 1)] [(None, 1)] 3
               H2 eq_refl eq_refl eq_refl).
    + simpl. rewrite pydiv_zero. reflexivity.
    + apply List.Forall_cons; [| apply List.Forall_nil].
      apply real_power_positive, one_positive.
Qed.

Lemma SimpleEq_forms_witness :
  SimpleEq Rpower Cpower 2 1 coef6
    = Ok (Float (theta_sum Rpower (1 - 1 / 2) [1] [1])) /\
  SimpleEq Rpower Cpower 2 2 coef_inverse = Raise ZeroDivisionError /\
  SimpleEq Rpower Cpower 2 3 coef_root2 = Raise TypeError /\
  exists re im, SimpleEq Rpower Cpower 2 3 coef_root6 = Ok (Complex re im).
Proof.
  assert (H2 : (0 : R) < 2) by lra.
  assert (H12 : (1 : R) < 2) by lra.
  assert (H23 : (2 : R) < 3) by lra.
  split; [| split; [| split]].
  - destruct (SimpleEq_forms Rpower Cpower 2 1 coef6 [(None, 1)] [(None, 1)]
                6 H2 eq_refl eq_refl eq_refl) as (Hreal & H & _).
    apply (H (Hreal H12)). right. reflexivity.
  - destruct (SimpleEq_forms Rpower Cpower 2 2 coef_inverse [(None, 1)]
                [(None, -1)] 6 H2 eq_refl eq_refl eq_refl)
      as (_ & _ & H & _).
    apply H; [reflexivity |]. apply Exists_cons_hd. cbn. lra.
  - destruct (SimpleEq_forms Rpower Cpower 2 3 coef_root2 [(None, 1)]
                [(None, 1 / 2)] 2 H2 eq_refl eq_refl eq_refl)
      as (_ & _ & _ & H).
    apply H; [exact H23 | | left; reflexivity].
    apply Exists_cons_hd. exact half_not_whole.
  - destruct (SimpleEq_forms Rpower Cpower 2 3 coef_root6 [(None, 1)]
                [(None, 1 / 2)] 6 H2 eq_refl eq_refl eq_refl)
      as (_ & _ & _ & H).
    apply H; [exact H23 | | right; right; reflexivity].
    apply Exists_cons_hd. exact half_not_whole.
Defined.

End SimpleEqSamples.

(** ** The property catalogs *)

Section CatalogFacts.
Import Catalog.

(** The loop of [propertiesPhase] is a filter. *)
Lemma phase_loop (single total acc : list string) :
  fold_left (fun prop p => if decide (p ∈ single) then prop else prop ++ [p])
            total acc
  = acc ++ filter (fun p => p ∉ single) total.
Proof.
  revert acc. induction total as [| p total IH]; intros acc; simpl.
  - by rewrite app_nil_r.
  - rewrite IH. rewrite filter_cons. destruct (decide (p ∈ single)).
    + rewrite decide_False by tauto. reflexivity.
    + rewrite decide_True by assumption. by rewrite <- app_assoc.
Qed.

Lemma propertiesPhase_filter (c : cls) :
  propertiesPhase c
  = filter (fun p => p ∉ propertiesGlobal c) (propertiesKey c).
Proof. unfold propertiesPhase. by rewrite phase_loop. Qed.

Lemma propertiesGlobal_in_catalog (c : cls) :
  Forall (fun k => k ∈ propertiesKey c) (propertiesGlobal c).
Proof.
  destruct c; compute_done.
Qed.

(** C9.  For every class of the family: no global key is a phase key,
    every global key is a catalog key, the phase keys are the catalog
    keys with the global ones removed, in catalog order, and a key is in
    the catalog exactly when it is global or a phase key. *)
Theorem properties_partition (c : cls) :
  (forall k, k ∈ propertiesGlobal c -> k ∉ propertiesPhase c) /\
  (forall k, k ∈ propertiesGlobal c -> k ∈ propertiesKey c) /\
  propertiesPhase c
    = filter (fun p => p ∉ propertiesGlobal c) (propertiesKey c) /\
  (forall k, k ∈ propertiesKey c <->
             k ∈ propertiesGlobal c \/ k ∈ propertiesPhase c).
Proof.
  pose proof (propertiesGlobal_in_catalog c) as Hin.
  rewrite Forall_forall in Hin.
  rewrite propertiesPhase_filter.
  split; [| split; [| split]].
  - intros k Hk [Hk' _]%list_elem_of_filter. contradiction.
  - exact Hin.
  - reflexivity.
  - intros k. rewrite list_elem_of_filter. split.
    + intros Hk. destruct (decide (k ∈ propertiesGlobal c)); tauto.
    + intros [Hk | [_ Hk]]; auto.
Qed.

End CatalogFacts.

(** ** Writing and reading a state *)

Section SerializationFacts.
Import Catalog Serialization.
Local Open Scope R_scope.

(** *** Attributes *)

Lemma attrs_setattr_eq a x self : attrs (setattr a x self) !! a = Some x.
Proof. apply lookup_insert_eq. Qed.

Lemma attrs_setattr_ne a b x self :
  a <> b -> attrs (setattr a x self) !! b = attrs self !! b.
Proof. intros H. by apply lookup_insert_ne. Qed.

Lemma getattr_setattr_eq a x self : getattr (setattr a x self) a = Ok x.
Proof. unfold getattr. by rewrite attrs_setattr_eq. Qed.

Lemma getattr_setattr_ne a b x self :
  a <> b -> getattr (setattr a x self) b = getattr self b.
Proof. intros H. unfold getattr. by rewrite attrs_setattr_ne. Qed.

Lemma bool_setattr a x self : _bool (setattr a x self) = _bool self.
Proof. reflexivity. Qed.

(** *** Statements of the reader *)

Lemma unidades_new_numeric u x :
  numeric x -> unidades_new u x = Ok (VNum (Some u) (magnitude x)).
Proof. destruct x; simpl; intros H; [reflexivity | reflexivity | contradiction]. Qed.

Lemma num_of_numeric x : numeric x -> num_of x = Ok (magnitude x).
Proof. destruct x; simpl; intros H; [reflexivity | reflexivity | contradiction]. Qed.

Lemma assign_number a u k fluid self x :
  fluid !! k = Some x -> numeric x ->
  assign a u k fluid self
  = (setattr a (VNum (Some u) (magnitude x)) self, None).
Proof.
  intros Hk Hx. unfold assign, getitem. rewrite Hk. simpl.
  rewrite (unidades_new_numeric u x Hx). reflexivity.
Qed.

Lemma assign_missing a u k fluid self :
  fluid !! k = None -> assign a u k fluid self = (self, Some KeyError).
Proof. intros Hk. unfold assign, getitem. rewrite Hk. reflexivity. Qed.

Lemma assign_zero_run a u fluid self :
  assign_zero a u fluid self = (setattr a (VNum (Some u) 0) self, None).
Proof. reflexivity. Qed.

Lemma assign_each_list a u k fluid self l :
  fluid !! k = Some (VList l) ->
  assign_each a u k fluid self
  = (setattr a (VList (map (fun e : option unit * R => (Some u, e.2)) l))
       self, None).
Proof. intros Hk. unfold assign_each, getitem. rewrite Hk. reflexivity. Qed.

Lemma assign_each_number a u k fluid self x :
  fluid !! k = Some x -> numeric x ->
  assign_each a u k fluid self = (self, Some TypeError).
Proof.
  intros Hk Hx. unfold assign_each, getitem. rewrite Hk.
  destruct x; [reflexivity | reflexivity | contradiction].
Qed.

Lemma assign_single_number a u k fluid self x :
  fluid !! k = Some x -> numeric x ->
  assign_single a u k fluid self
  = (setattr a (VList [(Some u, magnitude x)]) self, None).
Proof.
  intros Hk Hx. unfold assign_single, getitem. rewrite Hk. simpl.
  rewrite (unidades_new_numeric u x Hx). reflexivity.
Qed.

Lemma assign_inverse_run a u b fluid self x :
  getattr self b = Ok x -> numeric x -> magnitude x <> 0 ->
  assign_inverse a u b fluid self
  = (setattr a (VNum (Some u) (1 / magnitude x)) self, None).
Proof.
  intros Hb Hx H0. unfold assign_inverse. rewrite Hb. simpl.
  rewrite (num_of_numeric x Hx). simpl.
  rewrite (pydiv_ok 1 (magnitude x) H0). reflexivity.
Qed.

Lemma assign_ratio_run attr u a b fluid self x y :
  getattr self a = Ok x -> getattr self b = Ok y ->
  numeric x -> numeric y -> magnitude y <> 0 ->
  assign_ratio attr u a b fluid self
  = (setattr attr (VNum (Some u) (magnitude x / magnitude y)) self, None).
Proof.
  intros Ha Hb Hx Hy H0. unfold assign_ratio. rewrite Ha, Hb. simpl.
  rewrite (num_of_numeric x Hx), (num_of_numeric y Hy). simpl.
  rewrite (pydiv_ok _ _ H0). reflexivity.
Qed.

Lemma block_nil fluid self : block [] fluid self = (self, None).
Proof. reflexivity. Qed.

Lemma block_step st rest fluid self self' :
  st fluid self = (self', None) ->
  block (st :: rest) fluid self = block rest fluid self'.
Proof. intros H. simpl. rewrite H. reflexivity. Qed.

Lemma block_raise st rest fluid self self' e :
  st fluid self = (self', Some e) ->
  block (st :: rest) fluid self = (self', Some e).
Proof. intros H. simpl. rewrite H. reflexivity. Qed.

Lemma try_except_ok body e handler fluid self self' :
  body fluid self = (self', None) ->
  try_except body e handler fluid self = (self', None).
Proof. intros H. unfold try_except. rewrite H. reflexivity. Qed.

Lemma try_except_caught body e handler fluid self self' :
  body fluid self = (self', Some e) ->
  try_except body e handler fluid self = handler fluid self'.
Proof.
  intros H. unfold try_except. rewrite H. rewrite decide_True by reflexivity.
  reflexivity.
Qed.

Lemma setattr_setattr a x y self :
  setattr a y (setattr a x self) = setattr a y self.
Proof. unfold setattr. simpl. f_equal. apply insert_insert_eq. Qed.

(** [try: self.a = u(fluid[k]) except KeyError: self.a = u(0)] never
    raises on a number or on a missing key. *)
Lemma optional_number a u k fluid self :
  (forall x, fluid !! k = Some x -> numeric x) ->
  try_except (assign a u k) KeyError (assign_zero a u) fluid self
  = (setattr a (VNum (Some u)
                  (match fluid !! k with
                   | Some x => magnitude x
                   | None => 0
                   end)) self, None).
Proof.
  intros Hnum. destruct (fluid !! k) as [x |] eqn:Hk.
  - apply try_except_ok. apply assign_number; auto.
  - rewrite (try_except_caught _ _ _ _ _ self) by (by apply assign_missing).
    apply assign_zero_run.
Qed.


(** *** The reader on a restorable dict *)

Lemma has_number_total fluid k :
  has_number fluid k ->
  fluid !! k = Some (fluid !!! k) /\ numeric (fluid !!! k).
Proof.
  intros (x & Hk & Hx). by rewrite (lookup_total_correct _ _ _ Hk).
Qed.

Lemma has_list_total fluid k :
  has_list fluid k -> fluid !! k = Some (VList (items_of (fluid !!! k))).
Proof.
  intros (l & Hk). by rewrite (lookup_total_correct _ _ _ Hk).
Qed.

Lemma assign_has_number a u k fluid self :
  has_number fluid k ->
  assign a u k fluid self
  = (setattr a (VNum (Some u) (magnitude (fluid !!! k))) self, None).
Proof. intros [Hk Hx]%has_number_total. by apply assign_number. Qed.

Lemma assign_each_has_list a u k fluid self :
  has_list fluid k ->
  assign_each a u k fluid self
  = (setattr a (VList (retag u (items_of (fluid !!! k)))) self, None).
Proof. intros Hk%has_list_total. by apply assign_each_list. Qed.

Lemma assign_inverse_num a u b fluid self w r :
  getattr self b = Ok (VNum w r) -> r <> 0 ->
  assign_inverse a u b fluid self
  = (setattr a (VNum (Some u) (1 / r)) self, None).
Proof. intros Hb H0. by apply (assign_inverse_run a u b fluid self _ Hb). Qed.

Lemma assign_ratio_num attr u a b fluid self w r w' r' :
  getattr self a = Ok (VNum w r) -> getattr self b = Ok (VNum w' r') ->
  r' <> 0 ->
  assign_ratio attr u a b fluid self
  = (setattr attr (VNum (Some u) (r / r')) self, None).
Proof.
  intros Ha Hb H0. by apply (assign_ratio_run attr u a b fluid self _ _ Ha Hb).
Qed.

Lemma optional_has a u k fluid self :
  (forall x, fluid !! k = Some x -> numeric x) ->
  try_except (assign a u k) KeyError (assign_zero a u) fluid self
  = (setattr a (VNum (Some u) (optional_magnitude fluid k)) self, None).
Proof. apply optional_number. Qed.

(** The [try] block on [fi] and [f]. *)
Lemma fugacity_block fluid self :
  (has_number fluid "fi" /\ has_number fluid "f") \/
  (has_list fluid "fi" /\ has_list fluid "f") ->
  try_except
    (block [assign_each "fi" Dimensionless "fi";
            assign_each "f" Pressure "f"])
    TypeError
    (block [assign_single "fi" Dimensionless "fi";
            assign_single "f" Pressure "f"]) fluid self
  = (setattr "f" (fugacity Pressure (fluid !!! "f"))
       (setattr "fi" (fugacity Dimensionless (fluid !!! "fi")) self), None).
Proof.
  intros [[[Hfi Nfi]%has_number_total [Hf Nf]%has_number_total]
         | [Hfi Hf]].
  - rewrite (try_except_caught _ _ _ _ _ self).
    2:{ apply block_raise. by apply (assign_each_number _ _ _ _ _ _ Hfi). }
    rewrite (block_step _ _ _ _ _
               (assign_single_number _ _ _ _ _ _ Hfi Nfi)).
    rewrite (block_step _ _ _ _ _
               (assign_single_number _ _ _ _ _ _ Hf Nf)).
    rewrite block_nil.
    destruct (fluid !!! "fi"), (fluid !!! "f"); try contradiction;
      reflexivity.
  - apply try_except_ok.
    rewrite (block_step _ _ _ _ _ (assign_each_has_list _ _ _ _ _ Hfi)).
    rewrite (block_step _ _ _ _ _ (assign_each_has_list _ _ _ _ _ Hf)).
    rewrite block_nil.
    destruct Hfi as (l1 & H1), Hf as (l2 & H2).
    rewrite (lookup_total_correct _ _ _ H1), (lookup_total_correct _ _ _ H2).
    reflexivity.
Qed.

(** The [try] block on [virialB] and [virialC]. *)
Lemma virial_block fluid self :
  (forall x, fluid !! "virialB" = Some x -> numeric x) ->
  (forall x, fluid !! "virialC" = Some x -> numeric x) ->
  try_except
    (block [assign "virialB" SpecificVolume "virialB";
            assign "virialC" SpecificVolume_square "virialC"])
    KeyError
    (block [assign_zero "virialB" SpecificVolume;
            assign_zero "virialC" SpecificVolume_square]) fluid self
  = (setattr "virialC"
       (VNum (Some SpecificVolume_square)
          (pair_magnitude fluid "virialB" "virialC" "virialC"))
       (setattr "virialB"
          (VNum (Some SpecificVolume)
             (pair_magnitude fluid "virialB" "virialC" "virialB")) self),
     None).
Proof.
  intros NB NC. unfold pair_magnitude.
  destruct (fluid !! "virialB") as [b |] eqn:HB;
    [destruct (fluid !! "virialC") as [c |] eqn:HC |].
  - apply try_except_ok.
    rewrite (block_step _ _ _ _ _ (assign_number _ _ _ _ _ _ HB (NB b eq_refl))).
    rewrite (block_step _ _ _ _ _ (assign_number _ _ _ _ _ _ HC (NC c eq_refl))).
    rewrite (lookup_total_correct _ _ _ HB), (lookup_total_correct _ _ _ HC).
    reflexivity.
  - rewrite (try_except_caught _ _ _ _ _
               (setattr "virialB" (VNum (Some SpecificVolume) (magnitude b))
                  self)).
    2:{ rewrite (block_step _ _ _ _ _
                   (assign_number _ _ _ _ _ _ HB (NB b eq_refl))).
        apply block_raise. by apply assign_missing. }
    simpl. rewrite setattr_setattr. reflexivity.
  - rewrite (try_except_caught _ _ _ _ _ self).
    2:{ apply block_raise. by apply assign_missing. }
    reflexivity.
Qed.

Ltac solve_getattr :=
  repeat (rewrite getattr_setattr_ne by discriminate);
  apply getattr_setattr_eq.

Ltac run_step :=
  first
    [ rewrite block_nil
    | erewrite block_step by (apply assign_has_number; assumption)
    | erewrite block_step by (apply assign_each_has_list; assumption)
    | erewrite block_step by (apply optional_has; assumption)
    | erewrite block_step by (apply fugacity_block; assumption)
    | erewrite block_step by (apply virial_block; assumption)
    | erewrite block_step
        by (eapply assign_inverse_num; [solve_getattr | assumption])
    | erewrite block_step
        by (eapply assign_ratio_num;
            [solve_getattr | solve_getattr | assumption]) ].

Ltac split_forall H :=
  repeat match type of H with
         | Forall _ (_ :: _) =>
             let H1 := fresh "Hkey" in
             apply Forall_cons in H as [H1 H]
         end;
  clear H.

Lemma restorable_nonempty c fluid : restorable c fluid -> fluid <> ∅.
Proof.
  intros (Hnum & _) ->.
  assert (Hin : "M" ∈ number_keys c) by (destruct c; compute_done).
  rewrite Forall_forall in Hnum.
  destruct (Hnum _ Hin) as (x & Hx & _).
  by rewrite lookup_empty in Hx.
Qed.

Lemma restorable_has_number c fluid k :
  restorable c fluid -> k ∈ number_keys c -> has_number fluid k.
Proof. intros (Hnum & _). rewrite Forall_forall in Hnum. apply Hnum. Qed.

Lemma restorable_optional c fluid k :
  restorable c fluid -> k ∈ optional_keys ->
  forall x, fluid !! k = Some x -> numeric x.
Proof. intros (_ & _ & Hopt & _). rewrite Forall_forall in Hopt. apply Hopt. Qed.

Ltac pose_numbers Hres keys :=
  lazymatch keys with
  | [] => idtac
  | ?k :: ?rest =>
      let H := fresh "Hkey" in
      assert (H := restorable_has_number _ _ k Hres ltac:(compute_done));
      pose_numbers Hres rest
  end.

Ltac pose_optional Hres keys :=
  lazymatch keys with
  | [] => idtac
  | ?k :: ?rest =>
      let H := fresh "Hopt" in
      assert (H := restorable_optional _ _ k Hres ltac:(compute_done));
      pose_optional Hres rest
  end.

Lemma number_keys_Thermo c :
  Forall (fun k => k ∈ number_keys c) (number_keys Thermo).
Proof. destruct c; compute_done. Qed.

Lemma restorable_Thermo c fluid :
  restorable c fluid -> restorable Thermo fluid.
Proof.
  intros (Hnum & Hrest). split; [| exact Hrest].
  pose proof (number_keys_Thermo c) as Hsub.
  rewrite Forall_forall in Hnum, Hsub |- *. auto.
Qed.

Lemma Thermo_body_run c fluid self :
  restorable c fluid ->
  block Thermo_read_body fluid self
  = (applied (Thermo_restored fluid) (set_bool true self), None).
Proof.
  intros Hres%restorable_Thermo.
  assert (HM : magnitude (fluid !!! "M") <> 0).
  { destruct Hres as (Hnum & _ & _ & _ & HM & _). apply HM.
    rewrite Forall_forall in Hnum.
    apply has_number_total, Hnum. compute_done. }
  assert (Hv : magnitude (fluid !!! "v") <> 0).
  { destruct Hres as (Hnum & _ & _ & _ & _ & Hv). apply Hv.
    rewrite Forall_forall in Hnum.
    apply has_number_total, Hnum. compute_done. }
  assert (Hfug := proj1 (proj2 (proj2 (proj2 Hres)))).
  assert (Hlist := proj1 (proj2 Hres)).
  unfold list_keys in Hlist. split_forall Hlist.
  pose_numbers Hres
      ["M"; "v"; "h"; "s"; "u"; "a"; "g"; "cv"; "cp"; "cp/cv"; "w"; "Z";
       "alfav"; "kappa"; "mu"; "k"; "nu"; "Prandt"; "alfa"; "joule";
       "deltat"; "gamma"; "alfap"; "betap"; "volFlow"; "massFlow";
       "molarFlow"];
    pose_optional Hres ["kappas"];
    unfold Thermo_read_body;
    (erewrite block_step by reflexivity);
    repeat run_step;
    reflexivity.
Qed.


Lemma ThermoWater_body_run fluid self :
  restorable ThermoWater fluid ->
  block ThermoWater_read_body fluid self
  = (applied (ThermoWater_restored fluid) self, None).
Proof.
  intros Hres. pose_numbers Hres ["epsilon"; "n"].
  unfold ThermoWater_read_body. repeat run_step. reflexivity.
Qed.

Lemma ThermoAdvanced_body_run c fluid self :
  c = ThermoAdvanced \/ c = ThermoRefProp ->
  restorable c fluid ->
  block ThermoAdvanced_read_body fluid self
  = (applied (ThermoAdvanced_restored fluid) self, None).
Proof.
  intros [-> | ->] Hres;
    pose_numbers Hres
      ["betas"; "Gruneisen"; "dpdT_rho"; "dpdrho_T"; "drhodT_P";
       "drhodP_T"; "dhdT_rho"; "dhdP_T"; "dhdT_P"; "dhdrho_T"; "dhdP_rho";
       "kt"; "ks"; "Ks"; "Kt"; "IntP"; "hInput"; "epsilon"];
    pose_optional Hres ["virialB"; "virialC"; "invT"];
    unfold ThermoAdvanced_read_body; repeat run_step; reflexivity.
Qed.

Lemma ThermoRefProp_body_run fluid self :
  restorable ThermoRefProp fluid ->
  block ThermoRefProp_read_body fluid self
  = (applied (ThermoRefProp_restored fluid) self, None).
Proof.
  intros Hres.
  pose_numbers Hres
    ["virialD"; "virialBa"; "virialCa"; "dCdt"; "dCdt2"; "dBdt"].
  unfold ThermoRefProp_read_body. repeat run_step. reflexivity.
Qed.

Lemma if_fluid_nonempty body fluid self :
  fluid <> ∅ -> if_fluid body fluid self = block body fluid self.
Proof. intros H. unfold if_fluid. by rewrite decide_False. Qed.

Lemma if_fluid_empty body self : if_fluid body ∅ self = (self, None).
Proof. unfold if_fluid. by rewrite decide_True. Qed.

Lemma applied_app l1 l2 self :
  applied (l1 ++ l2) self = applied l2 (applied l1 self).
Proof. unfold applied. apply fold_left_app. Qed.

(** On a restorable dict the reader of every class returns, and leaves
    the instance with [_bool] set and the assignments of [restored]
    carried out in order. *)
Lemma readStatefromJSON_run c self fluid :
  restorable c fluid ->
  readStatefromJSON c self fluid
  = (applied (restored c fluid) (set_bool true self), None).
Proof.
  intros Hres. pose proof (restorable_nonempty _ _ Hres) as Hne.
  assert (HT : Thermo_readStatefromJSON fluid self
               = (applied (Thermo_restored fluid) (set_bool true self), None)).
  { unfold Thermo_readStatefromJSON. rewrite if_fluid_nonempty by assumption.
    by apply (Thermo_body_run c). }
  destruct c; cbn [readStatefromJSON restored].
  - exact HT.
  - unfold ThermoWater_readStatefromJSON.
    rewrite (block_step _ _ _ _ _ HT).
    erewrite block_step
      by (rewrite if_fluid_nonempty by assumption;
          by apply ThermoWater_body_run).
    rewrite block_nil, applied_app. reflexivity.
  - unfold ThermoAdvanced_readStatefromJSON.
    rewrite (block_step _ _ _ _ _ HT).
    erewrite block_step
      by (rewrite if_fluid_nonempty by assumption;
          apply (ThermoAdvanced_body_run ThermoAdvanced); auto).
    rewrite block_nil, applied_app. reflexivity.
  - unfold ThermoRefProp_readStatefromJSON, ThermoAdvanced_readStatefromJSON.
    erewrite block_step.
    2:{ rewrite (block_step _ _ _ _ _ HT).
        erewrite block_step
          by (rewrite if_fluid_nonempty by assumption;
              apply (ThermoAdvanced_body_run ThermoRefProp); auto).
        apply block_nil. }
    erewrite block_step
      by (rewrite if_fluid_nonempty by assumption;
          by apply ThermoRefProp_body_run).
    rewrite block_nil, !applied_app. reflexivity.
Qed.

Lemma bool_applied l self : _bool (applied l self) = _bool self.
Proof.
  revert self. induction l as [| [a x] l IH]; intros self; simpl.
  - reflexivity.
  - change (_bool (applied l (setattr a x self)) = _bool self).
    by rewrite IH.
Qed.

Lemma attrs_applied l self b :
  attrs (applied l self) !! b
  = match last_assigned l b with
    | Some y => Some y
    | None => attrs self !! b
    end.
Proof.
  revert self. induction l as [| [a x] l IH]; intros self; simpl.
  - reflexivity.
  - change (attrs (applied l (setattr a x self)) !! b = 
            match match last_assigned l b with
                  | Some y => Some y
                  | None => if decide (a = b) then Some x else None
                  end with
            | Some y => Some y
            | None => attrs self !! b
            end).
    rewrite IH. destruct (last_assigned l b); [reflexivity |].
    destruct (decide (a = b)) as [-> | Hne].
    + apply attrs_setattr_eq.
    + by apply attrs_setattr_ne.
Qed.


(** *** The writer *)

Lemma store_all_run self items fluid :
  Forall (fun ka => exists x, getattr self ka.2 = Ok x) items ->
  store_all self items fluid
  = Ok (fold_left (fun d ka => <[ka.1 := attr_value self ka.2]> d)
                  items fluid).
Proof.
  revert fluid. induction items as [| [k a] items IH]; intros fluid Hall.
  - reflexivity.
  - apply Forall_cons in Hall as [(x & Hx) Hall]. simpl in *.
    unfold attr_value. rewrite Hx. simpl. apply IH, Hall.
Qed.

Lemma write_more_run self items state fase fluid :
  _bool self = true ->
  Forall (fun ka => exists x, getattr self ka.2 = Ok x) items ->
  write_more self items (<[fase := fluid]> state) fase
  = Ok (<[fase := fold_left
                    (fun d ka => <[ka.1 := attr_value self ka.2]> d)
                    items fluid]> state).
Proof.
  intros Hb Hall. unfold write_more, getitem. rewrite Hb.
  rewrite lookup_insert_eq, bind_Ok.
  rewrite (store_all_run _ _ _ Hall), bind_Ok.
  by rewrite insert_insert_eq.
Qed.

Lemma Thermo_write_run self state fase :
  _bool self = true ->
  Forall (fun ka => exists x, getattr self ka.2 = Ok x) Thermo_written ->
  Thermo_writeStatetoJSON self state fase
  = Ok (<[fase := fold_left
                    (fun d ka => <[ka.1 := attr_value self ka.2]> d)
                    Thermo_written ∅]> state).
Proof.
  intros Hb Hall. unfold Thermo_writeStatetoJSON. rewrite Hb.
  rewrite (store_all_run _ _ _ Hall). reflexivity.
Qed.

(** For a computed phase with every written attribute set, the writer
    returns and stores the snapshot under the phase key. *)
Lemma writeStatetoJSON_run c self state fase :
  _bool self = true ->
  Forall (fun ka => exists x, getattr self ka.2 = Ok x) (written_items c) ->
  writeStatetoJSON c self state fase = Ok (<[fase := snapshot c self]> state).
Proof.
  intros Hb Hall. unfold snapshot.
  destruct c; cbn [writeStatetoJSON written_items] in *.
  - by apply Thermo_write_run.
  - apply Forall_app in Hall as [H1 H2].
    unfold ThermoWater_writeStatetoJSON.
    rewrite (Thermo_write_run _ _ _ Hb H1). rewrite bind_Ok.
    rewrite (write_more_run _ _ _ _ _ Hb H2), fold_left_app. reflexivity.
  - apply Forall_app in Hall as [H1 H2].
    unfold ThermoAdvanced_writeStatetoJSON.
    rewrite (Thermo_write_run _ _ _ Hb H1). rewrite bind_Ok.
    rewrite (write_more_run _ _ _ _ _ Hb H2), fold_left_app. reflexivity.
  - apply Forall_app in Hall as [H1 [H2 H3]%Forall_app].
    unfold ThermoRefProp_writeStatetoJSON, ThermoAdvanced_writeStatetoJSON.
    rewrite (Thermo_write_run _ _ _ Hb H1). rewrite bind_Ok.
    rewrite (write_more_run _ _ _ _ _ Hb H2). rewrite bind_Ok.
    rewrite (write_more_run _ _ _ _ _ Hb H3), !fold_left_app. reflexivity.
Qed.

Lemma Thermo_write_inert self state fase :
  _bool self = false ->
  Thermo_writeStatetoJSON self state fase = Ok (<[fase := ∅]> state).
Proof. intros Hb. unfold Thermo_writeStatetoJSON. by rewrite Hb. Qed.

Lemma write_more_inert self items state fase :
  _bool self = false -> write_more self items state fase = Ok state.
Proof. intros Hb. unfold write_more. by rewrite Hb. Qed.

(** C10.  Writing an instance whose [_bool] is false stores the empty
    dict under the phase key and nothing else, for every class; reading
    an empty dict returns without raising and leaves the instance as it
    was, [_bool] included. *)
Theorem serialization_inert c self target state fase :
  _bool self = false ->
  writeStatetoJSON c self state fase = Ok (<[fase := ∅]> state)
  /\ readStatefromJSON c target ∅ = (target, None).
Proof.
  intros Hb. split.
  - destruct c; cbn [writeStatetoJSON];
      unfold ThermoRefProp_writeStatetoJSON,
             ThermoAdvanced_writeStatetoJSON, ThermoWater_writeStatetoJSON;
      rewrite (Thermo_write_inert _ _ _ Hb), ?bind_Ok;
      rewrite ?(write_more_inert _ _ _ _ Hb), ?bind_Ok;
      rewrite ?(write_more_inert _ _ _ _ Hb); reflexivity.
  - destruct c; cbn [readStatefromJSON];
      unfold ThermoRefProp_readStatefromJSON,
             ThermoAdvanced_readStatefromJSON,
             ThermoWater_readStatefromJSON, Thermo_readStatefromJSON;
      cbn [block]; rewrite ?if_fluid_empty; cbn [block];
      rewrite ?if_fluid_empty; reflexivity.
Qed.

Lemma serialization_inert_witness :
  writeStatetoJSON ThermoAdvanced Samples.empty_state ∅ "Liquido"
    = Ok (<["Liquido" := ∅]> ∅)
  /\ readStatefromJSON ThermoAdvanced Samples.empty_state ∅
     = (Samples.empty_state, None).
Proof.
  apply (serialization_inert ThermoAdvanced Samples.empty_state). reflexivity.
Defined.


(** *** Reading dicts of older versions *)

Lemma restored_kappas c fluid :
  last_assigned (restored c fluid) "kappas"
  = Some (VNum (Some InvPressure) (optional_magnitude fluid "kappas")).
Proof. destruct c; reflexivity. Qed.

Lemma restored_virialB c fluid :
  c = ThermoAdvanced \/ c = ThermoRefProp ->
  last_assigned (restored c fluid) "virialB"
  = Some (VNum (Some SpecificVolume)
            (pair_magnitude fluid "virialB" "virialC" "virialB")).
Proof. intros [-> | ->]; reflexivity. Qed.

Lemma restored_virialC c fluid :
  c = ThermoAdvanced \/ c = ThermoRefProp ->
  last_assigned (restored c fluid) "virialC"
  = Some (VNum (Some SpecificVolume_square)
            (pair_magnitude fluid "virialB" "virialC" "virialC")).
Proof. intros [-> | ->]; reflexivity. Qed.

Lemma restored_invT c fluid :
  c = ThermoAdvanced \/ c = ThermoRefProp ->
  last_assigned (restored c fluid) "invT"
  = Some (VNum (Some InvTemperature) (optional_magnitude fluid "invT")).
Proof. intros [-> | ->]; reflexivity. Qed.

Lemma optional_magnitude_missing fluid k :
  fluid !! k = None -> optional_magnitude fluid k = 0.
Proof. intros H. unfold optional_magnitude. by rewrite H. Qed.

Lemma pair_magnitude_missing fluid k1 k2 k :
  fluid !! k1 = None \/ fluid !! k2 = None ->
  pair_magnitude fluid k1 k2 k = 0.
Proof.
  intros [H | H]; unfold pair_magnitude; rewrite H;
    [| destruct (fluid !! k1)]; reflexivity.
Qed.

Lemma dictUnit_optional c :
  c = ThermoAdvanced \/ c = ThermoRefProp ->
  _dictUnit c !! "kappas" = Some InvPressure /\
  _dictUnit c !! "virialB" = Some SpecificVolume /\
  _dictUnit c !! "virialC" = Some SpecificVolume_square /\
  _dictUnit c !! "invT" = Some InvTemperature.
Proof. intros [-> | ->]; compute_done. Qed.

Lemma Thermo_read_zero_volume fluid self xM xv :
  fluid !! "M" = Some xM -> numeric xM ->
  fluid !! "v" = Some xv -> numeric xv -> magnitude xv = 0 ->
  Thermo_readStatefromJSON fluid self
  = (setattr "v" (VNum (Some SpecificVolume) 0)
       (setattr "M" (VNum (Some Dimensionless) (magnitude xM))
          (set_bool true self)), Some ZeroDivisionError).
Proof.
  intros HM NM Hv Nv H0. unfold Thermo_readStatefromJSON.
  rewrite if_fluid_nonempty
    by (intros E; rewrite E, lookup_empty in HM; discriminate).
  unfold Thermo_read_body.
  erewrite block_step by reflexivity.
  rewrite (block_step _ _ _ _ _ (assign_number _ _ _ _ _ _ HM NM)).
  rewrite (block_step _ _ _ _ _ (assign_number _ _ _ _ _ _ Hv Nv)).
  rewrite H0. apply block_raise.
  unfold assign_inverse. rewrite getattr_setattr_eq, bind_Ok.
  cbn [num_of]. rewrite bind_Ok, pydiv_zero. reflexivity.
Qed.

Lemma read_zero_volume_run c self fluid xM xv :
  fluid !! "M" = Some xM -> numeric xM ->
  fluid !! "v" = Some xv -> numeric xv -> magnitude xv = 0 ->
  readStatefromJSON c self fluid
  = (setattr "v" (VNum (Some SpecificVolume) 0)
       (setattr "M" (VNum (Some Dimensionless) (magnitude xM))
          (set_bool true self)), Some ZeroDivisionError).
Proof.
  intros HM NM Hv Nv H0.
  pose proof (Thermo_read_zero_volume fluid self xM xv HM NM Hv Nv H0) as HT.
  destruct c; cbn [readStatefromJSON].
  - exact HT.
  - unfold ThermoWater_readStatefromJSON. by apply block_raise.
  - unfold ThermoAdvanced_readStatefromJSON. by apply block_raise.
  - unfold ThermoRefProp_readStatefromJSON, ThermoAdvanced_readStatefromJSON.
    apply block_raise. by apply block_raise.
Qed.

Lemma restored_base_unread c fluid k :
  c = Thermo \/ c = ThermoWater ->
  k ∈ ["virialB"; "virialC"; "invT"] ->
  last_assigned (restored c fluid) k = None.
Proof.
  intros Hc Hk.
  repeat (apply elem_of_cons in Hk as [-> | Hk]);
    [| | | by apply elem_of_nil in Hk];
    destruct Hc as [-> | ->]; reflexivity.
Qed.

(** C7 (amended).  On every dict that holds all the other keys that
    the reader of the class reads, with a number where one number is
    read, a list where a list is iterated, [fi] and [f] both numbers or
    both lists, and nonzero [M] and [v], by which the reader divides,
    [readStatefromJSON] returns without raising.  A missing [kappas] is
    restored as zero with its catalog unit in every class; in the
    advanced classes so is each missing one of [virialB], [virialC],
    [invT]; the readers of the base classes do not assign these three
    at all. *)
Theorem read_tolerates_missing_keys c self fluid :
  restorable c fluid ->
  exists self',
    readStatefromJSON c self fluid = (self', None) /\
    (forall k, k ∈ optional_keys ->
       k = "kappas" \/ c = ThermoAdvanced \/ c = ThermoRefProp ->
       fluid !! k = None ->
       exists u, _dictUnit c !! k = Some u /\
                 attrs self' !! k = Some (VNum (Some u) 0)) /\
    (c = Thermo \/ c = ThermoWater ->
     forall k, k ∈ ["virialB"; "virialC"; "invT"] ->
       attrs self' !! k = attrs self !! k).
Proof.
  intros Hres. eexists. split; [by apply readStatefromJSON_run |]. split.
  - intros k Hk Hread Hnone.
    assert (Hkappas : exists u, _dictUnit c !! "kappas" = Some u /\
              attrs (applied (restored c fluid) (set_bool true self))
                !! "kappas" = Some (VNum (Some u) 0)
              \/ fluid !! "kappas" <> None).
    { destruct (fluid !! "kappas") eqn:E.
      - exists InvPressure. by right.
      - exists InvPressure. left.
        split; [destruct c; compute_done |].
        rewrite attrs_applied, restored_kappas.
        rewrite optional_magnitude_missing by exact E. reflexivity. }
    unfold optional_keys in Hk.
    apply elem_of_cons in Hk as [-> | Hk].
    { destruct Hkappas as (u & [H | H]); [by exists u | contradiction]. }
    assert (Hc : c = ThermoAdvanced \/ c = ThermoRefProp).
    { destruct Hread as [-> | Hc]; [| exact Hc].
      exfalso. revert Hk. compute_done. }
    destruct (dictUnit_optional c Hc) as (U1 & U2 & U3 & U4).
    repeat (apply elem_of_cons in Hk as [-> | Hk]);
      [ exists SpecificVolume
      | exists SpecificVolume_square | exists InvTemperature
      | by apply elem_of_nil in Hk ];
      (split; [assumption |]); rewrite attrs_applied.
    + rewrite restored_virialB, pair_magnitude_missing by auto. reflexivity.
    + rewrite restored_virialC, pair_magnitude_missing by auto. reflexivity.
    + rewrite restored_invT, optional_magnitude_missing by assumption.
      reflexivity.
  - intros Hc k Hk. rewrite attrs_applied.
    rewrite (restored_base_unread c fluid k Hc Hk). reflexivity.
Qed.


(** *** Writing, then reading back *)

Lemma restored_alfap c fluid :
  last_assigned (restored c fluid) "alfap"
  = Some (VNum (Some Dimensionless) (magnitude (fluid !!! "alfap"))).
Proof. destruct c; reflexivity. Qed.

Lemma restored_betap c fluid :
  last_assigned (restored c fluid) "betap"
  = Some (VNum (Some Dimensionless) (magnitude (fluid !!! "betap"))).
Proof. destruct c; reflexivity. Qed.

Lemma restored_ks c fluid :
  c = ThermoAdvanced \/ c = ThermoRefProp ->
  last_assigned (restored c fluid) "ks"
  = Some (VNum (Some InvPressure) (magnitude (fluid !!! "ks"))).
Proof. intros [-> | ->]; reflexivity. Qed.

Lemma dictUnit_declared c :
  _dictUnit c !! "alfap" = Some InvTemperature /\
  _dictUnit c !! "betap" = Some Density /\
  (c = ThermoAdvanced \/ c = ThermoRefProp ->
   _dictUnit c !! "ks" = Some Dimensionless).
Proof.
  destruct c; (split; [| split]); try compute_done;
    intros [? | ?]; try discriminate; compute_done.
Qed.

Lemma snapshot_lookup c self key attr :
  snapshot c self !! key = Some (attr_value self attr) ->
  snapshot c self !!! key = attr_value self attr.
Proof. apply lookup_total_correct. Qed.

(** C4, evaluated.  For every computed phase of an advanced model,
    writing and reading back both return, and the values of [alfap],
    [betap] and [ks] are reproduced; but [alfap] and [betap] come back
    as Dimensionless and [ks] as InvPressure, where the catalog declares
    InvTemperature, Density and Dimensionless. *)
Theorem roundtrip_unit_kinds_diverge self target state fase :
  solved ThermoAdvanced self ->
  exists self',
    writeStatetoJSON ThermoAdvanced self state fase
      = Ok (<[fase := snapshot ThermoAdvanced self]> state) /\
    readStatefromJSON ThermoAdvanced target (snapshot ThermoAdvanced self)
      = (self', None) /\
    attrs self' !! "alfap"
      = Some (VNum (Some Dimensionless)
                (magnitude (attr_value self "alfap"))) /\
    _dictUnit ThermoAdvanced !! "alfap" = Some InvTemperature /\
    attrs self' !! "betap"
      = Some (VNum (Some Dimensionless)
                (magnitude (attr_value self "betap"))) /\
    _dictUnit ThermoAdvanced !! "betap" = Some Density /\
    attrs self' !! "ks"
      = Some (VNum (Some InvPressure) (magnitude (attr_value self "ks"))) /\
    _dictUnit ThermoAdvanced !! "ks" = Some Dimensionless.
Proof.
  intros (Hb & Hall & Hres).
  destruct (dictUnit_declared ThermoAdvanced) as (U1 & U2 & U3).
  eexists. split; [by apply writeStatetoJSON_run |].
  split; [by apply readStatefromJSON_run |].
  rewrite !attrs_applied, restored_alfap, restored_betap, restored_ks
    by auto.
  rewrite (snapshot_lookup ThermoAdvanced self "alfap" "alfap" eq_refl),
          (snapshot_lookup ThermoAdvanced self "betap" "betap" eq_refl),
          (snapshot_lookup ThermoAdvanced self "ks" "ks" eq_refl).
  auto 10.
Qed.

End SerializationFacts.

Section SerializationSamples.
Import Catalog Serialization Samples.
Local Open Scope R_scope.

Ltac sample_entry :=
  first [ eexists; split; [reflexivity | exact I]
        | eexists; reflexivity ].

Lemma sample_state_written :
  Forall (fun ka => exists x, getattr sample_state ka.2 = Ok x)
         (written_items ThermoAdvanced).
Proof.
  let l := eval vm_compute in (written_items ThermoAdvanced) in
    change (written_items ThermoAdvanced) with l.
  repeat (apply Forall_cons; split; [eexists; reflexivity |]).
  constructor.
Qed.

Lemma sample_state_solved : solved ThermoAdvanced sample_state.
Proof.
  split; [reflexivity |]. split; [exact sample_state_written |].
  split; [| split; [| split; [| split; [| split]]]].
  - let l := eval vm_compute in (number_keys ThermoAdvanced) in
      change (number_keys ThermoAdvanced) with l.
    repeat (apply Forall_cons; split; [sample_entry |]).
    constructor.
  - unfold list_keys.
    repeat (apply Forall_cons; split; [sample_entry |]).
    constructor.
  - unfold optional_keys.
    repeat (apply Forall_cons; split;
            [intros x Hx;
             match type of Hx with
             | ?m !! ?k = _ =>
                 assert (E : m !! k = Some (VNum None 2)) by reflexivity;
                 rewrite E in Hx; injection Hx as <-; exact I
             end |]).
    constructor.
  - left. split; sample_entry.
  - intros x Hx.
    assert (E : snapshot ThermoAdvanced sample_state !! "M"
                = Some (VNum None 2)) by reflexivity.
    rewrite E in Hx. injection Hx as <-. cbn [magnitude]. lra.
  - intros x Hx.
    assert (E : snapshot ThermoAdvanced sample_state !! "v"
                = Some (VNum None 2)) by reflexivity.
    rewrite E in Hx. injection Hx as <-. cbn [magnitude]. lra.
Qed.


Lemma sample_old_fluid_restorable : restorable ThermoAdvanced sample_old_fluid.
Proof.
  split; [| split; [| split; [| split; [| split]]]].
  - let l := eval vm_compute in (number_keys ThermoAdvanced) in
      change (number_keys ThermoAdvanced) with l.
    repeat (apply Forall_cons; split; [sample_entry |]).
    constructor.
  - unfold list_keys.
    repeat (apply Forall_cons; split; [sample_entry |]).
    constructor.
  - unfold optional_keys.
    repeat (apply Forall_cons; split;
            [intros x Hx;
             match type of Hx with
             | ?m !! ?k = _ =>
                 assert (E : m !! k = None) by reflexivity;
                 rewrite E in Hx; discriminate Hx
             end |]).
    constructor.
  - left. split; sample_entry.
  - intros x Hx.
    assert (E : sample_old_fluid !! "M" = Some (VNum None 2)) by reflexivity.
    rewrite E in Hx. injection Hx as <-. cbn [magnitude]. lra.
  - intros x Hx.
    assert (E : sample_old_fluid !! "v" = Some (VNum None 2)) by reflexivity.
    rewrite E in Hx. injection Hx as <-. cbn [magnitude]. lra.
Qed.

Lemma read_tolerates_missing_keys_witness :
  exists self',
    readStatefromJSON ThermoAdvanced empty_state sample_old_fluid
      = (self', None) /\
    attrs self' !! "kappas" = Some (VNum (Some InvPressure) 0) /\
    attrs self' !! "virialB" = Some (VNum (Some SpecificVolume) 0) /\
    attrs self' !! "virialC" = Some (VNum (Some SpecificVolume_square) 0) /\
    attrs self' !! "invT" = Some (VNum (Some InvTemperature) 0).
Proof.
  destruct (read_tolerates_missing_keys ThermoAdvanced empty_state
              sample_old_fluid sample_old_fluid_restorable)
    as (self' & Hread & Hopt & _).
  exists self'. split; [exact Hread |].
  destruct (dictUnit_optional ThermoAdvanced (or_introl eq_refl))
    as (U1 & U2 & U3 & U4).
  assert (Hadv : forall k : string,
            k = "kappas" \/ ThermoAdvanced = ThermoAdvanced
            \/ ThermoAdvanced = ThermoRefProp)
    by (intros k; right; left; reflexivity).
  destruct (Hopt "kappas" ltac:(compute_done) (Hadv _) eq_refl)
    as (u1 & E1 & ->).
  destruct (Hopt "virialB" ltac:(compute_done) (Hadv _) eq_refl)
    as (u2 & E2 & ->).
  destruct (Hopt "virialC" ltac:(compute_done) (Hadv _) eq_refl)
    as (u3 & E3 & ->).
  destruct (Hopt "invT" ltac:(compute_done) (Hadv _) eq_refl)
    as (u4 & E4 & ->).
  rewrite U1 in E1. rewrite U2 in E2. rewrite U3 in E3. rewrite U4 in E4.
  injection E1 as <-. injection E2 as <-. injection E3 as <-.
  injection E4 as <-. auto.
Defined.

(** C7, counterexample.  A dict that holds every key that the advanced
    reader reads but the four optional ones, with the number zero under
    "v": the reader raises ZeroDivisionError at [1/self.v]. *)
Lemma read_all_keys_zero_volume_counterexample :
  Forall (fun k => is_Some (ZeroVolume.zero_volume_fluid !! k))
         (number_keys ThermoAdvanced ++ list_keys ++ ["fi"; "f"]) /\
  Forall (fun k => ZeroVolume.zero_volume_fluid !! k = None) optional_keys /\
  readStatefromJSON ThermoAdvanced empty_state ZeroVolume.zero_volume_fluid
  = (setattr "v" (VNum (Some SpecificVolume) 0)
       (setattr "M" (VNum (Some Dimensionless) 2)
          (set_bool true empty_state)), Some ZeroDivisionError).
Proof.
  split; [| split].
  - let l := eval vm_compute in
             (number_keys ThermoAdvanced ++ list_keys ++ ["fi"; "f"]) in
      change (number_keys ThermoAdvanced ++ list_keys ++ ["fi"; "f"]) with l.
    repeat (apply List.Forall_cons; [eexists; reflexivity |]).
    apply List.Forall_nil.
  - unfold optional_keys.
    repeat (apply List.Forall_cons; [reflexivity |]).
    apply List.Forall_nil.
  - apply (read_zero_volume_run ThermoAdvanced empty_state
             ZeroVolume.zero_volume_fluid (VNum None 2) (VNum None 0));
      (reflexivity || exact I).
Qed.

Lemma roundtrip_unit_kinds_diverge_witness :
  exists self',
    readStatefromJSON ThermoAdvanced empty_state
      (snapshot ThermoAdvanced sample_state) = (self', None) /\
    attrs self' !! "alfap"
      = Some (VNum (Some Dimensionless)
                (magnitude (attr_value sample_state "alfap"))) /\
    _dictUnit ThermoAdvanced !! "alfap" = Some InvTemperature.
Proof.
  destruct (roundtrip_unit_kinds_diverge sample_state empty_state ∅
              "Liquido" sample_state_solved)
    as (self' & _ & Hread & Ha & Hu & _).
  exists self'. auto.
Defined.

End SerializationSamples.

(** ** The range check of [calcPoint] *)

Section CalcPointFacts.
Import UI_Tables.
Local Open Scope R_scope.

(** [calcPoint], stage by stage. *)
Lemma calcPoint_unfold method fluid config kwargs log0 :
  calcPoint method fluid config kwargs log0 =
  match bind_limits method fluid config kwargs log0 with
  | (log, Raise e) => (log, Raise e)
  | (log, Ok (kw, lim)) =>
      match refused_before lim kw with
      | Raise e => (log, Raise e)
      | Ok true => (log, Ok None)
      | Ok false =>
          match _new fluid kw with
          | Raise e => (log ++ [CallNew kw], Raise e)
          | Ok fluido =>
              if bool_decide (status fluido ∉ [1; 3]%Z)
              then (log ++ [CallNew kw], Ok None)
              else
                match melting_clamp method lim fluido
                        (log ++ [CallNew kw]) with
                | (log', Raise e) => (log', Raise e)
                | (log', Ok lim') =>
                    match refused_after lim' fluido with
                    | Raise e => (log', Raise e)
                    | Ok true => (log', Ok None)
                    | Ok false => (log', Ok (Some fluido))
                    end
                end
          end
      end
  end.
Proof.
  unfold calcPoint, mbind, prog_bind, lift, emit, mret, prog_ret.
  destruct (bind_limits method fluid config kwargs log0)
    as [log [[kw lim] | e]]; [| reflexivity].
  destruct (refused_before lim kw) as [[|] | e]; try reflexivity.
  destruct (_new fluid kw) as [fluido | e]; [| reflexivity].
  destruct (bool_decide (status fluido ∉ [1; 3]%Z)); [reflexivity |].
  destruct (melting_clamp method lim fluido (log ++ [CallNew kw]))
    as [log' [lim' | e]]; [| reflexivity].
  destruct (refused_after lim' fluido) as [[|] | e]; reflexivity.
Qed.

Lemma refused_before_T l kw t :
  kw !! "T" = Some t -> t < Tmin l \/ t > Tmax l ->
  refused_before (Some l) kw = Ok true.
Proof.
  intros HT Hout. unfold refused_before. rewrite HT. simpl.
  destruct Hout as [H | H].
  - rewrite (bool_decide_eq_true_2 _ H). reflexivity.
  - rewrite (bool_decide_eq_true_2 (t > Tmax l) H), orb_true_r. reflexivity.
Qed.

Lemma refused_before_P l kw p :
  kw !! "P" = Some p -> p < Pmin l - 1 \/ p > Pmax l + 1 ->
  refused_before (Some l) kw = Ok true.
Proof.
  intros HP Hout. unfold refused_before. rewrite HP.
  assert (E : bool_decide (p < Pmin l - 1) || bool_decide (p > Pmax l + 1)
              = true).
  { destruct Hout as [H | H].
    - by rewrite (bool_decide_eq_true_2 _ H).
    - by rewrite (bool_decide_eq_true_2 (p > Pmax l + 1) H), orb_true_r. }
  simpl. rewrite E.
  destruct (kw !! "T") as [t |]; simpl;
    [destruct (bool_decide (t < Tmin l) || bool_decide (t > Tmax l)) |];
    reflexivity.
Qed.

Lemma refused_before_inside l kw t p :
  kw !! "T" = Some t -> kw !! "P" = Some p ->
  Tmin l <= t <= Tmax l -> Pmin l - 1 <= p <= Pmax l + 1 ->
  refused_before (Some l) kw = Ok false.
Proof.
  intros HT HP [Ht1 Ht2] [Hp1 Hp2]. unfold refused_before.
  rewrite HT, HP. simpl.
  rewrite (bool_decide_eq_false_2 (t < Tmin l)) by lra.
  rewrite (bool_decide_eq_false_2 (t > Tmax l)) by lra.
  simpl.
  rewrite (bool_decide_eq_false_2 (p < Pmin l - 1)) by lra.
  rewrite (bool_decide_eq_false_2 (p > Pmax l + 1)) by lra.
  reflexivity.
Qed.

Lemma refused_after_outside l fluido :
  P fluido < Pmin l - 1 \/ P fluido > Pmax l + 1 \/
  T fluido < Tmin l \/ T fluido > Tmax l ->
  refused_after (Some l) fluido = Ok true.
Proof.
  intros Hout. unfold refused_after. simpl. f_equal.
  destruct Hout as [H | [H | [H | H]]].
  - by rewrite (bool_decide_eq_true_2 _ H).
  - by rewrite (bool_decide_eq_true_2 (P fluido > Pmax l + 1) H), orb_true_r.
  - by rewrite (bool_decide_eq_true_2 (T fluido < Tmin l) H), orb_true_r.
  - by rewrite (bool_decide_eq_true_2 (T fluido > Tmax l) H), orb_true_r.
Qed.

Lemma refused_after_inside l fluido :
  Pmin l - 1 <= P fluido <= Pmax l + 1 ->
  Tmin l <= T fluido <= Tmax l ->
  refused_after (Some l) fluido = Ok false.
Proof.
  intros [Hp1 Hp2] [Ht1 Ht2]. unfold refused_after. simpl.
  rewrite (bool_decide_eq_false_2 (P fluido < Pmin l - 1)) by lra.
  rewrite (bool_decide_eq_false_2 (P fluido > Pmax l + 1)) by lra.
  rewrite (bool_decide_eq_false_2 (T fluido < Tmin l)) by lra.
  rewrite (bool_decide_eq_false_2 (T fluido > Tmax l)) by lra.
  reflexivity.
Qed.


Lemma Rmin_python a b : (if bool_decide (b < a) then b else a) = Rmin a b.
Proof.
  unfold Rmin. destruct (Rle_dec a b) as [H | H].
  - rewrite bool_decide_eq_false_2 by lra. reflexivity.
  - rewrite bool_decide_eq_true_2 by lra. reflexivity.
Qed.

(** The melting block where the curve applies. *)
Lemma melting_clamp_in_range l fluido log tmin tmax :
  _melting fluido !! "Tmin" = Some tmin ->
  _melting fluido !! "Tmax" = Some tmax ->
  tmin <= T fluido <= tmax ->
  melting_clamp MEOS (Some l) fluido log
  = (log ++ [CallMeltingPressure (T fluido)],
     Ok (Some {| Tmin := Tmin l; Tmax := Tmax l; Pmin := Pmin l;
                 Pmax := Rmin (Pmax l)
                              (_Melting_Pressure fluido (T fluido)) |})).
Proof.
  intros H1 H2 [Hlo Hhi]. unfold melting_clamp.
  rewrite decide_False by (intros E; rewrite E, lookup_empty in H1;
                           discriminate).
  unfold mbind, prog_bind, lift, emit, mret, prog_ret, getitem.
  rewrite H1, H2.
  rewrite (bool_decide_eq_true_2 _ Hlo), (bool_decide_eq_true_2 _ Hhi).
  cbn [bound]. rewrite Rmin_python. reflexivity.
Qed.

(** The melting block where there is no curve to apply. *)
Lemma melting_clamp_skip method lim fluido log :
  method <> MEOS \/ _melting fluido = ∅ ->
  melting_clamp method lim fluido log = (log, Ok lim).
Proof.
  intros [H | H]; unfold melting_clamp.
  - destruct method; [contradiction | reflexivity | reflexivity].
  - destruct method; try reflexivity. by rewrite decide_True.
Qed.

(** Before the limits are bound, only the saturation point at [Tmin] is
    asked for. *)
Lemma bind_limits_log method fluid config kwargs log0 log r :
  bind_limits method fluid config kwargs log0 = (log, r) ->
  log = log0 \/ exists t, log = log0 ++ [CallSaturation t].
Proof.
  unfold bind_limits, mbind, prog_bind, lift, emit, mret, prog_ret.
  destruct method.
  - repeat match goal with
           | |- context [match ?x with _ => _ end] =>
               lazymatch x with
               | context [match _ with _ => _ end] => fail
               | _ => destruct x
               end
           end;
      intros [= <- _]; eauto.
  - repeat match goal with
           | |- context [match ?x with _ => _ end] =>
               lazymatch x with
               | context [match _ with _ => _ end] => fail
               | _ => destruct x
               end
           end;
      intros [= <- _]; eauto.
  - intros [= <- _]. auto.
Qed.

Lemma bind_limits_no_new method fluid config kwargs log r k :
  bind_limits method fluid config kwargs [] = (log, r) -> CallNew k ∉ log.
Proof.
  intros [-> | [t ->]]%bind_limits_log.
  - apply not_elem_of_nil.
  - simpl. intros [H | H]%elem_of_cons; [discriminate | by inversion H].
Qed.


(** C5 (amended).  With the limits of the selected equation record
    bound (methods MEOS and COOLPROP): only the saturation call has been
    made when the arguments are tested; a query whose T is below Tmin
    or above Tmax, or whose P is below Pmin − 1 or above Pmax + 1, is
    answered None without constructing the fluid, as is T = Tmin − ε;
    a query on the (Tmin, Pmin) corner of a nonempty window passes
    these tests, the fluid is constructed, and it is returned when its
    status is 1 or 3 and its resolved T and P lie inside the limits as
    the melting block leaves them. *)
Theorem calcPoint_window method fluid config kwargs log kw l :
  bind_limits method fluid config kwargs [] = (log, Ok (kw, Some l)) ->
  (forall k, CallNew k ∉ log) /\
  (forall t, kw !! "T" = Some t -> t < Tmin l \/ t > Tmax l ->
     calcPoint method fluid config kwargs [] = (log, Ok None)) /\
  (forall p, kw !! "P" = Some p -> p < Pmin l - 1 \/ p > Pmax l + 1 ->
     calcPoint method fluid config kwargs [] = (log, Ok None)) /\
  (forall eps, 0 < eps -> kw !! "T" = Some (Tmin l - eps) ->
     calcPoint method fluid config kwargs [] = (log, Ok None)) /\
  (kw !! "T" = Some (Tmin l) -> kw !! "P" = Some (Pmin l) ->
   Tmin l <= Tmax l -> Pmin l <= Pmax l + 1 ->
   refused_before (Some l) kw = Ok false /\
   forall fluido log' l',
     _new fluid kw = Ok fluido ->
     (status fluido = 1 \/ status fluido = 3)%Z ->
     melting_clamp method (Some l) fluido (log ++ [CallNew kw])
       = (log', Ok (Some l')) ->
     Pmin l' - 1 <= P fluido <= Pmax l' + 1 ->
     Tmin l' <= T fluido <= Tmax l' ->
     calcPoint method fluid config kwargs [] = (log', Ok (Some fluido))).
Proof.
  intros Hlim.
  assert (HT : forall t, kw !! "T" = Some t -> t < Tmin l \/ t > Tmax l ->
            calcPoint method fluid config kwargs [] = (log, Ok None)).
  { intros t Ht Hout. rewrite calcPoint_unfold, Hlim.
    by rewrite (refused_before_T l kw t Ht Hout). }
  split; [| split; [| split; [| split]]].
  - intros k. by apply (bind_limits_no_new _ _ _ _ _ _ k Hlim).
  - exact HT.
  - intros p Hp Hout. rewrite calcPoint_unfold, Hlim.
    by rewrite (refused_before_P l kw p Hp Hout).
  - intros eps Heps Ht. apply (HT _ Ht). left. lra.
  - intros Ht Hp HTw HPw.
    assert (Hpre : refused_before (Some l) kw = Ok false).
    { apply (refused_before_inside l kw _ _ Ht Hp); lra. }
    split; [exact Hpre |].
    intros fluido log' l' Hnew Hst Hclamp HP' HT'.
    rewrite calcPoint_unfold, Hlim, Hpre, Hnew.
    rewrite bool_decide_eq_false_2.
    2:{ intros Hnot. apply Hnot. destruct Hst as [-> | ->];
          repeat constructor. }
    rewrite Hclamp. by rewrite (refused_after_inside l' fluido HP' HT').
Qed.

(** C6.  On the MEOS branch, when the solved instance has a melting
    curve whose [Tmin, Tmax] range contains its temperature, the melting
    pressure is computed at that temperature, the upper pressure limit
    becomes min(Pmax, Pmel), and an instance whose pressure exceeds that
    limit by more than 1 is answered None. *)
Theorem calcPoint_melting_clamp fluid config kwargs log kw l fluido
    tmin tmax :
  bind_limits MEOS fluid config kwargs [] = (log, Ok (kw, Some l)) ->
  refused_before (Some l) kw = Ok false ->
  _new fluid kw = Ok fluido ->
  (status fluido = 1 \/ status fluido = 3)%Z ->
  _melting fluido !! "Tmin" = Some tmin ->
  _melting fluido !! "Tmax" = Some tmax ->
  tmin <= T fluido <= tmax ->
  let Pmel := _Melting_Pressure fluido (T fluido) in
  let news := log ++ [CallNew kw] in
  melting_clamp MEOS (Some l) fluido news
    = (news ++ [CallMeltingPressure (T fluido)],
       Ok (Some {| Tmin := Tmin l; Tmax := Tmax l; Pmin := Pmin l;
                   Pmax := Rmin (Pmax l) Pmel |}))
  /\ (P fluido > Rmin (Pmax l) Pmel + 1 ->
      calcPoint MEOS fluid config kwargs []
        = (news ++ [CallMeltingPressure (T fluido)], Ok None)).
Proof.
  intros Hlim Hpre Hnew Hst H1 H2 Hin Pmel news.
  pose proof (melting_clamp_in_range l fluido news tmin tmax H1 H2 Hin)
    as Hclamp.
  split; [exact Hclamp |].
  intros Hout. rewrite calcPoint_unfold, Hlim, Hpre, Hnew.
  rewrite bool_decide_eq_false_2.
  2:{ intros Hnot. apply Hnot. destruct Hst as [-> | ->];
        repeat constructor. }
  fold news. rewrite Hclamp.
  rewrite refused_after_outside; [reflexivity |].
  right. left. exact Hout.
Qed.

End CalcPointFacts.

Section CalcPointSamples.
Import UI_Tables Samples.
Local Open Scope R_scope.

Lemma melting_fluid_limits kwargs :
  bind_limits MEOS melting_fluid corner_config kwargs []
  = ([CallSaturation 100],
     Ok ((IZR <$> pydict [("eq", 0%Z)]) ∪ kwargs, Some corner_limits)).
Proof. reflexivity. Qed.

Lemma plain_fluid_limits kwargs :
  bind_limits MEOS plain_fluid corner_config kwargs []
  = ([CallSaturation 100],
     Ok ((IZR <$> pydict [("eq", 0%Z)]) ∪ kwargs, Some corner_limits)).
Proof. reflexivity. Qed.

Lemma corner_kw_T : corner_kw !! "T" = Some 100.
Proof. reflexivity. Qed.

Lemma corner_kw_P : corner_kw !! "P" = Some 1000.
Proof. reflexivity. Qed.

Lemma corner_passes : refused_before (Some corner_limits) corner_kw = Ok false.
Proof.
  apply (refused_before_inside corner_limits corner_kw 100 1000
           corner_kw_T corner_kw_P);
    cbn [Tmin Tmax Pmin Pmax corner_limits]; lra.
Qed.

(** C5, counterexample.  A query on the (Tmin, Pmin) corner for which
    the solver succeeds (status 1, the queried T and P) is answered
    None, because the melting pressure at Tmin lies below Pmin − 1. *)
Lemma calcPoint_corner_counterexample :
  bind_limits MEOS melting_fluid corner_config corner_kwargs []
    = ([CallSaturation 100], Ok (corner_kw, Some corner_limits))
  /\ corner_kw !! "T" = Some (Tmin corner_limits)
  /\ corner_kw !! "P" = Some (Pmin corner_limits)
  /\ _new melting_fluid corner_kw = Ok melting_fluido
  /\ status melting_fluido = 1%Z
  /\ T melting_fluido = Tmin corner_limits
  /\ P melting_fluido = Pmin corner_limits
  /\ calcPoint MEOS melting_fluid corner_config corner_kwargs []
     = ([CallSaturation 100; CallNew corner_kw; CallMeltingPressure 100],
        Ok None).
Proof.
  split; [apply melting_fluid_limits |].
  split; [reflexivity |]. split; [reflexivity |].
  split; [reflexivity |]. split; [reflexivity |].
  split; [reflexivity |]. split; [reflexivity |].
  rewrite calcPoint_unfold, melting_fluid_limits. fold corner_kw.
  rewrite corner_passes.
  change (_new melting_fluid corner_kw) with (Ok melting_fluido).
  cbv iota beta.
  rewrite bool_decide_eq_false_2
    by (intros Hnot; apply Hnot; repeat constructor).
  rewrite (melting_clamp_in_range corner_limits melting_fluido _ 100 200
             eq_refl eq_refl)
    by (cbn [T melting_fluido]; lra).
  rewrite refused_after_outside; [reflexivity |].
  right. left.
  cbn [P Pmax T _Melting_Pressure melting_fluido corner_limits].
  unfold Rmin. destruct (Rle_dec (10 * 1000) 50); lra.
Qed.


Lemma calcPoint_window_witness :
  calcPoint MEOS plain_fluid corner_config cold_kwargs []
    = ([CallSaturation 100], Ok None)
  /\ calcPoint MEOS plain_fluid corner_config corner_kwargs []
     = ([CallSaturation 100; CallNew corner_kw], Ok (Some plain_fluido)).
Proof.
  split.
  - destruct (calcPoint_window MEOS plain_fluid corner_config cold_kwargs
                _ _ _ (plain_fluid_limits cold_kwargs))
      as (_ & _ & _ & Hcold & _).
    apply (Hcold 1); [lra | reflexivity].
  - destruct (calcPoint_window MEOS plain_fluid corner_config corner_kwargs
                _ _ _ (plain_fluid_limits corner_kwargs))
      as (_ & _ & _ & _ & Hcorner).
    destruct Hcorner as [_ Hret];
      [ reflexivity | reflexivity
      | cbn [Tmin Tmax corner_limits]; lra
      | cbn [Pmin Pmax corner_limits]; lra |].
    apply (Hret plain_fluido _ corner_limits).
    + reflexivity.
    + left. reflexivity.
    + apply melting_clamp_skip. right. reflexivity.
    + cbn [P Pmin Pmax plain_fluido corner_limits]. lra.
    + cbn [T Tmin Tmax plain_fluido corner_limits]. lra.
Defined.

Lemma calcPoint_melting_clamp_witness :
  calcPoint MEOS melting_fluid corner_config corner_kwargs []
  = ([CallSaturation 100; CallNew corner_kw; CallMeltingPressure 100],
     Ok None).
Proof.
  destruct (calcPoint_melting_clamp melting_fluid corner_config
              corner_kwargs _ _ _ melting_fluido 100 200
              (melting_fluid_limits corner_kwargs) corner_passes
              eq_refl (or_introl eq_refl) eq_refl eq_refl)
    as [_ Hout].
  - cbn [T melting_fluido]. lra.
  - apply Hout.
    cbn [P Pmax T _Melting_Pressure melting_fluido corner_limits].
    unfold Rmin. destruct (Rle_dec (10 * 1000) 50); lra.
Defined.

End CalcPointSamples.

(** ** More on the derivative engine *)

Section DerivativeMore.
Import Derivative Samples.
Local Open Scope R_scope.

Local Ltac member := unfold base_variables; repeat constructor.

Lemma pydict_outside {V} (items : list (string * V)) (k : string) :
  k ∉ map fst items -> pydict items !! k = None.
Proof.
  unfold pydict. intros Hk.
  assert (G : forall d : gmap string V, d !! k = None ->
            fold_left (fun d kv => <[kv.1 := kv.2]> d) items d !! k = None).
  { induction items as [| [a x] items IH]; intros d Hd; simpl.
    - exact Hd.
    - apply IH.
      + intros Hin. apply Hk. simpl. by right.
      + rewrite lookup_insert_ne; [exact Hd |].
        intros ->. apply Hk. simpl. by left. }
  apply G, lookup_empty.
Qed.

Lemma dP_outside self fase k :
  k ∉ base_variables -> build_dP self fase !! k = None.
Proof. intros Hk. by apply pydict_outside. Qed.

Lemma dT_outside self fase dT k :
  build_dT self fase = Ok dT -> k ∉ base_variables -> dT !! k = None.
Proof. intros [_ ->]%build_dT_inv Hk. by apply pydict_outside. Qed.

Lemma getitem_missing {V} (d : gmap string V) k :
  d !! k = None -> getitem d k = Raise KeyError.
Proof. intros H. unfold getitem. by rewrite H. Qed.

(** X1.  With the tables built, a variable name outside the eight base
    variables, in any of the three positions, makes [derivative] raise
    KeyError. *)
Theorem derivative_unknown_variable self fase dT z x y :
  build_dT self fase = Ok dT ->
  z ∉ base_variables \/ x ∉ base_variables \/ y ∉ base_variables ->
  derivative self z x y fase = Raise KeyError.
Proof.
  intros HdT Hout. unfold derivative. rewrite HdT, bind_Ok.
  destruct (decide (z ∈ base_variables)) as [Hz | Hz].
  2:{ by rewrite (getitem_missing _ _ (dP_outside self fase z Hz)). }
  rewrite (getitem_total _ z (base_in_dP self fase z Hz)), bind_Ok.
  destruct (decide (y ∈ base_variables)) as [Hy | Hy].
  2:{ by rewrite (getitem_missing _ _ (dT_outside self fase dT y HdT Hy)). }
  rewrite (getitem_total _ y (base_in_dT self fase dT y HdT Hy)), bind_Ok.
  rewrite (getitem_total _ z (base_in_dT self fase dT z HdT Hz)), bind_Ok.
  rewrite (getitem_total _ y (base_in_dP self fase y Hy)), bind_Ok.
  destruct Hout as [H | [Hx | H]]; [contradiction | | contradiction].
  by rewrite (getitem_missing _ _ (dP_outside self fase x Hx)).
Qed.

Lemma derivative_unknown_variable_witness :
  derivative self1 "rho" "P" "T" fase1 = Raise KeyError.
Proof.
  apply (derivative_unknown_variable self1 fase1 _ "rho" "P" "T"
           build_dT_self1).
  left. unfold base_variables. intros H.
  repeat (apply elem_of_cons in H as [H | H]; [discriminate H |]).
  by apply elem_of_nil in H.
Defined.

(** X2.  With the tables built and a nonzero denominator, the derivative
    of a variable with respect to itself is 1, and the derivative of the
    variable that is held constant is 0. *)
Theorem derivative_of_itself_and_of_constant self fase dT x y :
  build_dT self fase = Ok dT ->
  x ∈ base_variables -> y ∈ base_variables ->
  jacobian dT (build_dP self fase) x y <> 0 ->
  derivative self x x y fase = Ok 1 /\ derivative self y x y fase = Ok 0.
Proof.
  intros HdT Hx Hy Hden. split.
  - rewrite (derivative_unfold _ _ dT) by assumption.
    rewrite pydiv_ok by assumption. f_equal. by field.
  - rewrite (derivative_unfold _ _ dT) by assumption.
    rewrite jacobian_diag, pydiv_ok by assumption. f_equal. by field.
Qed.

Lemma derivative_of_itself_and_of_constant_witness :
  derivative self1 "P" "P" "T" fase1 = Ok 1
  /\ derivative self1 "T" "P" "T" fase1 = Ok 0.
Proof.
  destruct jacobians_self1 as (JPT & _).
  apply (derivative_of_itself_and_of_constant self1 fase1 _ "P" "T"
           build_dT_self1); [member | member |].
  rewrite JPT. lra.
Defined.

(** X3.  Chain rule at constant y: with the tables built and both
    denominators nonzero, derivative(z,x,y) is the product of
    derivative(z,w,y) and derivative(w,x,y), and the three calls
    return. *)
Theorem derivative_chain_rule self fase dT z w x y :
  build_dT self fase = Ok dT ->
  z ∈ base_variables -> w ∈ base_variables ->
  x ∈ base_variables -> y ∈ base_variables ->
  jacobian dT (build_dP self fase) x y <> 0 ->
  jacobian dT (build_dP self fase) w y <> 0 ->
  exists a b c,
    derivative self z x y fase = Ok a /\
    derivative self z w y fase = Ok b /\
    derivative self w x y fase = Ok c /\
    a = b * c.
Proof.
  intros HdT Hz Hw Hx Hy Hxy Hwy.
  set (J := jacobian dT (build_dP self fase)) in *.
  exists (J z y / J x y), (J z y / J w y), (J w y / J x y).
  rewrite !(derivative_unfold _ _ dT) by assumption. fold J.
  rewrite !pydiv_ok by assumption.
  split; [reflexivity | split; [reflexivity | split; [reflexivity |]]].
  field. split; assumption.
Qed.

Lemma derivative_chain_rule_witness :
  exists a b c,
    derivative self1 "g" "P" "T" fase1 = Ok a /\
    derivative self1 "g" "g" "T" fase1 = Ok b /\
    derivative self1 "g" "P" "T" fase1 = Ok c /\
    a = b * c.
Proof.
  destruct jacobians_self1 as (JPT & JgT & _).
  apply (derivative_chain_rule self1 fase1 _ "g" "g" "P" "T"
           build_dT_self1); [member | member | member | member | |].
  - rewrite JPT. lra.
  - rewrite JgT. lra.
Defined.

(** X4.  Three classical relations as the tables give them, for every
    state with the tables built: (∂P/∂T)_v = αv/κ when v·κ ≠ 0; the
    Joule-Thomson coefficient (∂T/∂P)_h = v·(T·αv − 1)/cp when cp ≠ 0;
    and the isochoric heat capacity (∂u/∂T)_v = cp − T·v·αv²/κ when
    v·κ ≠ 0. *)
Theorem derivative_classical_relations self fase dT :
  build_dT self fase = Ok dT ->
  (v fase <> 0 -> kappa fase <> 0 ->
   derivative self "P" "T" "v" fase = Ok (alfav fase / kappa fase)) /\
  (cp fase <> 0 ->
   derivative self "T" "P" "h" fase
   = Ok (v fase * (T self * alfav fase - 1) / cp fase)) /\
  (v fase <> 0 -> kappa fase <> 0 ->
   derivative self "u" "T" "v" fase
   = Ok (cp fase - T self * v fase * alfav fase * alfav fase / kappa fase)).
Proof.
  intros HdT.
  destruct (build_dP_entries self fase)
    as (PP & PT & Pv & Pu & Ph & _).
  destruct (build_dT_entries self fase dT HdT)
    as (TP & TT & Tv & Tu & Th & _).
  cbv zeta in PP, PT, Pv, Pu, Ph.
  split; [| split].
  - intros Hv Hk.
    rewrite (derivative_unfold _ _ dT) by (assumption || member).
    unfold jacobian. rewrite PP, PT, Pv, TP, TT, Tv.
    rewrite pydiv_ok.
    + f_equal. by field.
    + intros E. apply (Rmult_integral_contrapositive_currified _ _ Hv Hk).
      lra.
  - intros Hcp.
    rewrite (derivative_unfold _ _ dT) by (assumption || member).
    unfold jacobian. rewrite PP, PT, Ph, TP, TT, Th.
    rewrite pydiv_ok by lra. f_equal. by field.
  - intros Hv Hk.
    rewrite (derivative_unfold _ _ dT) by (assumption || member).
    unfold jacobian. rewrite PT, Pv, Pu, TT, Tv, Tu.
    rewrite pydiv_ok.
    + f_equal. by field.
    + intros E. apply (Rmult_integral_contrapositive_currified _ _ Hv Hk).
      lra.
Qed.

Lemma derivative_classical_relations_witness :
  derivative self1 "P" "T" "v" fase1 = Ok (1 / 1)
  /\ derivative self1 "T" "P" "h" fase1 = Ok (1 * (1 * 1 - 1) / 1)
  /\ derivative self1 "u" "T" "v" fase1 = Ok (1 - 1 * 1 * 1 * 1 / 1).
Proof.
  destruct (derivative_classical_relations self1 fase1 _ build_dT_self1)
    as (H1 & H2 & H3).
  split; [| split].
  - apply H1; cbn [v kappa fase1]; lra.
  - apply H2; cbn [cp fase1]; lra.
  - apply H3; cbn [v kappa fase1]; lra.
Defined.

End DerivativeMore.

(** ** More on [SimpleEq] *)

Section SimpleEqMore.
Import Utilities.
Local Open Scope R_scope.

Variable float_pow : R -> R -> R.
Variable complex_pow : R -> R -> R * R.

(** X5.  For Tc ≠ 0, a coefficient dict without the key "n", or without
    the key "t", makes [SimpleEq] raise KeyError; so does a dict with
    both lists but without "eq", provided the loop, which runs before
    "eq" is read, does not raise: T ≠ Tc, or no paired exponent is
    negative. *)
Theorem SimpleEq_missing_key Tc T coef :
  Tc <> 0 ->
  (coef !! "n" = None \/
   (is_Some (coef !! "n") /\ coef !! "t" = None) \/
   (exists ns ts, coef !! "n" = Some (VList ns) /\
                  coef !! "t" = Some (VList ts) /\ coef !! "eq" = None /\
                  (T <> Tc \/
                   Forall (fun t => 0 <= t) (exponents ns ts)))) ->
  SimpleEq float_pow complex_pow Tc T coef = Raise KeyError.
Proof.
  intros HTc Hmiss. unfold SimpleEq, getitem.
  rewrite (pydiv_ok T Tc HTc), bind_Ok.
  destruct Hmiss as [Hn | [[[n Hn] Ht] | (ns & ts & Hn & Ht & He & Hloop)]].
  - rewrite Hn. reflexivity.
  - rewrite Hn, Ht. reflexivity.
  - rewrite Hn, Ht, He, !bind_Ok. cbn [pyiter]. rewrite !bind_Ok.
    destruct (accumulate_loop_returns float_pow complex_pow (1 - T / Tc)
                ns ts (Float 0)) as [pr Hpr].
    { destruct Hloop as [Hne | Hall]; [left | by right].
      intros H0. apply Hne.
      assert (H1 : T / Tc = 1) by lra.
      apply (f_equal (fun x => x * Tc)) in H1.
      replace (T / Tc * Tc) with T in H1 by (field; exact HTc). lra. }
    unfold accumulate. rewrite Hpr, bind_Ok. reflexivity.
Qed.

Lemma zip_app_unpaired {A B} (ns extra : list A) (ts : list B) :
  (length ts <= length ns)%nat -> zip (ns ++ extra) ts = zip ns ts.
Proof.
  revert ts. induction ns as [| n ns IH]; intros ts Hlen.
  - destruct ts; [| simpl in Hlen; lia]. by destruct extra.
  - destruct ts as [| t ts]; [reflexivity |]. cbn [app zip zip_with].
    f_equal. apply IH. simpl in Hlen. lia.
Qed.

(** X6.  The loop pairs coefficients and exponents with [zip]: for
    Tc ≠ 0, coefficients beyond the number of exponents are ignored, the
    result is that of the dict with the list "n" cut to that length. *)
Theorem SimpleEq_ignores_unpaired Tc T coef ns extra ts (e : Z) :
  Tc <> 0 ->
  coef !! "t" = Some (VList ts) ->
  coef !! "eq" = Some (VInt e) ->
  length ts = length ns ->
  SimpleEq float_pow complex_pow Tc T (<["n" := VList (ns ++ extra)]> coef)
  = SimpleEq float_pow complex_pow Tc T (<["n" := VList ns]> coef).
Proof.
  intros HTc Ht He Hlen.
  rewrite (SimpleEq_run float_pow complex_pow Tc T _ (ns ++ extra) ts e HTc);
    [| by rewrite lookup_insert_eq
     | by rewrite lookup_insert_ne
     | by rewrite lookup_insert_ne].
  rewrite (SimpleEq_run float_pow complex_pow Tc T _ ns ts e HTc);
    [| by rewrite lookup_insert_eq
     | by rewrite lookup_insert_ne
     | by rewrite lookup_insert_ne].
  unfold accumulate. rewrite zip_app_unpaired by lia. reflexivity.
Qed.

(** X7.  For Tc ≠ 0 and well-typed lists, with θ = 1 − T/Tc, every
    integer form other than 1, 2 and 3: returns the plain sum Σ nᵢ·θ^tᵢ
    when every paired power is a float (as for θ > 0); returns a complex
    number when θ < 0 and some paired exponent is not whole; and raises
    ZeroDivisionError when θ = 0 and some paired exponent is
    negative. *)
Theorem SimpleEq_other_forms Tc T coef ns ts (e : Z) :
  Tc <> 0 ->
  coef !! "n" = Some (VList ns) ->
  coef !! "t" = Some (VList ts) ->
  coef !! "eq" = Some (VInt e) ->
  e <> 1%Z -> e <> 2%Z -> e <> 3%Z ->
  let theta := 1 - T / Tc in
  let run := SimpleEq float_pow complex_pow Tc T coef in
  (0 < theta -> Forall (real_power theta) (exponents ns ts)) /\
  (Forall (real_power theta) (exponents ns ts) ->
   run = Ok (Float (theta_sum float_pow theta (map snd ns) (map snd ts)))) /\
  (theta < 0 -> Exists (fun t => ~ whole t) (exponents ns ts) ->
   exists re im, run = Ok (Complex re im)) /\
  (theta = 0 -> Exists (fun t => t < 0) (exponents ns ts) ->
   run = Raise ZeroDivisionError).
Proof.
  intros HTc Hn Ht He H1 H2 H3 theta run.
  assert (Hrun := SimpleEq_run float_pow complex_pow Tc T coef ns ts e
                    HTc Hn Ht He).
  fold theta run in Hrun. cbv zeta in Hrun.
  rewrite (bool_decide_eq_false_2 (e = 1%Z) H1),
          (bool_decide_eq_false_2 (e = 2%Z) H2),
          (bool_decide_eq_false_2 (e = 3%Z) H3) in Hrun.
  split; [| split; [| split]].
  - intros Hpos. apply Forall_forall. intros t _.
    by apply real_power_positive.
  - intros Hreal.
    rewrite (accumulate_real float_pow complex_pow _ _ _ Hreal) in Hrun.
    exact Hrun.
  - intros Hneg Hex.
    destruct (accumulate_loop_complex float_pow complex_pow theta ns ts
                Hneg (Float 0) Hex) as (re & im & Hacc).
    unfold accumulate in Hrun. rewrite Hacc in Hrun. by exists re, im.
  - intros Hzero Hex. unfold accumulate in Hrun. rewrite Hzero in Hrun.
    rewrite (accumulate_loop_zero float_pow complex_pow _ _ _ Hex) in Hrun.
    exact Hrun.
Qed.

End SimpleEqMore.

Section SimpleEqMoreSamples.
Import Utilities Samples PowerSamples.
Local Open Scope R_scope.

Lemma SF6_Tc_nonzero : SF6.Tc <> 0.
Proof. unfold SF6.Tc. lra. Qed.

(** The ancillary dicts of SF6 name their lists "ao" and "exp"; a dict
    with both lists and no form raises KeyError after the loop. *)
Lemma SimpleEq_missing_key_witness :
  SimpleEq Rpower Cpower SF6.Tc 300 SF6._vapor_Pressure = Raise KeyError /\
  SimpleEq Rpower Cpower 2 1 coef_noeq = Raise KeyError.
Proof.
  split.
  - apply (SimpleEq_missing_key Rpower Cpower SF6.Tc 300 SF6._vapor_Pressure
             SF6_Tc_nonzero).
    left. reflexivity.
  - assert (H2 : (2 : R) <> 0) by lra.
    apply (SimpleEq_missing_key Rpower Cpower 2 1 coef_noeq H2).
    right. right. exists [(None, 1)], [(None, 1)].
    split; [reflexivity |]. split; [reflexivity |]. split; [reflexivity |].
    left. lra.
Defined.

Lemma SimpleEq_ignores_unpaired_witness :
  SimpleEq Rpower Cpower 2 1
    (<["n" := VList ([(None, 1)] ++ [(None, 7)])]> coef6)
  = SimpleEq Rpower Cpower 2 1 (<["n" := VList [(None, 1)]]> coef6).
Proof.
  assert (H2 : (2 : R) <> 0) by lra.
  apply (SimpleEq_ignores_unpaired Rpower Cpower 2 1 coef6 [(None, 1)]
           [(None, 7)] [(None, 1)] 6 H2); reflexivity.
Defined.

Lemma SimpleEq_other_forms_witness :
  SimpleEq Rpower Cpower 2 1 coef6
    = Ok (Float (theta_sum Rpower (1 - 1 / 2) [1] [1])) /\
  (exists re im, SimpleEq Rpower Cpower 2 3 coef_root6 = Ok (Complex re im)) /\
  SimpleEq Rpower Cpower 2 2 coef_inverse = Raise ZeroDivisionError.
Proof.
  assert (H2 : (2 : R) <> 0) by lra.
  split; [| split].
  - destruct (SimpleEq_other_forms Rpower Cpower 2 1 coef6 [(None, 1)]
                [(None, 1)] 6 H2 eq_refl eq_refl eq_refl)
      as (Hpos & H & _); [discriminate | discriminate | discriminate |].
    apply H, Hpos. lra.
  - destruct (SimpleEq_other_forms Rpower Cpower 2 3 coef_root6 [(None, 1)]
                [(None, 1 / 2)] 6 H2 eq_refl eq_refl eq_refl)
      as (_ & _ & H & _); [discriminate | discriminate | discriminate |].
    apply H; [lra |]. apply Exists_cons_hd. exact half_not_whole.
  - destruct (SimpleEq_other_forms Rpower Cpower 2 2 coef_inverse
                [(None, 1)] [(None, -1)] 6 H2 eq_refl eq_refl eq_refl)
      as (_ & _ & _ & H); [discriminate | discriminate | discriminate |].
    apply H; [lra |]. apply Exists_cons_hd. cbn. lra.
Defined.

End SimpleEqMoreSamples.

(** ** More on the property catalogs *)

Section CatalogMore.
Import Catalog.

Lemma dictUnit_fold (l : list property) (d : gmap string unit) (k : string) :
  NoDup (map (fun p : property => p.1.2) l) ->
  fold_left (fun d (p : property) => <[p.1.2 := p.2]> d) l d !! k
  = match list_find (fun p : property => p.1.2 = k) l with
    | Some (_, p) => Some p.2
    | None => d !! k
    end.
Proof.
  revert d. induction l as [| p l IH]; intros d Hnd; simpl.
  - reflexivity.
  - apply NoDup_cons in Hnd as [Hp Hnd]. rewrite IH by assumption.
    destruct (decide (p.1.2 = k)) as [E | E].
    + destruct (list_find (fun p1 : property => p1.1.2 = k) l)
        as [[i q] |] eqn:Hfind.
      * exfalso. apply list_find_Some in Hfind as (Hq & Hk & _).
        apply Hp. rewrite E, <- Hk. apply list_elem_of_fmap.
        exists q. split; [reflexivity |].
        by apply list_elem_of_lookup_2 in Hq.
      * simpl. rewrite <- E. by rewrite lookup_insert_eq.
    + destruct (list_find (fun p1 : property => p1.1.2 = k) l)
        as [[i q] |] eqn:Hfind; simpl.
      * reflexivity.
      * by rewrite lookup_insert_ne.
Qed.

Lemma propertiesKey_NoDup (c : cls) : NoDup (propertiesKey c).
Proof. destruct c; compute_done. Qed.

Lemma dictUnit_entry (c : cls) (p : property) :
  p ∈ properties c -> _dictUnit c !! p.1.2 = Some p.2.
Proof.
  pose proof (propertiesKey_NoDup c) as Hnd.
  intros Hp. unfold _dictUnit. rewrite dictUnit_fold by exact Hnd.
  destruct (list_find (fun q : property => q.1.2 = p.1.2) (properties c))
    as [[i q] |] eqn:Hfind.
  - apply list_find_Some in Hfind as (Hq & Hk & _).
    apply list_elem_of_lookup_2 in Hq as Hq'.
    apply list_elem_of_lookup in Hp as [j Hj].
    assert (i = j) as ->.
    { eapply NoDup_lookup; [exact Hnd | |];
        unfold propertiesKey; rewrite list_lookup_fmap.
      - rewrite Hq. simpl. reflexivity.
      - rewrite Hj. simpl. by rewrite Hk. }
    congruence.
  - exfalso. apply list_find_None in Hfind.
    rewrite Forall_forall in Hfind. by apply (Hfind p Hp).
Qed.

(** X8.  In every class the catalog keys are pairwise distinct, so
    [_dictUnit] maps the key of each catalog entry to the unit of that
    entry, and it has no other keys. *)
Theorem dictUnit_agrees_with_catalog (c : cls) :
  NoDup (propertiesKey c) /\
  (forall p : property, p ∈ properties c -> _dictUnit c !! p.1.2 = Some p.2) /\
  (forall k, k ∉ propertiesKey c -> _dictUnit c !! k = None).
Proof.
  pose proof (propertiesKey_NoDup c) as Hnd.
  split; [exact Hnd | split].
  - apply dictUnit_entry.
  - intros k Hk. unfold _dictUnit. rewrite dictUnit_fold by exact Hnd.
    destruct (list_find (fun q : property => q.1.2 = k) (properties c))
      as [[i q] |] eqn:Hfind; [| apply lookup_empty].
    exfalso. apply list_find_Some in Hfind as (Hq & Hk' & _).
    apply Hk. unfold propertiesKey. apply list_elem_of_fmap.
    exists q. split; [by rewrite Hk' |].
    by apply list_elem_of_lookup_2 in Hq.
Qed.

(** [l.insert(k, x)] for an index inside the list. *)
Lemma py_insert_inside {A} (k : nat) (x : A) (l : list A) :
  (k <= length l)%nat ->
  py_insert (Z.of_nat k) x l = take k l ++ x :: drop k l.
Proof.
  intros Hk. unfold py_insert.
  rewrite bool_decide_eq_false_2 by lia.
  rewrite Z.min_l by lia. by rewrite Nat2Z.id.
Qed.

(** [l.insert(-k, x)] for [0 < k <= len(l)]. *)
Lemma py_insert_from_end {A} (k : nat) (x : A) (l : list A) :
  (0 < k <= length l)%nat ->
  py_insert (- Z.of_nat k) x l
  = take (length l - k) l ++ x :: drop (length l - k) l.
Proof.
  intros Hk. unfold py_insert.
  rewrite bool_decide_eq_true_2 by lia.
  rewrite Z.max_r by lia.
  replace (Z.to_nat (- Z.of_nat k + Z.of_nat (length l)))
    with (length l - k)%nat by lia.
  reflexivity.
Qed.

Lemma insert_loop_inside {A} (k : nat) (new l : list A) :
  (k <= length l)%nat ->
  fold_left (fun prop p => py_insert (Z.of_nat k) p prop) new l
  = take k l ++ reverse new ++ drop k l.
Proof.
  revert l. induction new as [| x new IH]; intros l Hk; simpl.
  - by rewrite take_drop.
  - rewrite py_insert_inside by assumption.
    rewrite IH by (rewrite length_app, length_take; simpl; lia).
    rewrite take_app_le by (rewrite length_take; lia).
    rewrite take_take, Nat.min_id.
    rewrite drop_app_ge by (rewrite length_take; lia).
    rewrite length_take, Nat.min_l, Nat.sub_diag by lia. simpl.
    rewrite reverse_cons, <- !app_assoc. reflexivity.
Qed.

Lemma insert_loop_from_end {A} (k : nat) (new l : list A) :
  (0 < k <= length l)%nat ->
  fold_left (fun prop p => py_insert (- Z.of_nat k) p prop) new l
  = take (length l - k) l ++ new ++ drop (length l - k) l.
Proof.
  revert l. induction new as [| x new IH]; intros l Hk; simpl.
  - by rewrite take_drop.
  - rewrite py_insert_from_end by assumption.
    set (m := (length l - k)%nat).
    assert (Hlen : length (take m l ++ x :: drop m l) = S (length l)).
    { rewrite length_app, length_take. simpl. rewrite length_drop.
      unfold m. lia. }
    rewrite IH by (rewrite Hlen; lia). rewrite Hlen.
    replace (S (length l) - k)%nat with (S m) by (unfold m; lia).
    assert (Hm : length (take m l) = m)
      by (rewrite length_take; unfold m; lia).
    rewrite (take_app_ge (take m l)) by (rewrite Hm; lia).
    rewrite (drop_app_ge (take m l)) by (rewrite Hm; lia).
    rewrite Hm. replace (S m - m)%nat with 1%nat by lia.
    simpl. rewrite take_0, drop_0.
    rewrite <- !app_assoc. reflexivity.
Qed.

Lemma append_loop {A} (new l : list A) :
  fold_left (fun prop p => prop ++ [p]) new l = l ++ new.
Proof.
  revert l. induction new as [| x new IH]; intros l; simpl.
  - by rewrite app_nil_r.
  - rewrite IH, <- app_assoc. reflexivity.
Qed.

(** X9.  The loops that extend a catalog: inserting the new entries one
    by one at a fixed index k inside the list leaves them at position k
    in reverse order, inserting them at a fixed index −k leaves them in
    their order before the last k entries.  So the advanced catalog is
    the base catalog with the advanced entries reversed at position 34,
    the water catalog the base catalog with its two entries, in order,
    before the last 11, and the RefProp catalog the advanced one
    followed by its own entries. *)
Theorem catalog_layout :
  (forall (A : Type) (k : nat) (new l : list A),
     (k <= length l)%nat ->
     fold_left (fun prop p => py_insert (Z.of_nat k) p prop) new l
     = take k l ++ reverse new ++ drop k l) /\
  (forall (A : Type) (k : nat) (new l : list A),
     (0 < k <= length l)%nat ->
     fold_left (fun prop p => py_insert (- Z.of_nat k) p prop) new l
     = take (length l - k) l ++ new ++ drop (length l - k) l) /\
  properties ThermoAdvanced
    = take 34 (properties Thermo) ++ reverse ThermoAdvanced_new
      ++ drop 34 (properties Thermo) /\
  properties ThermoWater
    = take 43 (properties Thermo) ++ ThermoWater_new
      ++ drop 43 (properties Thermo) /\
  properties ThermoRefProp = properties ThermoAdvanced ++ ThermoRefProp_new.
Proof.
  split; [intros; by apply insert_loop_inside |].
  split; [intros; by apply insert_loop_from_end |].
  split; [| split].
  - apply (insert_loop_inside 34 ThermoAdvanced_new Thermo_properties).
    compute_done.
  - apply (insert_loop_from_end 11 ThermoWater_new Thermo_properties).
    compute_done.
  - apply append_loop.
Qed.

End CatalogMore.

(** ** More on reading a state *)

Section ReadMore.
Import Catalog Serialization.
Local Open Scope R_scope.

Lemma last_assigned_None l b :
  b ∉ map fst l -> last_assigned l b = None.
Proof.
  induction l as [| [a x] l IH]; intros Hb; simpl.
  - reflexivity.
  - rewrite IH by (intros H; apply Hb; simpl; by right).
    rewrite decide_False; [reflexivity |].
    intros ->. apply Hb. simpl. by left.
Qed.

(** X10.  On a restorable dict the reader of every class returns without
    raising, leaves [_bool] set, and changes no attribute other than the
    ones it assigns. *)
Theorem read_returns_and_frames c self fluid :
  restorable c fluid ->
  exists self',
    readStatefromJSON c self fluid = (self', None) /\
    _bool self' = true /\
    forall b, b ∉ map fst (restored c fluid) ->
              attrs self' !! b = attrs self !! b.
Proof.
  intros Hres. eexists. split; [by apply readStatefromJSON_run |].
  split; [by rewrite bool_applied |].
  intros b Hb. by rewrite attrs_applied, last_assigned_None.
Qed.

Lemma read_returns_and_frames_witness :
  exists self',
    readStatefromJSON ThermoAdvanced Samples.empty_state
      Samples.sample_old_fluid = (self', None) /\
    _bool self' = true /\
    attrs self' !! "sigma" = None.
Proof.
  destruct (read_returns_and_frames ThermoAdvanced Samples.empty_state
              Samples.sample_old_fluid sample_old_fluid_restorable)
    as (self' & Hread & Hb & Hframe).
  exists self'. split; [exact Hread |]. split; [exact Hb |].
  rewrite Hframe; [reflexivity |]. compute_done.
Defined.

Lemma restored_derived c fluid :
  last_assigned (restored c fluid) "rho"
    = Some (VNum (Some Density) (1 / magnitude (fluid !!! "v"))) /\
  last_assigned (restored c fluid) "rhoM"
    = Some (VNum (Some MolarDensity)
              (1 / magnitude (fluid !!! "v") / magnitude (fluid !!! "M"))) /\
  last_assigned (restored c fluid) "hM"
    = Some (VNum (Some MolarEnthalpy)
              (magnitude (fluid !!! "h") / magnitude (fluid !!! "M"))) /\
  last_assigned (restored c fluid) "sM"
    = Some (VNum (Some MolarSpecificHeat)
              (magnitude (fluid !!! "s") / magnitude (fluid !!! "M"))) /\
  last_assigned (restored c fluid) "cpM"
    = Some (VNum (Some MolarSpecificHeat)
              (magnitude (fluid !!! "cp") / magnitude (fluid !!! "M"))).
Proof.
  destruct c;
    (split; [reflexivity |]); (split; [reflexivity |]);
    (split; [reflexivity |]); (split; reflexivity).
Qed.

(** X11.  On a restorable dict the derived attributes are recomputed, not
    read: [rho] is 1/v as a Density, [rhoM] is rho/M, and the molar
    enthalpy, entropy and isobaric heat capacity are the specific values
    divided by M. *)
Theorem read_derived_quantities c self fluid :
  restorable c fluid ->
  exists self',
    readStatefromJSON c self fluid = (self', None) /\
    attrs self' !! "rho"
      = Some (VNum (Some Density) (1 / magnitude (fluid !!! "v"))) /\
    attrs self' !! "rhoM"
      = Some (VNum (Some MolarDensity)
                (1 / magnitude (fluid !!! "v") / magnitude (fluid !!! "M"))) /\
    attrs self' !! "hM"
      = Some (VNum (Some MolarEnthalpy)
                (magnitude (fluid !!! "h") / magnitude (fluid !!! "M"))) /\
    attrs self' !! "sM"
      = Some (VNum (Some MolarSpecificHeat)
                (magnitude (fluid !!! "s") / magnitude (fluid !!! "M"))) /\
    attrs self' !! "cpM"
      = Some (VNum (Some MolarSpecificHeat)
                (magnitude (fluid !!! "cp") / magnitude (fluid !!! "M"))).
Proof.
  intros Hres. eexists. split; [by apply readStatefromJSON_run |].
  destruct (restored_derived c fluid) as (E1 & E2 & E3 & E4 & E5).
  rewrite !attrs_applied, E1, E2, E3, E4, E5. auto.
Qed.

Lemma read_derived_quantities_witness :
  exists self',
    readStatefromJSON ThermoAdvanced Samples.empty_state
      Samples.sample_old_fluid = (self', None) /\
    attrs self' !! "rho"
      = Some (VNum (Some Density)
                (1 / magnitude (Samples.sample_old_fluid !!! "v"))).
Proof.
  destruct (read_derived_quantities ThermoAdvanced Samples.empty_state
              Samples.sample_old_fluid sample_old_fluid_restorable)
    as (self' & Hread & Hrho & _).
  exists self'. auto.
Defined.

Lemma Thermo_read_missing_M fluid self :
  fluid <> ∅ -> fluid !! "M" = None ->
  Thermo_readStatefromJSON fluid self = (set_bool true self, Some KeyError).
Proof.
  intros Hne HM. unfold Thermo_readStatefromJSON.
  rewrite if_fluid_nonempty by assumption. unfold Thermo_read_body.
  erewrite block_step by reflexivity.
  apply block_raise. by apply assign_missing.
Qed.

(** X15.  On a nonempty dict without the key "M" the reader of every
    class raises KeyError at its first lookup; the instance keeps its
    attributes but is left with [_bool] set. *)
Theorem read_missing_M c self fluid :
  fluid <> ∅ -> fluid !! "M" = None ->
  readStatefromJSON c self fluid = (set_bool true self, Some KeyError).
Proof.
  intros Hne HM.
  pose proof (Thermo_read_missing_M fluid self Hne HM) as HT.
  destruct c; cbn [readStatefromJSON].
  - exact HT.
  - unfold ThermoWater_readStatefromJSON. by apply block_raise.
  - unfold ThermoAdvanced_readStatefromJSON. by apply block_raise.
  - unfold ThermoRefProp_readStatefromJSON, ThermoAdvanced_readStatefromJSON.
    apply block_raise. by apply block_raise.
Qed.

Lemma read_missing_M_witness :
  readStatefromJSON ThermoAdvanced Samples.empty_state
    (pydict [("v", VNum None 2)])
  = (set_bool true Samples.empty_state, Some KeyError).
Proof.
  apply (read_missing_M ThermoAdvanced); [| reflexivity].
  intros E. apply (f_equal (fun m : gmap string pyval => m !! "v")) in E.
  discriminate E.
Defined.

(** X16.  A dict whose "M" is a number and whose "v" is the number zero
    makes the reader of every class raise ZeroDivisionError, at
    [1/self.v], after [M] and [v] have been assigned. *)
Theorem read_zero_volume c self fluid xM xv :
  fluid !! "M" = Some xM -> numeric xM ->
  fluid !! "v" = Some xv -> numeric xv -> magnitude xv = 0 ->
  readStatefromJSON c self fluid
  = (setattr "v" (VNum (Some SpecificVolume) 0)
       (setattr "M" (VNum (Some Dimensionless) (magnitude xM))
          (set_bool true self)), Some ZeroDivisionError).
Proof. apply read_zero_volume_run. Qed.

Lemma read_zero_volume_witness :
  snd (readStatefromJSON Thermo Samples.empty_state
         (pydict [("M", VNum None 2); ("v", VNum None 0)]))
  = Some ZeroDivisionError.
Proof.
  rewrite (read_zero_volume Thermo Samples.empty_state _
             (VNum None 2) (VNum None 0));
    (reflexivity || exact I).
Defined.

(** X17.  [virialB] and [virialC] share one [try] block: on a restorable
    dict of an advanced class that holds "virialB" but not "virialC",
    both attributes are restored as zero, the stored [virialB] is
    dropped. *)
Theorem read_virial_pair c self fluid x :
  c = ThermoAdvanced \/ c = ThermoRefProp ->
  restorable c fluid ->
  fluid !! "virialB" = Some x -> fluid !! "virialC" = None ->
  exists self',
    readStatefromJSON c self fluid = (self', None) /\
    attrs self' !! "virialB" = Some (VNum (Some SpecificVolume) 0) /\
    attrs self' !! "virialC" = Some (VNum (Some SpecificVolume_square) 0).
Proof.
  intros Hc Hres HB HC. eexists. split; [by apply readStatefromJSON_run |].
  rewrite !attrs_applied, restored_virialB, restored_virialC by assumption.
  rewrite !pair_magnitude_missing by auto. auto.
Qed.

End ReadMore.

Section ReadMoreSamples.
Import Catalog Serialization Samples MoreSamples.
Local Open Scope R_scope.

Local Ltac sample_entry :=
  first [ eexists; split; [reflexivity | exact I]
        | eexists; reflexivity ].

Lemma sample_partial_fluid_restorable :
  restorable ThermoAdvanced sample_partial_fluid.
Proof.
  split; [| split; [| split; [| split; [| split]]]].
  - let l := eval vm_compute in (number_keys ThermoAdvanced) in
      change (number_keys ThermoAdvanced) with l.
    repeat (apply Forall_cons; split; [sample_entry |]).
    constructor.
  - unfold list_keys.
    repeat (apply Forall_cons; split; [sample_entry |]).
    constructor.
  - unfold optional_keys.
    repeat (apply Forall_cons; split;
            [intros x Hx;
             match type of Hx with
             | ?m !! ?k = _ =>
                 first
                   [ assert (E : m !! k = None) by reflexivity;
                     rewrite E in Hx; discriminate Hx
                   | assert (E : m !! k = Some (VNum None 2)) by reflexivity;
                     rewrite E in Hx; injection Hx as <-; exact I ]
             end |]).
    constructor.
  - left. split; sample_entry.
  - intros x Hx.
    assert (E : sample_partial_fluid !! "M" = Some (VNum None 2))
      by reflexivity.
    rewrite E in Hx. injection Hx as <-. cbn [magnitude]. lra.
  - intros x Hx.
    assert (E : sample_partial_fluid !! "v" = Some (VNum None 2))
      by reflexivity.
    rewrite E in Hx. injection Hx as <-. cbn [magnitude]. lra.
Qed.

Lemma read_virial_pair_witness :
  exists self',
    readStatefromJSON ThermoAdvanced empty_state sample_partial_fluid
      = (self', None) /\
    attrs self' !! "virialB" = Some (VNum (Some SpecificVolume) 0) /\
    attrs self' !! "virialC" = Some (VNum (Some SpecificVolume_square) 0).
Proof.
  apply (read_virial_pair ThermoAdvanced empty_state sample_partial_fluid
           (VNum None 2) (or_introl eq_refl)
           sample_partial_fluid_restorable); reflexivity.
Defined.

End ReadMoreSamples.

(** ** More on writing a state *)

Section WriteMore.
Import Catalog Serialization.
Local Open Scope R_scope.

Local Ltac reproduced_entry :=
  let H := fresh in
  first
    [ intros _; eexists; rewrite attrs_applied; reflexivity
    | intros H; exfalso; revert H; compute_done ].

(** X12.  For a computed phase of any class, writing and reading back
    return, and every attribute stored under a key that is read as one
    number comes back as a quantity with the magnitude it had. *)
Theorem roundtrip_values c self target state fase :
  solved c self ->
  exists self',
    writeStatetoJSON c self state fase
      = Ok (<[fase := snapshot c self]> state) /\
    readStatefromJSON c target (snapshot c self) = (self', None) /\
    Forall (fun ka : string * string =>
              ka.1 ∈ number_keys c ->
              exists u, attrs self' !! ka.2
                        = Some (VNum (Some u)
                                  (magnitude (attr_value self ka.2))))
           (written_items c).
Proof.
  intros (Hb & Hall & Hres).
  eexists. split; [by apply writeStatetoJSON_run |].
  split; [by apply readStatefromJSON_run |].
  destruct c.
  - let l := eval vm_compute in (written_items Thermo) in
      change (written_items Thermo) with l.
    repeat (apply Forall_cons; split; [reproduced_entry |]). constructor.
  - let l := eval vm_compute in (written_items ThermoWater) in
      change (written_items ThermoWater) with l.
    repeat (apply Forall_cons; split; [reproduced_entry |]). constructor.
  - let l := eval vm_compute in (written_items ThermoAdvanced) in
      change (written_items ThermoAdvanced) with l.
    repeat (apply Forall_cons; split; [reproduced_entry |]). constructor.
  - let l := eval vm_compute in (written_items ThermoRefProp) in
      change (written_items ThermoRefProp) with l.
    repeat (apply Forall_cons; split; [reproduced_entry |]). constructor.
Qed.


Lemma getattr_raises self a e :
  getattr self a = Raise e -> e = AttributeError.
Proof.
  unfold getattr. destruct (attrs self !! a); [discriminate |].
  destruct (class_attr a); [discriminate |]. by intros [= <-].
Qed.

Lemma store_all_raises self items fluid e :
  store_all self items fluid = Raise e ->
  e = AttributeError /\
  exists ka, ka ∈ items /\ getattr self ka.2 = Raise AttributeError.
Proof.
  revert fluid. induction items as [| [k a] items IH]; intros fluid; simpl.
  - discriminate.
  - destruct (getattr self a) as [x | e'] eqn:Ha.
    + rewrite bind_Ok. intros (-> & ka & Hin & Hka)%IH.
      split; [reflexivity |]. exists ka. split; [by right | exact Hka].
    + rewrite bind_Raise. intros [= ->].
      pose proof (getattr_raises _ _ _ Ha) as ->.
      split; [reflexivity |]. exists (k, a). split; [by left | exact Ha].
Qed.

Lemma Thermo_write_cases self state fase :
  (exists fluid, Thermo_writeStatetoJSON self state fase
                 = Ok (<[fase := fluid]> state)) \/
  (Thermo_writeStatetoJSON self state fase = Raise AttributeError /\
   _bool self = true /\
   exists ka, ka ∈ Thermo_written /\ getattr self ka.2 = Raise AttributeError).
Proof.
  unfold Thermo_writeStatetoJSON. destruct (_bool self) eqn:Hb.
  - destruct (store_all self Thermo_written ∅) as [fluid | e] eqn:Hs.
    + left. by exists fluid.
    + right. apply store_all_raises in Hs as (-> & Hka). auto.
  - left. by exists ∅.
Qed.

Lemma write_more_cases self items state fase fluid :
  (exists fluid', write_more self items (<[fase := fluid]> state) fase
                  = Ok (<[fase := fluid']> state)) \/
  (write_more self items (<[fase := fluid]> state) fase
   = Raise AttributeError /\
   _bool self = true /\
   exists ka, ka ∈ items /\ getattr self ka.2 = Raise AttributeError).
Proof.
  unfold write_more, getitem. destruct (_bool self) eqn:Hb.
  - rewrite lookup_insert_eq, bind_Ok.
    destruct (store_all self items fluid) as [fluid' | e] eqn:Hs.
    + left. exists fluid'. by rewrite bind_Ok, insert_insert_eq.
    + right. apply store_all_raises in Hs as (-> & Hka). auto.
  - left. by exists fluid.
Qed.

(** The writer of every class either stores one dict under the phase
    key, or raises AttributeError on a computed phase with an attribute
    that is not set. *)
Lemma writeStatetoJSON_cases c self state fase :
  (exists fluid, writeStatetoJSON c self state fase
                 = Ok (<[fase := fluid]> state)) \/
  (writeStatetoJSON c self state fase = Raise AttributeError /\
   _bool self = true /\
   exists ka, ka ∈ written_items c /\ getattr self ka.2 = Raise AttributeError).
Proof.
  destruct (Thermo_write_cases self state fase)
    as [[fluid HT] | (HT & Hb & ka & Hin & Hka)].
  2:{ right. split; [| split; [exact Hb |]].
      - destruct c; cbn [writeStatetoJSON];
          unfold ThermoRefProp_writeStatetoJSON,
                 ThermoAdvanced_writeStatetoJSON,
                 ThermoWater_writeStatetoJSON;
          rewrite HT; reflexivity.
      - exists ka. split; [| exact Hka].
        destruct c; cbn [written_items]; rewrite ?elem_of_app; auto. }
  destruct c; cbn [writeStatetoJSON written_items].
  - left. by exists fluid.
  - unfold ThermoWater_writeStatetoJSON. rewrite HT, bind_Ok.
    destruct (write_more_cases self ThermoWater_written state fase fluid)
      as [H | (H & Hb & ka & Hin & Hka)]; [by left | right].
    split; [exact H | split; [exact Hb |]].
    exists ka. rewrite elem_of_app. auto.
  - unfold ThermoAdvanced_writeStatetoJSON. rewrite HT, bind_Ok.
    destruct (write_more_cases self ThermoAdvanced_written state fase fluid)
      as [H | (H & Hb & ka & Hin & Hka)]; [by left | right].
    split; [exact H | split; [exact Hb |]].
    exists ka. rewrite elem_of_app. auto.
  - unfold ThermoRefProp_writeStatetoJSON, ThermoAdvanced_writeStatetoJSON.
    rewrite HT, bind_Ok.
    destruct (write_more_cases self ThermoAdvanced_written state fase fluid)
      as [[fluid' H] | (H & Hb & ka & Hin & Hka)].
    + rewrite H, bind_Ok.
      destruct (write_more_cases self ThermoRefProp_written state fase
                  fluid')
        as [H' | (H' & Hb & ka & Hin & Hka)]; [by left | right].
      split; [exact H' | split; [exact Hb |]].
      exists ka. rewrite !elem_of_app. auto.
    + right. rewrite H, bind_Raise.
      split; [reflexivity | split; [exact Hb |]].
      exists ka. rewrite !elem_of_app. auto.
Qed.

(** X13.  When the writer of any class returns, the phase key holds a
    dict and the entries of all other phases are the ones the state had
    before. *)
Theorem write_frames_other_phases c self state fase state' :
  writeStatetoJSON c self state fase = Ok state' ->
  is_Some (state' !! fase) /\
  forall other, other <> fase -> state' !! other = state !! other.
Proof.
  intros Hw.
  destruct (writeStatetoJSON_cases c self state fase)
    as [[fluid H] | [H _]]; rewrite H in Hw; [| discriminate].
  injection Hw as <-. split.
  - rewrite lookup_insert_eq. by eexists.
  - intros other Hne. by rewrite lookup_insert_ne.
Qed.

(** X14.  The only exception the writer of any class raises is
    AttributeError, and it raises it only for a phase with [_bool] set
    of which some attribute it stores is neither an instance attribute
    nor a class attribute. *)
Theorem write_raises_only_AttributeError c self state fase e :
  writeStatetoJSON c self state fase = Raise e ->
  e = AttributeError /\ _bool self = true /\
  exists ka, ka ∈ written_items c /\ getattr self ka.2 = Raise AttributeError.
Proof.
  intros Hw.
  destruct (writeStatetoJSON_cases c self state fase)
    as [[fluid H] | (H & Hb & Hka)]; rewrite H in Hw; [discriminate |].
  injection Hw as <-. auto.
Qed.


Lemma object_eq (s1 s2 : object) :
  _bool s1 = _bool s2 -> attrs s1 = attrs s2 -> s1 = s2.
Proof. destruct s1, s2. simpl. by intros -> ->. Qed.

(** X18.  Reading a restorable dict is idempotent: reading it a second
    time into the instance just restored changes nothing. *)
Theorem read_idempotent c self fluid :
  restorable c fluid ->
  readStatefromJSON c (readStatefromJSON c self fluid).1 fluid
  = readStatefromJSON c self fluid.
Proof.
  intros Hres. rewrite !(readStatefromJSON_run _ _ _ Hres).
  cbn [fst]. f_equal. apply object_eq.
  - rewrite !bool_applied. reflexivity.
  - apply map_eq. intros b. rewrite !attrs_applied.
    destruct (last_assigned (restored c fluid) b) eqn:E; [reflexivity |].
    cbn [set_bool attrs]. rewrite attrs_applied, E. reflexivity.
Qed.

End WriteMore.

Section WriteMoreSamples.
Import Catalog Serialization Samples MoreSamples.
Local Open Scope R_scope.

Lemma roundtrip_values_witness :
  exists self' u,
    readStatefromJSON ThermoAdvanced empty_state
      (snapshot ThermoAdvanced sample_state) = (self', None) /\
    attrs self' !! "h"
    = Some (VNum (Some u) (magnitude (attr_value sample_state "h"))).
Proof.
  destruct (roundtrip_values ThermoAdvanced sample_state empty_state ∅
              "Liquido" sample_state_solved)
    as (self' & _ & Hread & Hall).
  rewrite Forall_forall in Hall.
  destruct (Hall ("h", "h") ltac:(compute_done) ltac:(compute_done))
    as (u & Hu).
  exists self', u. auto.
Defined.

Lemma write_frames_other_phases_witness :
  is_Some ((<["Liquido" := ∅]> (<["Gas" := snapshot ThermoAdvanced
                                             sample_state]> ∅)
            : gmap string (gmap string pyval)) !! "Liquido").
Proof.
  apply (write_frames_other_phases ThermoAdvanced empty_state
           (<["Gas" := snapshot ThermoAdvanced sample_state]> ∅)
           "Liquido").
  reflexivity.
Defined.

Lemma write_raises_only_AttributeError_witness :
  exists ka, ka ∈ written_items ThermoAdvanced /\
             getattr sample_incomplete ka.2 = Raise AttributeError.
Proof.
  destruct (write_raises_only_AttributeError ThermoAdvanced
              sample_incomplete ∅ "Gas" AttributeError)
    as (_ & _ & Hka); [reflexivity | exact Hka].
Defined.

Lemma read_idempotent_witness :
  readStatefromJSON ThermoAdvanced
    (readStatefromJSON ThermoAdvanced empty_state sample_old_fluid).1
    sample_old_fluid
  = readStatefromJSON ThermoAdvanced empty_state sample_old_fluid.
Proof.
  apply (read_idempotent ThermoAdvanced empty_state sample_old_fluid
           sample_old_fluid_restorable).
Defined.

End WriteMoreSamples.

(** ** More on [calcPoint] *)

Section CalcPointMore.
Import UI_Tables CalcPointOptions.
Local Open Scope R_scope.

Local Ltac destruct_head H :=
  repeat match type of H with
         | context [match ?x with _ => _ end] =>
             lazymatch x with
             | context [match _ with _ => _ end] => fail
             | _ => let E := fresh "E" in
                    destruct x eqn:E; try discriminate H
             end
         end.

Lemma bind_limits_MEOS fluid config kwargs log0 log kw lim :
  bind_limits MEOS fluid config kwargs log0 = (log, Ok (kw, lim)) ->
  exists option i l,
    options_read config option /\
    kw = (IZR <$> option) ∪ kwargs /\
    option !! "eq" = Some i /\
    eq_item fluid i "Tmin" = Ok (Tmin l) /\
    eq_item fluid i "Tmax" = Ok (Tmax l) /\
    saturation_P fluid (Tmin l) = Ok (Pmin l) /\
    (exists pmax, eq_item fluid i "Pmax" = Ok pmax /\ Pmax l = pmax * 1000) /\
    lim = Some l /\
    log = log0 ++ [CallSaturation (Tmin l)].
Proof.
  unfold bind_limits, mbind, prog_bind, result_bind, lift, emit, mret,
    prog_ret, result_ret, getitem, getint.
  intros H. destruct config as [d | MEoS]; destruct_head H;
    injection H as <- <- <-;
    eexists _, _, (Build_Limits _ _ _ _);
    cbn [Tmin Tmax Pmin Pmax options_read];
    (split; [first [reflexivity | by eauto 10] |]);
    (split; [reflexivity |]);
    (split; [eassumption |]);
    (split; [eassumption |]);
    (split; [eassumption |]);
    (split; [eassumption |]);
    (split; [eexists; split; [eassumption | reflexivity] |]);
    split; reflexivity.
Qed.


Lemma bind_limits_COOLPROP fluid config kwargs log0 log kw lim :
  bind_limits COOLPROP fluid config kwargs log0 = (log, Ok (kw, lim)) ->
  kw = kwargs /\ log = log0 /\ exists l, lim = Some l.
Proof.
  unfold bind_limits, mbind, prog_bind, result_bind, lift, emit, mret,
    prog_ret, result_ret.
  intros H. destruct_head H. injection H as <- <- <-. eauto.
Qed.

Lemma bind_limits_REFPROP fluid config kwargs log0 :
  bind_limits REFPROP fluid config kwargs log0 = (log0, Ok (kwargs, None)).
Proof. reflexivity. Qed.

Lemma refused_after_inv lim fluido :
  refused_after lim fluido = Ok false ->
  exists l, lim = Some l /\
            Pmin l - 1 <= P fluido <= Pmax l + 1 /\
            Tmin l <= T fluido <= Tmax l.
Proof.
  unfold refused_after. destruct lim as [l |]; [| discriminate].
  cbn [bound]. rewrite bind_Ok. intros [= H]. exists l. split; [done |].
  apply orb_false_iff in H as [H H4]. apply orb_false_iff in H as [H H3].
  apply orb_false_iff in H as [H1 H2].
  apply bool_decide_eq_false in H1, H2, H3, H4. lra.
Qed.

Lemma melting_clamp_inv method lim fluido log log' lim' :
  melting_clamp method lim fluido log = (log', Ok lim') ->
  (lim' = lim /\ log' = log) \/
  (method = MEOS /\
   exists l l', lim = Some l /\ lim' = Some l' /\
                Tmin l' = Tmin l /\ Tmax l' = Tmax l /\ Pmin l' = Pmin l /\
                Pmax l' <= Pmax l /\
                Pmax l' <= _Melting_Pressure fluido (T fluido) /\
                log' = log ++ [CallMeltingPressure (T fluido)]).
Proof.
  unfold melting_clamp, mbind, prog_bind, result_bind, lift, emit, mret,
    prog_ret, result_ret, getitem.
  intros H. destruct method; [| injection H as <- <-; by left ..].
  destruct (decide (_melting fluido = ∅)); [injection H as <- <-; by left |].
  destruct (_melting fluido !! "Tmin") as [tmin |]; [| discriminate H].
  destruct (bool_decide (tmin <= T fluido));
    [| injection H as <- <-; by left].
  destruct (_melting fluido !! "Tmax") as [tmax |]; [| discriminate H].
  destruct (bool_decide (T fluido <= tmax));
    [| injection H as <- <-; by left].
  destruct lim as [l |]; [| discriminate H]. cbn [bound] in H.
  injection H as <- <-. right. split; [reflexivity |].
  eexists l, _. split; [reflexivity |]. split; [reflexivity |].
  cbn [Tmin Tmax Pmin Pmax].
  split; [reflexivity |]. split; [reflexivity |]. split; [reflexivity |].
  split; [| split; [| reflexivity]]; case_bool_decide; lra.
Qed.

(** What a returned instance went through. *)
Lemma calcPoint_returned method fluid config kwargs log fluido :
  calcPoint method fluid config kwargs [] = (log, Ok (Some fluido)) ->
  exists log1 kw lim log2 lim',
    bind_limits method fluid config kwargs [] = (log1, Ok (kw, lim)) /\
    refused_before lim kw = Ok false /\
    _new fluid kw = Ok fluido /\
    (status fluido = 1 \/ status fluido = 3)%Z /\
    melting_clamp method lim fluido (log1 ++ [CallNew kw])
      = (log2, Ok lim') /\
    refused_after lim' fluido = Ok false /\
    log = log2.
Proof.
  rewrite calcPoint_unfold.
  destruct (bind_limits method fluid config kwargs [])
    as [log1 [[kw lim] | e]] eqn:Hlim; [| discriminate].
  destruct (refused_before lim kw) as [[|] | e] eqn:Hpre; try discriminate.
  destruct (_new fluid kw) as [fluido' | e] eqn:Hnew; [| discriminate].
  case_bool_decide as Hst; [discriminate |].
  destruct (melting_clamp method lim fluido' (log1 ++ [CallNew kw]))
    as [log2 [lim' | e]] eqn:Hclamp; [| discriminate].
  destruct (refused_after lim' fluido') as [[|] | e] eqn:Hpost;
    try discriminate.
  intros [= <- <-]. exists log1, kw, lim, log2, lim'.
  split; [reflexivity |]. split; [exact Hpre |]. split; [exact Hnew |].
  split; [| auto].
  destruct (decide (status fluido' ∈ [1; 3]%Z)) as [Hin | Hin];
    [| contradiction].
  apply elem_of_cons in Hin as [-> | Hin]; [by left |].
  apply elem_of_cons in Hin as [-> | Hin]; [by right |].
  by apply elem_of_nil in Hin.
Qed.

(** X19.  Whatever the method, a state that [calcPoint] returns was
    solved with status 1 or 3 and lies inside the window of the selected
    equation record: Tmin ≤ T ≤ Tmax and Pmin − 1 ≤ P ≤ Pmax + 1; on the
    REFPROP branch nothing is ever returned. *)
Theorem calcPoint_returns_inside_window method fluid config kwargs log
    fluido :
  calcPoint method fluid config kwargs [] = (log, Ok (Some fluido)) ->
  method <> REFPROP /\
  (status fluido = 1 \/ status fluido = 3)%Z /\
  exists log1 kw l,
    bind_limits method fluid config kwargs [] = (log1, Ok (kw, Some l)) /\
    _new fluid kw = Ok fluido /\
    Tmin l <= T fluido <= Tmax l /\
    Pmin l - 1 <= P fluido <= Pmax l + 1.
Proof.
  intros (log1 & kw & lim & log2 & lim' & Hlim & Hpre & Hnew & Hst
          & Hclamp & Hpost & _)%calcPoint_returned.
  apply refused_after_inv in Hpost as (l' & -> & HP & HT).
  apply melting_clamp_inv in Hclamp
    as [[<- _] | (_ & l & l'' & -> & [= <-] & E1 & E2 & E3 & Hle & _)].
  - split.
    + intros ->. rewrite bind_limits_REFPROP in Hlim. discriminate Hlim.
    + split; [exact Hst |]. exists log1, kw, l'. auto.
  - split.
    + intros ->. rewrite bind_limits_REFPROP in Hlim. discriminate Hlim.
    + split; [exact Hst |]. exists log1, kw, l.
      split; [exact Hlim |]. split; [exact Hnew |]. lra.
Qed.

(** X20.  On the REFPROP branch the limits are never bound: a query with
    a "T" or a "P" raises NameError before the fluid is constructed, and
    no query is ever answered with a state. *)
Theorem calcPoint_REFPROP fluid config kwargs :
  (is_Some (kwargs !! "T") \/ is_Some (kwargs !! "P") ->
   calcPoint REFPROP fluid config kwargs [] = ([], Raise NameError)) /\
  (forall log fluido,
     calcPoint REFPROP fluid config kwargs [] <> (log, Ok (Some fluido))).
Proof.
  split.
  - intros Hq. rewrite calcPoint_unfold, bind_limits_REFPROP.
    unfold refused_before. cbn [bound].
    destruct (kwargs !! "T") as [t |]; [reflexivity |].
    destruct Hq as [[t Ht] | [p Hp]]; [discriminate Ht |].
    rewrite Hp. reflexivity.
  - intros log fluido
      (log1 & kw & lim & log2 & lim' & Hlim & _ & _ & _ & Hclamp & Hpost
       & _)%calcPoint_returned.
    rewrite bind_limits_REFPROP in Hlim. injection Hlim as <- <- <-.
    apply melting_clamp_inv in Hclamp as [[-> _] | [Hm _]];
      [discriminate Hpost | discriminate Hm].
Qed.


(** The calls that a run of [calcPoint] that returns has made after
    binding the limits. *)
Lemma calcPoint_log method fluid config kwargs log r log1 kw lim :
  bind_limits method fluid config kwargs [] = (log1, Ok (kw, lim)) ->
  calcPoint method fluid config kwargs [] = (log, Ok r) ->
  log = log1 \/
  exists fluido,
    _new fluid kw = Ok fluido /\
    (log = log1 ++ [CallNew kw] \/
     (method = MEOS /\
      log = (log1 ++ [CallNew kw]) ++ [CallMeltingPressure (T fluido)])).
Proof.
  intros Hlim. rewrite calcPoint_unfold, Hlim. intros H.
  destruct (refused_before lim kw) as [[|] | e]; try discriminate H.
  - injection H as <- _. by left.
  - destruct (_new fluid kw) as [fluido | e]; [| discriminate H].
    right. exists fluido. split; [reflexivity |].
    case_bool_decide; [injection H as <- _; auto |].
    destruct (melting_clamp method lim fluido (log1 ++ [CallNew kw]))
      as [log2 [lim' | e]] eqn:Hclamp; [| discriminate H].
    assert (log = log2) as ->.
    { destruct (refused_after lim' fluido) as [[|] | e];
        try discriminate H; by injection H as <- _. }
    apply melting_clamp_inv in Hclamp
      as [[_ ->] | (Hm & l & l' & _ & _ & _ & _ & _ & _ & _ & ->)]; auto.
Qed.

(** X21.  On the MEOS branch the saturation state at Tmin is computed
    before the query is looked at: whenever [calcPoint] returns (None or
    a state), its first call was [fluid(T=Tmin, x=0)]; the fluid, if
    constructed, received the keyword arguments updated with the
    options, and the melting pressure, if asked for, was asked at the
    temperature of the solved instance.  On the COOLPROP branch the only
    call ever made is the construction of the fluid with the keyword
    arguments as given. *)
Theorem calcPoint_calls method fluid config kwargs log r :
  calcPoint method fluid config kwargs [] = (log, Ok r) ->
  (method = MEOS ->
   exists option l,
     options_read config option /\
     let kw := (IZR <$> option) ∪ kwargs in
     bind_limits MEOS fluid config kwargs []
       = ([CallSaturation (Tmin l)], Ok (kw, Some l)) /\
     (log = [CallSaturation (Tmin l)] \/
      exists fluido,
        _new fluid kw = Ok fluido /\
        (log = [CallSaturation (Tmin l); CallNew kw] \/
         log = [CallSaturation (Tmin l); CallNew kw;
                CallMeltingPressure (T fluido)]))) /\
  (method = COOLPROP -> log = [] \/ log = [CallNew kwargs]).
Proof.
  intros H.
  destruct (bind_limits method fluid config kwargs [])
    as [log1 [[kw lim] | e]] eqn:Hlim.
  2:{ rewrite calcPoint_unfold, Hlim in H. discriminate H. }
  pose proof (calcPoint_log _ _ _ _ _ _ _ _ _ Hlim H) as Hlog.
  split.
  - intros ->.
    apply bind_limits_MEOS in Hlim as Hinv.
    destruct Hinv as (option & i & l & Hopt & -> & _ & _ & _ & _ & _
                      & -> & ->).
    exists option, l. split; [exact Hopt |]. cbv zeta.
    split; [exact Hlim |].
    destruct Hlog as [-> | (fluido & Hnew & [-> | [_ ->]])];
      [by left | right; exists fluido; auto ..].
  - intros ->.
    apply bind_limits_COOLPROP in Hlim as (-> & -> & _).
    destruct Hlog as [-> | (fluido & Hnew & [-> | [Hm _]])];
      [by left | by right | discriminate Hm].
Qed.


Lemma py_index_out {A} (l : list A) (i : Z) :
  (i < - Z.of_nat (length l) \/ Z.of_nat (length l) <= i)%Z ->
  py_index l i = Raise IndexError.
Proof.
  intros Hout. unfold py_index. cbv zeta.
  destruct (bool_decide (i < 0)%Z) eqn:E.
  - apply bool_decide_eq_true in E.
    rewrite bool_decide_eq_false_2 by lia. reflexivity.
  - apply bool_decide_eq_false in E.
    rewrite bool_decide_eq_false_2 by lia. reflexivity.
Qed.

Lemma py_index_negative {A} (l : list A) (i : Z) :
  (- Z.of_nat (length l) <= i < 0)%Z ->
  py_index l i = py_index l (i + Z.of_nat (length l)).
Proof.
  intros Hi. unfold py_index. cbv zeta.
  rewrite (bool_decide_eq_true_2 (i < 0)%Z) by lia.
  rewrite (bool_decide_eq_false_2 (i + Z.of_nat (length l) < 0)%Z) by lia.
  reflexivity.
Qed.

(** X22.  On the MEOS branch the option "eq" indexes the tuple
    [fluid.eq] as Python does: an index beyond either end raises
    IndexError before any call is made, and a negative index inside the
    range selects the record counted from the end. *)
Theorem calcPoint_equation_index fluid config kwargs option records i :
  options_read config option ->
  option !! "eq" = Some i ->
  eq fluid = EqTuple records ->
  let n := Z.of_nat (length records) in
  ((i < - n \/ n <= i)%Z ->
   calcPoint MEOS fluid config kwargs [] = ([], Raise IndexError)) /\
  ((- n <= i < 0)%Z ->
   forall key, eq_item fluid i key = eq_item fluid (i + n) key).
Proof.
  intros Hopt Hi Heq n. split.
  - intros Hout. rewrite calcPoint_unfold.
    assert (E : bind_limits MEOS fluid config kwargs []
                = ([], Raise IndexError)); [| by rewrite E].
    unfold bind_limits, mbind, prog_bind, result_bind, lift, emit, mret,
      prog_ret, result_ret, getitem, getint.
    assert (Hitem : eq_item fluid i "Tmin" = Raise IndexError).
    { unfold eq_item. rewrite Heq, py_index_out by exact Hout.
      reflexivity. }
    destruct config as [d | MEoS]; cbn [options_read] in Hopt.
    + subst d. rewrite Hi, Hitem. reflexivity.
    + destruct Hopt as (e & v & t & -> & -> & -> & ->).
      rewrite lookup_insert_ne, lookup_insert_ne, lookup_insert_eq in Hi
        by discriminate.
      injection Hi as ->.
      rewrite lookup_insert_ne, lookup_insert_ne, lookup_insert_eq
        by discriminate.
      rewrite Hitem. reflexivity.
  - intros Hneg key. unfold eq_item. rewrite Heq.
    by rewrite py_index_negative.
Qed.

End CalcPointMore.

Section CalcPointMoreSamples.
Import UI_Tables CalcPointOptions Samples.
Local Open Scope R_scope.

Lemma plain_corner_run :
  calcPoint MEOS plain_fluid corner_config corner_kwargs []
  = ([CallSaturation 100; CallNew corner_kw], Ok (Some plain_fluido)).
Proof.
  rewrite calcPoint_unfold, plain_fluid_limits. fold corner_kw.
  rewrite corner_passes.
  change (_new plain_fluid corner_kw) with (Ok plain_fluido).
  cbv iota beta.
  rewrite bool_decide_eq_false_2
    by (intros Hnot; apply Hnot; repeat constructor).
  rewrite melting_clamp_skip by (right; reflexivity).
  rewrite refused_after_inside;
    [reflexivity
    | cbn [P Pmin Pmax plain_fluido corner_limits]; lra
    | cbn [T Tmin Tmax plain_fluido corner_limits]; lra].
Qed.

Lemma calcPoint_returns_inside_window_witness :
  (status plain_fluido = 1 \/ status plain_fluido = 3)%Z.
Proof.
  apply (calcPoint_returns_inside_window MEOS plain_fluid corner_config
           corner_kwargs _ plain_fluido plain_corner_run).
Defined.

Lemma calcPoint_REFPROP_witness :
  calcPoint REFPROP plain_fluid corner_config corner_kwargs []
  = ([], Raise NameError).
Proof.
  apply (calcPoint_REFPROP plain_fluid corner_config corner_kwargs).
  left. by eexists.
Defined.

Lemma calcPoint_calls_witness :
  exists option l,
    options_read corner_config option /\
    bind_limits MEOS plain_fluid corner_config corner_kwargs []
    = ([CallSaturation (Tmin l)],
       Ok ((IZR <$> option) ∪ corner_kwargs, Some l)).
Proof.
  destruct (calcPoint_calls MEOS plain_fluid corner_config corner_kwargs
              _ _ plain_corner_run) as [HM _].
  destruct (HM eq_refl) as (option & l & Hopt & Hlim & _).
  exists option, l. auto.
Defined.

Lemma calcPoint_equation_index_witness :
  calcPoint MEOS plain_fluid (ConfigDict (pydict [("eq", 4%Z)]))
    corner_kwargs []
  = ([], Raise IndexError).
Proof.
  apply (calcPoint_equation_index plain_fluid
           (ConfigDict (pydict [("eq", 4%Z)])) corner_kwargs
           (pydict [("eq", 4%Z)])
           [pydict [("Tmin", 100); ("Tmax", 500); ("Pmax", 10)]] 4);
    [reflexivity | reflexivity | reflexivity |].
  right. simpl. lia.
Defined.

End CalcPointMoreSamples.

(** ** Further properties of [spreadsheetColumn] *)

Section SpreadsheetFacts.
Import Spreadsheet.
Local Open Scope Z_scope.

Lemma chr_code (n : Z) :
  0 <= n < 256 -> Z.of_nat (Ascii.nat_of_ascii (chr n)) = n.
Proof.
  intros H. unfold chr.
  rewrite Ascii.nat_ascii_embedding by lia. lia.
Qed.

Lemma column_loop_digits (fuel : nat) :
  forall index letters,
    0 <= index -> (Z.to_nat index <= fuel)%nat ->
    exists ds,
      column_loop fuel index letters = Some (letters ++ ds) /\
      foldr (fun c acc => (Z.of_nat (Ascii.nat_of_ascii c) - 64) + 26 * acc)
            0 ds = index /\
      Forall (fun c => 64 <= Z.of_nat (Ascii.nat_of_ascii c) <= 89) ds /\
      head ds = (if bool_decide (index = 0) then None
                 else Some (chr (index mod 26 + 64))).
Proof.
  induction fuel as [|fuel IH]; intros index letters Hpos Hfuel.
  - assert (index = 0) as -> by lia.
    exists []. cbn. rewrite app_nil_r. repeat split; constructor.
  - cbn [column_loop]. case_bool_decide as Hz.
    + subst index. exists []. rewrite app_nil_r. repeat split; constructor.
    + assert (Hm : 0 <= index mod 26 < 26) by (apply Z.mod_pos_bound; lia).
      assert (Hd : 0 <= index / 26 < index).
      { split; [apply Z.div_pos; lia | apply Z.div_lt; lia]. }
      destruct (IH (index / 26) (letters ++ [chr (index mod 26 + 64)]))
        as (ds & Hrun & Hval & Hall & _); [lia | lia |].
      exists (chr (index mod 26 + 64) :: ds).
      rewrite Hrun, <- app_assoc. split; [reflexivity |].
      cbn [foldr head]. rewrite chr_code by lia. rewrite Hval.
      split; [|split; [|reflexivity]].
      * pose proof (Z.div_mod index 26). lia.
      * constructor; [rewrite chr_code; lia | exact Hall].
Qed.

Lemma column_loop_negative (fuel : nat) :
  forall index letters, index < 0 -> column_loop fuel index letters = None.
Proof.
  induction fuel as [|fuel IH]; intros index letters Hneg; cbn [column_loop];
    rewrite bool_decide_eq_false_2 by lia; [reflexivity |].
  apply IH. apply Z.div_lt_upper_bound; lia.
Qed.

Lemma fold_left_reverse {A B} (f : B -> A -> B) (l : list A) (b : B) :
  fold_left f (reverse l) b = foldr (fun x acc => f acc x) b l.
Proof.
  induction l as [|x l IH]; [reflexivity |].
  rewrite reverse_cons, fold_left_app. cbn. now rewrite IH.
Qed.

(** X23 ([spreadsheetColumn], index >= 0).  For a column index that is
    not negative the loop ends (any fuel of at least index + 1 iterations
    is enough) and the name returned is index + 1 written in ordinary base
    26, most significant digit first, the digit d being the character of
    code 64 + d: every character lies between '@' (digit 0) and 'Y'
    (digit 25), the letter 'Z' is never produced, and the last character
    is the one of code 64 + (index + 1) mod 26, so it is '@' whenever
    index + 1 is a multiple of 26. *)
Theorem spreadsheetColumn_base26 (fuel : nat) (index : Z) :
  0 <= index -> (Z.to_nat (index + 1) <= fuel)%nat ->
  exists name,
    spreadsheetColumn fuel index = Some name /\
    column_value name = index + 1 /\
    Forall (fun c => 64 <= Z.of_nat (Ascii.nat_of_ascii c) <= 89)
           (String.list_ascii_of_string name) /\
    last (String.list_ascii_of_string name)
      = Some (chr ((index + 1) mod 26 + 64)).
Proof.
  intros Hpos Hfuel.
  destruct (column_loop_digits fuel (index + 1) [])
    as (ds & Hrun & Hval & Hall & Hhead); [lia | exact Hfuel |].
  rewrite bool_decide_eq_false_2 in Hhead by lia.
  exists (String.string_of_list_ascii (reverse ds)).
  unfold spreadsheetColumn, column_value. rewrite Hrun. cbn [app mbind option_bind].
  rewrite String.list_ascii_of_string_of_list_ascii.
  split; [reflexivity |]. split; [|split].
  - rewrite fold_left_reverse. rewrite <- Hval.
    clear. induction ds as [|c ds IH]; cbn; [reflexivity | rewrite IH; lia].
  - rewrite Forall_reverse. exact Hall.
  - rewrite last_reverse. exact Hhead.
Qed.

(** X24 ([spreadsheetColumn], negative index).  For index = -1 the loop
    is not entered and the empty name is returned.  For an index below -1
    the loop never ends: floor division keeps a negative number negative,
    so [while index] is never left, whatever the number of iterations
    allowed. *)
Theorem spreadsheetColumn_negative (fuel : nat) (index : Z) :
  index < 0 ->
  spreadsheetColumn fuel index
    = (if bool_decide (index = -1) then Some EmptyString else None).
Proof.
  intros Hneg. unfold spreadsheetColumn. case_bool_decide as H.
  - subst index. destruct fuel; reflexivity.
  - rewrite column_loop_negative by lia. reflexivity.
Qed.

Lemma spreadsheetColumn_base26_witness :
  spreadsheetColumn 26 25 = Some "A@"%string /\
  column_value "A@" = 26 /\
  exists name,
    spreadsheetColumn 100 55 = Some name /\
    column_value name = 56 /\
    Forall (fun c => 64 <= Z.of_nat (Ascii.nat_of_ascii c) <= 89)
           (String.list_ascii_of_string name) /\
    last (String.list_ascii_of_string name) = Some (chr (56 mod 26 + 64)).
Proof.
  split; [reflexivity |]. split; [reflexivity |].
  apply (spreadsheetColumn_base26 100 55); lia.
Defined.

Lemma spreadsheetColumn_negative_witness :
  spreadsheetColumn 1000 (-2) = None /\
  spreadsheetColumn 1000 (-1) = Some EmptyString.
Proof.
  split.
  - apply (spreadsheetColumn_negative 1000 (-2)). lia.
  - apply (spreadsheetColumn_negative 1000 (-1)). lia.
Defined.

End SpreadsheetFacts.

(** ** Further properties of [get_propiedades] *)

Section PropiedadesFacts.
Import Catalog UI_Tables Propiedades.
Local Open Scope Z_scope.

Lemma py_index_in {A} (l : list A) (i : Z) :
  - Z.of_nat (length l) <= i < Z.of_nat (length l) ->
  exists a, py_index l i = Ok a /\ a ∈ l.
Proof.
  intros Hi. unfold py_index. cbv zeta.
  set (j := if bool_decide (i < 0) then i + Z.of_nat (length l) else i).
  assert (Hj : 0 <= j < Z.of_nat (length l)).
  { unfold j. case_bool_decide; lia. }
  rewrite bool_decide_eq_true_2 by exact Hj.
  destruct (lookup_lt_is_Some_2 l (Z.to_nat j)) as [a Ha]; [lia |].
  exists a. rewrite Ha. split; [reflexivity |].
  by apply list_elem_of_lookup_2 in Ha.
Qed.

Lemma chosen_cons_true i pairs :
  (filter (fun p : Z * bool => p.2 = true) ((i, true) :: pairs)).*1
  = i :: (filter (fun p : Z * bool => p.2 = true) pairs).*1.
Proof. rewrite filter_cons_True by reflexivity. reflexivity. Qed.

Lemma chosen_cons_false i pairs :
  (filter (fun p : Z * bool => p.2 = true) ((i, false) :: pairs)).*1
  = (filter (fun p : Z * bool => p.2 = true) pairs).*1.
Proof. rewrite filter_cons_False by (cbn; discriminate). reflexivity. Qed.

Lemma get_propiedades_loop_ok (pairs : list (Z * bool)) :
  forall ps ks us,
    let n := Z.of_nat (length (properties ThermoAdvanced)) in
    Forall (fun i => - n <= i < n)
           (filter (fun p : Z * bool => p.2 = true) pairs).*1 ->
    exists entries : list property,
      get_propiedades_loop pairs ps ks us
      = Ok (ps ++ map (fun e : property => e.1.1) entries,
            ks ++ map (fun e : property => e.1.2) entries,
            us ++ map (fun e : property => e.2) entries) /\
      Forall2 (fun i e => py_index (properties ThermoAdvanced) i = Ok e)
              (filter (fun p : Z * bool => p.2 = true) pairs).*1 entries.
Proof.
  induction pairs as [|[i b] pairs IH]; intros ps ks us n Hall.
  - exists []. cbn. rewrite !app_nil_r. split; [reflexivity | constructor].
  - destruct b.
    + rewrite chosen_cons_true in Hall |- *.
      apply Forall_cons in Hall as [Hi Hall].
      destruct (py_index_in _ i Hi) as (e & He & _).
      cbn [get_propiedades_loop]. rewrite He, bind_Ok.
      destruct (IH (ps ++ [e.1.1]) (ks ++ [e.1.2]) (us ++ [e.2]) Hall)
        as (entries & Hrun & Hent).
      exists (e :: entries). rewrite Hrun. cbn [map].
      rewrite <- !app_assoc. split; [reflexivity |].
      constructor; assumption.
    + rewrite chosen_cons_false in Hall |- *.
      cbn [get_propiedades_loop]. apply IH. exact Hall.
Qed.

Lemma get_propiedades_loop_out (pairs : list (Z * bool)) :
  forall ps ks us,
    let n := Z.of_nat (length (properties ThermoAdvanced)) in
    Exists (fun i => i < - n \/ n <= i)
           (filter (fun p : Z * bool => p.2 = true) pairs).*1 ->
    get_propiedades_loop pairs ps ks us = Raise IndexError.
Proof.
  induction pairs as [|[i b] pairs IH]; intros ps ks us n Hex.
  - cbn in Hex. inversion Hex.
  - destruct b.
    + rewrite chosen_cons_true in Hex. cbn [get_propiedades_loop].
      destruct (decide (- n <= i < n)) as [Hi | Hi].
      * destruct (py_index_in _ i Hi) as (e & He & _).
        rewrite He, bind_Ok. apply IH.
        apply Exists_cons in Hex as [Hout | Hex]; [lia | exact Hex].
      * rewrite py_index_out by (fold n; lia). apply bind_Raise.
    + rewrite chosen_cons_false in Hex. cbn [get_propiedades_loop].
      apply IH. exact Hex.
Qed.

Lemma py_index_elem {A} (l : list A) (i : Z) (a : A) :
  py_index l i = Ok a -> a ∈ l.
Proof.
  intros H.
  destruct (decide (- Z.of_nat (length l) <= i < Z.of_nat (length l)))
    as [Hi | Hi].
  - destruct (py_index_in l i Hi) as (b & Hb & Hin). congruence.
  - rewrite py_index_out in H by lia. discriminate.
Qed.

(** X25 ([get_propiedades]).  The three lists returned are the names,
    keys and units of one and the same list of entries of the advanced
    catalog: the entries found, in the order of [order], at the indices
    whose flag is set, among the pairs that [zip] forms.  So the lists
    have the length of the chosen indices and the i-th unit is the unit
    of the i-th key.  The call returns when every chosen index lies
    between minus the length of the catalog and the length (a negative
    index counting from the end), and raises IndexError as soon as one
    does not; indices whose flag is not set are never looked up. *)
Theorem get_propiedades_aligned (booleanos : list bool) (order : list Z) :
  let n := Z.of_nat (length (properties ThermoAdvanced)) in
  (Forall (fun i => - n <= i < n) (chosen booleanos order) ->
   exists entries : list property,
     get_propiedades booleanos order
     = Ok (map (fun e : property => e.1.1) entries,
           map (fun e : property => e.1.2) entries,
           map (fun e : property => e.2) entries) /\
     Forall2 (fun i e => py_index (properties ThermoAdvanced) i = Ok e)
             (chosen booleanos order) entries /\
     Forall (fun e => e ∈ properties ThermoAdvanced) entries) /\
  (Exists (fun i => i < - n \/ n <= i) (chosen booleanos order) ->
   get_propiedades booleanos order = Raise IndexError).
Proof.
  intros n. split.
  - intros Hall.
    destruct (get_propiedades_loop_ok (zip order booleanos) [] [] [] Hall)
      as (entries & Hrun & Hent).
    exists entries. split; [exact Hrun | split; [exact Hent |]].
    clear Hrun. unfold chosen in Hent.
    induction Hent as [|i e li le Hie _ IH]; constructor.
    + by apply py_index_elem in Hie.
    + exact IH.
  - intros Hex. by apply get_propiedades_loop_out.
Qed.

Lemma get_propiedades_aligned_witness :
  (exists entries : list property,
     get_propiedades [true; false; true] [0; 500; -1; 3]
     = Ok (map (fun e : property => e.1.1) entries,
           map (fun e : property => e.1.2) entries,
           map (fun e : property => e.2) entries) /\
     Forall2 (fun i e => py_index (properties ThermoAdvanced) i = Ok e)
             (chosen [true; false; true] [0; 500; -1; 3]) entries /\
     Forall (fun e => e ∈ properties ThermoAdvanced) entries) /\
  get_propiedades [true; true] [0; 500] = Raise IndexError.
Proof.
  pose proof (get_propiedades_aligned [true; false; true] [0; 500; -1; 3])
    as [Hok _].
  pose proof (get_propiedades_aligned [true; true] [0; 500]) as [_ Hout].
  split.
  - apply Hok. change (chosen [true; false; true] [0; 500; -1; 3])
      with [0; -1].
    change (length (properties ThermoAdvanced)) with 75%nat.
    apply List.Forall_cons; [lia |].
    apply List.Forall_cons; [lia | apply List.Forall_nil].
  - apply Hout. change (chosen [true; true] [0; 500]) with [0; 500].
    change (length (properties ThermoAdvanced)) with 75%nat.
    apply Exists_cons_tl, Exists_cons_hd. lia.
Defined.

End PropiedadesFacts.

(** ** The global properties of a stream *)

Section GlobalStateFacts.
Import Catalog Serialization GlobalState.

Lemma global_unit (c : cls) (p : string) :
  p ∈ propertiesGlobal c ->
  exists name u, (name, p, u) ∈ properties c /\ _dictUnit c !! p = Some u.
Proof.
  intros Hin. pose proof (propertiesGlobal_in_catalog c) as H.
  rewrite Forall_forall in H. specialize (H p Hin).
  unfold propertiesKey in H.
  apply list_elem_of_fmap in H as ([[name k] u] & -> & He).
  exists name, u. split; [exact He | exact (dictUnit_entry c _ He)].
Qed.

Lemma global_no_class_attr (c : cls) (p : string) :
  p ∈ propertiesGlobal c -> class_attr p = None.
Proof.
  intros Hin. unfold class_attr. case_bool_decide as H; [| reflexivity].
  exfalso. revert Hin.
  repeat (apply elem_of_cons in H as [-> | H]);
    try (destruct c; compute_done).
  by apply elem_of_nil in H.
Qed.

Lemma read_value_shaped units state p u x :
  units !! p = Some u -> state !! p = Some x -> shaped p x ->
  read_value units state p = Ok (tagged u x).
Proof.
  intros Hu Hs Hx. unfold read_value, shaped in *.
  case_bool_decide.
  - destruct Hx as [l ->]. unfold getitem. rewrite Hs, Hu, bind_Ok.
    cbn [pyiter]. rewrite bind_Ok. destruct l as [| e l]; reflexivity.
  - unfold getitem. rewrite Hu, Hs, !bind_Ok.
    rewrite (unidades_new_numeric u x Hx).
    destruct x; [reflexivity | reflexivity | contradiction].
Qed.

Lemma read_value_missing units state p u :
  units !! p = Some u -> state !! p = None ->
  read_value units state p = Raise KeyError.
Proof.
  intros Hu Hs. unfold read_value, getitem. rewrite Hu, Hs.
  case_bool_decide; reflexivity.
Qed.

Lemma read_value_misshaped units state p u x :
  units !! p = Some u -> state !! p = Some x -> ~ shaped p x ->
  read_value units state p = Raise TypeError.
Proof.
  intros Hu Hs Hx. unfold read_value, shaped, getitem in *.
  rewrite Hu, Hs. case_bool_decide.
  - destruct x; try reflexivity. exfalso. apply Hx. by eexists.
  - destruct x; try reflexivity; exfalso; apply Hx; exact I.
Qed.

Lemma read_loop_ok units state (props : list string) :
  forall corriente,
    (forall p, p ∈ props -> exists v, read_value units state p = Ok v) ->
    exists corriente',
      read_loop units state props corriente = (corriente', None) /\
      _bool corriente' = _bool corriente /\
      forall k,
        attrs corriente' !! k
        = if decide (k ∈ props)
          then match read_value units state k with
               | Ok v => Some v
               | Raise _ => None
               end
          else attrs corriente !! k.
Proof.
  induction props as [| p props IH]; intros corriente Hall.
  - exists corriente. split; [reflexivity |]. split; [reflexivity |].
    intros k. rewrite decide_False by apply not_elem_of_nil. reflexivity.
  - destruct (Hall p) as [v Hv]; [apply elem_of_cons; by left |].
    destruct (IH (setattr p v corriente)) as (c' & Hrun & Hb & Hattrs).
    { intros q Hq. apply Hall. apply elem_of_cons. by right. }
    exists c'. cbn [read_loop]. rewrite Hv. split; [exact Hrun |].
    split; [exact Hb |]. intros k. rewrite Hattrs.
    destruct (decide (k ∈ props)) as [Hin | Hin].
    + rewrite decide_True by (apply elem_of_cons; by right). reflexivity.
    + destruct (decide (k = p)) as [-> | Hne].
      * rewrite decide_True by (apply elem_of_cons; by left).
        rewrite Hv. apply attrs_setattr_eq.
      * rewrite decide_False
          by (intros [-> | H]%elem_of_cons; [by apply Hne | by apply Hin]).
        by apply attrs_setattr_ne.
Qed.

Lemma read_loop_app units state (before after : list string) :
  forall corriente corriente',
    read_loop units state before corriente = (corriente', None) ->
    read_loop units state (before ++ after) corriente
    = read_loop units state after corriente'.
Proof.
  induction before as [| p before IH]; intros corriente corriente' Hrun.
  - cbn in Hrun. injection Hrun as <-. reflexivity.
  - cbn [read_loop app] in *.
    destruct (read_value units state p) as [v | e]; [| discriminate].
    by apply IH.
Qed.

Lemma write_loop_ok (corriente : object) (props : list string) :
  forall state,
    (forall p, p ∈ props -> exists x, attrs corriente !! p = Some x) ->
    exists state',
      write_loop corriente props state = (state', None) /\
      forall k,
        state' !! k
        = if decide (k ∈ props) then attrs corriente !! k else state !! k.
Proof.
  induction props as [| p props IH]; intros state Hall.
  - exists state. split; [reflexivity |].
    intros k. rewrite decide_False by apply not_elem_of_nil. reflexivity.
  - destruct (Hall p) as [x Hx]; [apply elem_of_cons; by left |].
    destruct (IH (<[p := x]> state)) as (s' & Hrun & Hs).
    { intros q Hq. apply Hall. apply elem_of_cons. by right. }
    exists s'. cbn [write_loop]. unfold getattribute. rewrite Hx.
    split; [exact Hrun |]. intros k. rewrite Hs.
    destruct (decide (k ∈ props)) as [Hin | Hin].
    + rewrite decide_True by (apply elem_of_cons; by right). reflexivity.
    + destruct (decide (k = p)) as [-> | Hne].
      * rewrite decide_True by (apply elem_of_cons; by left).
        rewrite Hx. apply lookup_insert_eq.
      * rewrite decide_False
          by (intros [-> | H]%elem_of_cons; [by apply Hne | by apply Hin]).
        by apply lookup_insert_ne.
Qed.

Lemma fill_loop_ok (self : object) (props : list string) :
  forall corriente,
    (forall p, p ∈ props -> exists x, getattr self p = Ok x) ->
    exists corriente',
      fill_loop self props corriente = (corriente', None) /\
      _bool corriente' = _bool corriente /\
      forall k,
        attrs corriente' !! k
        = if decide (k ∈ props)
          then match getattr self k with
               | Ok x => Some x
               | Raise _ => None
               end
          else attrs corriente !! k.
Proof.
  induction props as [| p props IH]; intros corriente Hall.
  - exists corriente. split; [reflexivity |]. split; [reflexivity |].
    intros k. rewrite decide_False by apply not_elem_of_nil. reflexivity.
  - destruct (Hall p) as [x Hx]; [apply elem_of_cons; by left |].
    destruct (IH (setattr p x corriente)) as (c' & Hrun & Hb & Hattrs).
    { intros q Hq. apply Hall. apply elem_of_cons. by right. }
    exists c'. cbn [fill_loop]. rewrite Hx. split; [exact Hrun |].
    split; [exact Hb |]. intros k. rewrite Hattrs.
    destruct (decide (k ∈ props)) as [Hin | Hin].
    + rewrite decide_True by (apply elem_of_cons; by right). reflexivity.
    + destruct (decide (k = p)) as [-> | Hne].
      * rewrite decide_True by (apply elem_of_cons; by left).
        rewrite Hx. apply attrs_setattr_eq.
      * rewrite decide_False
          by (intros [-> | H]%elem_of_cons; [by apply Hne | by apply Hin]).
        by apply attrs_setattr_ne.
Qed.

Lemma fill_loop_app (self : object) (before after : list string) :
  forall corriente corriente',
    fill_loop self before corriente = (corriente', None) ->
    fill_loop self (before ++ after) corriente
    = fill_loop self after corriente'.
Proof.
  induction before as [| p before IH]; intros corriente corriente' Hrun.
  - cbn in Hrun. injection Hrun as <-. reflexivity.
  - cbn [fill_loop app] in *.
    destruct (getattr self p) as [v | e]; [| discriminate].
    by apply IH.
Qed.

(** X26 ([_writeGlobalState] then [_readGlobalState]).  When the
    stream holds every global property of the class, a list for the five
    names read as lists and a number for the others, writing the global
    state and reading it into another stream succeeds, and every global
    property comes back with the magnitude that was written under the
    unit-kind that the catalog of the class gives to its key; nothing
    else is touched, neither in the dict nor in the stream read into. *)
Theorem global_state_roundtrip (c : cls) (corriente target : object)
    (state : gmap string pyval) :
  (forall p, p ∈ propertiesGlobal c ->
             exists x, attrs corriente !! p = Some x /\ shaped p x) ->
  exists state' target',
    _writeGlobalState c corriente state = (state', None) /\
    _readGlobalState c target state' = (target', None) /\
    _bool target' = _bool target /\
    (forall p, p ∈ propertiesGlobal c ->
       exists name u x,
         (name, p, u) ∈ properties c /\
         attrs corriente !! p = Some x /\
         state' !! p = Some x /\
         attrs target' !! p = Some (tagged u x)) /\
    (forall k, k ∉ propertiesGlobal c ->
       state' !! k = state !! k /\ attrs target' !! k = attrs target !! k).
Proof.
  intros Hall.
  destruct (write_loop_ok corriente (propertiesGlobal c) state)
    as (state' & Hwrite & Hstate).
  { intros p Hp. destruct (Hall p Hp) as (x & Hx & _). by exists x. }
  assert (Hval : forall p, p ∈ propertiesGlobal c ->
            exists name u x,
              (name, p, u) ∈ properties c /\
              attrs corriente !! p = Some x /\
              state' !! p = Some x /\
              read_value (_dictUnit c) state' p = Ok (tagged u x)).
  { intros p Hp. destruct (Hall p Hp) as (x & Hx & Hshape).
    destruct (global_unit c p Hp) as (name & u & He & Hu).
    exists name, u, x. split; [exact He |]. split; [exact Hx |].
    assert (Hsp : state' !! p = Some x).
    { rewrite Hstate, decide_True by exact Hp. exact Hx. }
    split; [exact Hsp |]. by apply read_value_shaped. }
  destruct (read_loop_ok (_dictUnit c) state' (propertiesGlobal c) target)
    as (target' & Hread & Hb & Hattrs).
  { intros p Hp. destruct (Hval p Hp) as (_ & u & x & _ & _ & _ & Hv).
    by eexists. }
  exists state', target'. split; [exact Hwrite |]. split; [exact Hread |].
  split; [exact Hb |]. split.
  - intros p Hp. destruct (Hval p Hp) as (name & u & x & He & Hx & Hs & Hv).
    exists name, u, x. repeat (split; [assumption |]).
    rewrite Hattrs, decide_True by exact Hp. by rewrite Hv.
  - intros k Hk. rewrite Hstate, Hattrs, !decide_False by exact Hk.
    split; reflexivity.
Qed.

(** X27 ([_readGlobalState], failure).  The reader has no handler: at
    the first global property that the dict lacks it raises KeyError,
    and at the first one of the wrong shape (a number where a list is
    read, or a list where a number is read) it raises TypeError; the
    unit lookup itself never fails.  The properties before that one
    stay assigned on the stream, that one and the later ones are not
    assigned. *)
Theorem readGlobalState_stops (c : cls) (corriente : object)
    (state : gmap string pyval) (before after : list string) (p : string) :
  propertiesGlobal c = before ++ p :: after ->
  (forall q, q ∈ before -> exists x, state !! q = Some x /\ shaped q x) ->
  forall e,
    (state !! p = None /\ e = KeyError) \/
    (exists x, state !! p = Some x /\ ~ shaped p x /\ e = TypeError) ->
    exists corriente',
      _readGlobalState c corriente state = (corriente', Some e) /\
      (forall q, q ∈ before ->
         exists u x, _dictUnit c !! q = Some u /\ state !! q = Some x /\
                     attrs corriente' !! q = Some (tagged u x)) /\
      (forall k, k ∉ before -> attrs corriente' !! k = attrs corriente !! k).
Proof.
  intros Hsplit Hbefore e He.
  assert (Hin : forall q, q ∈ before ++ p :: after -> q ∈ propertiesGlobal c)
    by (intros q Hq; by rewrite Hsplit).
  assert (Hval : forall q, q ∈ before ->
            exists u x, _dictUnit c !! q = Some u /\ state !! q = Some x /\
                        read_value (_dictUnit c) state q = Ok (tagged u x)).
  { intros q Hq. destruct (Hbefore q Hq) as (x & Hx & Hshape).
    destruct (global_unit c q) as (name & u & _ & Hu).
    { apply Hin, elem_of_app. by left. }
    exists u, x. split; [exact Hu |]. split; [exact Hx |].
    by apply read_value_shaped. }
  destruct (read_loop_ok (_dictUnit c) state before corriente)
    as (c' & Hrun & _ & Hattrs).
  { intros q Hq. destruct (Hval q Hq) as (u & x & _ & _ & Hv). by eexists. }
  destruct (global_unit c p) as (name & u & _ & Hu).
  { apply Hin, elem_of_app. right. apply elem_of_cons. by left. }
  assert (Hp : read_value (_dictUnit c) state p = Raise e).
  { destruct He as [[Hnone ->] | (x & Hx & Hshape & ->)].
    - by eapply read_value_missing.
    - by eapply read_value_misshaped. }
  exists c'. unfold _readGlobalState. rewrite Hsplit.
  rewrite (read_loop_app _ _ _ _ _ _ Hrun). cbn [read_loop]. rewrite Hp.
  split; [reflexivity |]. split.
  - intros q Hq. destruct (Hval q Hq) as (uq & x & Huq & Hx & Hv).
    exists uq, x. split; [exact Huq |]. split; [exact Hx |].
    rewrite Hattrs, decide_True by exact Hq. by rewrite Hv.
  - intros k Hk. rewrite Hattrs, decide_False by exact Hk. reflexivity.
Qed.

(** X28 ([_fillCorriente]).  When the state holds every global
    property of its class the stream receives each of them unchanged,
    its other attributes are kept, and the global state then written
    from the stream holds the values of the state.  When a global
    property is missing, AttributeError is raised at the first such
    one, with the earlier ones already copied. *)
Theorem fillCorriente_copies (c : cls) (self corriente : object) :
  ((forall p, p ∈ propertiesGlobal c -> is_Some (attrs self !! p)) ->
   exists corriente',
     _fillCorriente c self corriente = (corriente', None) /\
     (forall p, p ∈ propertiesGlobal c ->
                attrs corriente' !! p = attrs self !! p) /\
     (forall k, k ∉ propertiesGlobal c ->
                attrs corriente' !! k = attrs corriente !! k) /\
     forall state, exists state',
       _writeGlobalState c corriente' state = (state', None) /\
       forall k, state' !! k = if decide (k ∈ propertiesGlobal c)
                               then attrs self !! k else state !! k) /\
  (forall before p after,
     propertiesGlobal c = before ++ p :: after ->
     (forall q, q ∈ before -> is_Some (attrs self !! q)) ->
     attrs self !! p = None ->
     exists corriente',
       _fillCorriente c self corriente = (corriente', Some AttributeError) /\
       (forall q, q ∈ before -> attrs corriente' !! q = attrs self !! q) /\
       (forall k, k ∉ before -> attrs corriente' !! k = attrs corriente !! k)).
Proof.
  assert (Hget : forall q x, attrs self !! q = Some x -> getattr self q = Ok x).
  { intros q x Hx. unfold getattr. by rewrite Hx. }
  split.
  - intros Hall.
    destruct (fill_loop_ok self (propertiesGlobal c) corriente)
      as (c' & Hrun & _ & Hattrs).
    { intros p Hp. destruct (Hall p Hp) as [x Hx]. exists x. by apply Hget. }
    assert (Hcopied : forall p, p ∈ propertiesGlobal c ->
                                attrs c' !! p = attrs self !! p).
    { intros p Hp. rewrite Hattrs, decide_True by exact Hp.
      destruct (Hall p Hp) as [x Hx]. by rewrite (Hget p x Hx), Hx. }
    exists c'. split; [exact Hrun |]. split; [exact Hcopied |]. split.
    + intros k Hk. rewrite Hattrs, decide_False by exact Hk. reflexivity.
    + intros state.
      destruct (write_loop_ok c' (propertiesGlobal c) state)
        as (state' & Hwrite & Hstate).
      { intros p Hp. rewrite (Hcopied p Hp). exact (Hall p Hp). }
      exists state'. split; [exact Hwrite |]. intros k. rewrite Hstate.
      destruct (decide (k ∈ propertiesGlobal c)) as [Hk | Hk];
        [by apply Hcopied | reflexivity].
  - intros before p after Hsplit Hbefore Hp.
    destruct (fill_loop_ok self before corriente)
      as (c' & Hrun & _ & Hattrs).
    { intros q Hq. destruct (Hbefore q Hq) as [x Hx]. exists x.
      by apply Hget. }
    assert (Hraise : getattr self p = Raise AttributeError).
    { unfold getattr. rewrite Hp.
      rewrite (global_no_class_attr c p); [reflexivity |].
      rewrite Hsplit. apply elem_of_app. right. apply elem_of_cons.
      by left. }
    exists c'. unfold _fillCorriente. rewrite Hsplit.
    rewrite (fill_loop_app _ _ _ _ _ Hrun). cbn [fill_loop]. rewrite Hraise.
    split; [reflexivity |]. split.
    + intros q Hq. rewrite Hattrs, decide_True by exact Hq.
      destruct (Hbefore q Hq) as [x Hx]. by rewrite (Hget q x Hx), Hx.
    + intros k Hk. rewrite Hattrs, decide_False by exact Hk. reflexivity.
Qed.

Lemma sample_stream_shaped (c : cls) :
  forall p, p ∈ propertiesGlobal c ->
    exists x, attrs (GlobalSamples.sample_stream c) !! p = Some x /\ shaped p x.
Proof.
  apply Forall_forall. destruct c;
    match goal with
    | |- Forall _ ?l =>
        let l' := eval vm_compute in l in change l with l'
    end;
    repeat (apply List.Forall_cons;
            [eexists; split;
             [reflexivity | hnf; first [exact I | eexists; reflexivity]] |]);
    apply List.Forall_nil.
Qed.

Lemma global_state_roundtrip_witness :
  exists state' target',
    _writeGlobalState ThermoRefProp
      (GlobalSamples.sample_stream ThermoRefProp) ∅ = (state', None) /\
    _readGlobalState ThermoRefProp GlobalSamples.empty_stream state'
      = (target', None) /\
    _bool target' = _bool GlobalSamples.empty_stream /\
    (forall p, p ∈ propertiesGlobal ThermoRefProp ->
       exists name u x,
         (name, p, u) ∈ properties ThermoRefProp /\
         attrs (GlobalSamples.sample_stream ThermoRefProp) !! p = Some x /\
         state' !! p = Some x /\
         attrs target' !! p = Some (tagged u x)) /\
    (forall k, k ∉ propertiesGlobal ThermoRefProp ->
       state' !! k = (∅ : gmap string pyval) !! k /\
       attrs target' !! k = attrs GlobalSamples.empty_stream !! k).
Proof.
  apply (global_state_roundtrip ThermoRefProp
           (GlobalSamples.sample_stream ThermoRefProp)
           GlobalSamples.empty_stream ∅).
  apply sample_stream_shaped.
Defined.

Lemma readGlobalState_stops_witness :
  exists corriente',
    _readGlobalState Thermo GlobalSamples.empty_stream
      GlobalSamples.short_state = (corriente', Some KeyError) /\
    (forall q, q ∈ ["T"; "Tr"] ->
       exists u x, _dictUnit Thermo !! q = Some u /\
                   GlobalSamples.short_state !! q = Some x /\
                   attrs corriente' !! q = Some (tagged u x)) /\
    (forall k, k ∉ ["T"; "Tr"] ->
       attrs corriente' !! k = attrs GlobalSamples.empty_stream !! k).
Proof.
  apply (readGlobalState_stops Thermo GlobalSamples.empty_stream
           GlobalSamples.short_state ["T"; "Tr"]
           ["Pr"; "x"; "Hvap"; "Svap"; "v0"; "rho0"; "h0"; "u0"; "s0"; "a0";
            "g0"; "cp0"; "cv0"; "cp0_cv"; "gamma0"] "P").
  - reflexivity.
  - intros q Hq.
    apply elem_of_cons in Hq as [-> | Hq];
      [| apply elem_of_cons in Hq as [-> | Hq];
         [| by apply elem_of_nil in Hq]];
      (eexists; split; [reflexivity | exact I]).
  - left. split; reflexivity.
Defined.

Lemma fillCorriente_copies_witness :
  (exists corriente',
     _fillCorriente Thermo (GlobalSamples.sample_stream Thermo)
       GlobalSamples.empty_stream = (corriente', None) /\
     (forall p, p ∈ propertiesGlobal Thermo ->
        attrs corriente' !! p
        = attrs (GlobalSamples.sample_stream Thermo) !! p) /\
     (forall k, k ∉ propertiesGlobal Thermo ->
        attrs corriente' !! k = attrs GlobalSamples.empty_stream !! k) /\
     forall state, exists state',
       _writeGlobalState Thermo corriente' state = (state', None) /\
       forall k, state' !! k
                 = if decide (k ∈ propertiesGlobal Thermo)
                   then attrs (GlobalSamples.sample_stream Thermo) !! k
                   else state !! k) /\
  (exists corriente',
     _fillCorriente Thermo GlobalSamples.cold_state
       GlobalSamples.empty_stream = (corriente', Some AttributeError) /\
     (forall q, q ∈ ["T"] ->
        attrs corriente' !! q = attrs GlobalSamples.cold_state !! q) /\
     (forall k, k ∉ ["T"] ->
        attrs corriente' !! k = attrs GlobalSamples.empty_stream !! k)).
Proof.
  split.
  - apply (fillCorriente_copies Thermo (GlobalSamples.sample_stream Thermo)
             GlobalSamples.empty_stream).
    intros p Hp.
    destruct (sample_stream_shaped Thermo p Hp) as (x & Hx & _).
    by exists x.
  - apply (proj2 (fillCorriente_copies Thermo GlobalSamples.cold_state
                    GlobalSamples.empty_stream)
             ["T"] "Tr"
             ["P"; "Pr"; "x"; "Hvap"; "Svap"; "v0"; "rho0"; "h0"; "u0"; "s0";
              "a0"; "g0"; "cp0"; "cv0"; "cp0_cv"; "gamma0"]).
    + reflexivity.
    + intros q Hq. apply elem_of_cons in Hq as [-> | Hq];
        [eexists; reflexivity | by apply elem_of_nil in Hq].
    + reflexivity.
Defined.

End GlobalStateFacts.

(** ** The ideal-gas properties set by [_cp0] *)

Section Cp0Facts.
Import Catalog Serialization Cp0.
Local Open Scope R_scope.

Lemma block_app (l1 l2 : list step) cp0 self self1 :
  block l1 cp0 self = (self1, None) ->
  block (l1 ++ l2) cp0 self = block l2 cp0 self1.
Proof.
  revert self. induction l1 as [| st l1 IH]; intros self Hrun.
  - cbn in Hrun. injection Hrun as <-. reflexivity.
  - cbn [block app] in *. destruct (st cp0 self) as [s' [e |]].
    + discriminate.
    + by apply IH.
Qed.

Lemma assign_inverse_item_run attr u key cp0 self x :
  cp0 !! key = Some x -> numeric x -> magnitude x <> 0 ->
  assign_inverse_item attr u key cp0 self
  = (setattr attr (VNum (Some u) (1 / magnitude x)) self, None).
Proof.
  intros Hk Hx H0. unfold assign_inverse_item, getitem. rewrite Hk, bind_Ok.
  rewrite (num_of_numeric x Hx), bind_Ok.
  rewrite (pydiv_ok 1 (magnitude x) H0), bind_Ok. reflexivity.
Qed.

Lemma assign_inverse_item_zero attr u key cp0 self x :
  cp0 !! key = Some x -> numeric x -> magnitude x = 0 ->
  assign_inverse_item attr u key cp0 self = (self, Some ZeroDivisionError).
Proof.
  intros Hk Hx H0. unfold assign_inverse_item, getitem. rewrite Hk, bind_Ok.
  rewrite (num_of_numeric x Hx), bind_Ok, H0.
  rewrite (pydiv_zero 1), bind_Raise. reflexivity.
Qed.

Lemma assign_expr_run attr u e cp0 self r :
  eval self e = Ok (VNum None r) ->
  assign_expr attr u e cp0 self = (setattr attr (VNum (Some u) r) self, None).
Proof. intros He. unfold assign_expr. rewrite He, bind_Ok. reflexivity. Qed.

Lemma assign_expr_raise attr u e cp0 self ex :
  eval self e = Raise ex ->
  assign_expr attr u e cp0 self = (self, Some ex).
Proof. intros He. unfold assign_expr. rewrite He, bind_Raise. reflexivity. Qed.

Lemma assign_copy_run attr src cp0 self x :
  getattr self src = Ok x ->
  assign_copy attr src cp0 self = (setattr attr x self, None).
Proof. intros H. unfold assign_copy. rewrite H. reflexivity. Qed.

Lemma eval_mul self a b xa xb :
  getattr self a = Ok xa -> getattr self b = Ok xb ->
  numeric xa -> numeric xb ->
  eval self (Mul (Attr a) (Attr b))
  = Ok (VNum None (magnitude xa * magnitude xb)).
Proof.
  intros Ha Hb Hxa Hxb. cbn [eval]. rewrite Ha, Hb, !bind_Ok.
  rewrite (num_of_numeric xa Hxa), (num_of_numeric xb Hxb), !bind_Ok.
  reflexivity.
Qed.

Lemma eval_div self a b xa xb :
  getattr self a = Ok xa -> getattr self b = Ok xb ->
  numeric xa -> numeric xb -> magnitude xb <> 0 ->
  eval self (Div (Attr a) (Attr b))
  = Ok (VNum None (magnitude xa / magnitude xb)).
Proof.
  intros Ha Hb Hxa Hxb H0. cbn [eval]. rewrite Ha, Hb, !bind_Ok.
  rewrite (num_of_numeric xa Hxa), (num_of_numeric xb Hxb), !bind_Ok.
  rewrite (pydiv_ok _ _ H0), bind_Ok. reflexivity.
Qed.

Lemma eval_div_missing self a b xa :
  getattr self a = Ok xa -> getattr self b = Raise AttributeError ->
  eval self (Div (Attr a) (Attr b)) = Raise AttributeError.
Proof.
  intros Ha Hb. cbn [eval]. rewrite Ha, Hb, bind_Ok, bind_Raise. reflexivity.
Qed.

Lemma eval_sub_mul self a b c xa xb xc :
  getattr self a = Ok xa -> getattr self b = Ok xb -> getattr self c = Ok xc ->
  numeric xa -> numeric xb -> numeric xc ->
  eval self (Sub (Attr a) (Mul (Attr b) (Attr c)))
  = Ok (VNum None (magnitude xa - magnitude xb * magnitude xc)).
Proof.
  intros Ha Hb Hc Hxa Hxb Hxc. cbn [eval]. rewrite Ha, Hb, Hc, !bind_Ok.
  rewrite (num_of_numeric xb Hxb), (num_of_numeric xc Hxc), !bind_Ok.
  rewrite (num_of_numeric xa Hxa), !bind_Ok. cbn [num_of].
  rewrite !bind_Ok. reflexivity.
Qed.

Ltac get_attr :=
  repeat (rewrite getattr_setattr_ne by discriminate);
  first [apply getattr_setattr_eq | eassumption].

Ltac is_number := first [assumption | exact I].

Ltac cp0_step :=
  first
    [ erewrite block_step
        by (eapply assign_number; [eassumption | assumption])
    | erewrite block_step
        by (eapply assign_inverse_item_run;
            [eassumption | assumption | assumption])
    | erewrite block_step
        by (eapply assign_expr_run; eapply eval_sub_mul;
            [get_attr | get_attr | get_attr
             | is_number | is_number | is_number])
    | erewrite block_step
        by (eapply assign_expr_run; eapply eval_mul;
            [get_attr | get_attr | is_number | is_number])
    | erewrite block_step
        by (eapply assign_expr_run; eapply eval_div;
            [get_attr | get_attr | is_number | is_number
             | cbn [magnitude]; assumption])
    | erewrite block_step by (eapply assign_copy_run; get_attr) ];
  cbn [magnitude].

(** The attributes that [_cp0] assigns before the molar ones. *)
Lemma cp0_specific cp0 self xv xh xs xcp xcv xw xP xT :
  cp0 !! "v" = Some xv -> cp0 !! "h" = Some xh -> cp0 !! "s" = Some xs ->
  cp0 !! "cp" = Some xcp -> cp0 !! "cv" = Some xcv -> cp0 !! "w" = Some xw ->
  getattr self "P" = Ok xP -> getattr self "T" = Ok xT ->
  numeric xv -> numeric xh -> numeric xs -> numeric xcp -> numeric xcv ->
  numeric xw -> numeric xP -> numeric xT ->
  magnitude xv <> 0 -> magnitude xcv <> 0 ->
  let v := magnitude xv in
  let h := magnitude xh in
  let s := magnitude xs in
  let P := magnitude xP in
  let T := magnitude xT in
  block (take 12 _cp0_body) cp0 self
  = (setattr "gamma0" (VNum (Some Dimensionless)
                         (magnitude xcp / magnitude xcv))
     (setattr "w0" (VNum (Some Speed) (magnitude xw))
     (setattr "cp0_cv" (VNum (Some Dimensionless)
                          (magnitude xcp / magnitude xcv))
     (setattr "cv0" (VNum (Some SpecificHeat) (magnitude xcv))
     (setattr "cp0" (VNum (Some SpecificHeat) (magnitude xcp))
     (setattr "g0" (VNum (Some Enthalpy) (h - T * s))
     (setattr "a0" (VNum (Some Enthalpy) (h - P * v - T * s))
     (setattr "s0" (VNum (Some SpecificHeat) s)
     (setattr "u0" (VNum (Some Enthalpy) (h - P * v))
     (setattr "h0" (VNum (Some Enthalpy) h)
     (setattr "rho0" (VNum (Some Density) (1 / v))
     (setattr "v0" (VNum (Some SpecificVolume) v) self))))))))))),
     None).
Proof.
  intros Hv Hh Hs Hcp Hcv Hw HP HT Nv Nh Ns Ncp Ncv Nw NP NT Zv Zcv
         v h s P T.
  subst v h s P T. cbn [take _cp0_body].
  do 12 cp0_step. rewrite block_nil. reflexivity.
Qed.

Ltac quantity_at :=
  unfold quantity;
  repeat (rewrite attrs_setattr_ne by discriminate);
  rewrite attrs_setattr_eq; reflexivity.

Ltac frame_at Hk :=
  repeat (rewrite attrs_setattr_ne
            by (intros E; apply Hk; rewrite <- E; compute_done));
  reflexivity.

(** X29 ([_cp0]).  Given a dict with the numbers v, h, s, cp, cv, w
    and a state with numeric P, T and M, where v, cv and M are not zero,
    [_cp0] returns and sets twenty attributes and no other: the ideal
    volume, enthalpy, entropy, heat capacities and speed of sound as
    given; rho0 = 1/v; u0 = h - P v; a0 = u0 - T s; g0 = h - T s (so
    that g0 - a0 = h0 - u0 = P v0); cp0_cv = gamma0 = cp/cv; the molar
    density rho0/M; and the molar enthalpy, energies, entropy and heat
    capacities as the specific value multiplied by M.  Each carries the
    unit-kind written in the code. *)
Theorem cp0_ideal_state (cp0 : gmap string pyval) (self : object)
    (v h s cp cv w P T M : R) :
  item_is cp0 "v" v -> item_is cp0 "h" h -> item_is cp0 "s" s ->
  item_is cp0 "cp" cp -> item_is cp0 "cv" cv -> item_is cp0 "w" w ->
  attr_is self "P" P -> attr_is self "T" T -> attr_is self "M" M ->
  v <> 0 -> cv <> 0 -> M <> 0 ->
  exists self',
    _cp0 cp0 self = (self', None) /\
    quantity self' "v0" = Some (SpecificVolume, v) /\
    quantity self' "rho0" = Some (Density, 1 / v) /\
    quantity self' "h0" = Some (Enthalpy, h) /\
    quantity self' "u0" = Some (Enthalpy, h - P * v) /\
    quantity self' "s0" = Some (SpecificHeat, s) /\
    quantity self' "a0" = Some (Enthalpy, h - P * v - T * s) /\
    quantity self' "g0" = Some (Enthalpy, h - T * s) /\
    quantity self' "cp0" = Some (SpecificHeat, cp) /\
    quantity self' "cv0" = Some (SpecificHeat, cv) /\
    quantity self' "cp0_cv" = Some (Dimensionless, cp / cv) /\
    quantity self' "w0" = Some (Speed, w) /\
    quantity self' "gamma0" = Some (Dimensionless, cp / cv) /\
    quantity self' "rhoM0" = Some (MolarDensity, 1 / v / M) /\
    quantity self' "hM0" = Some (MolarEnthalpy, h * M) /\
    quantity self' "uM0" = Some (MolarEnthalpy, (h - P * v) * M) /\
    quantity self' "sM0" = Some (MolarSpecificHeat, s * M) /\
    quantity self' "aM0" = Some (MolarEnthalpy, (h - P * v - T * s) * M) /\
    quantity self' "gM0" = Some (MolarEnthalpy, (h - T * s) * M) /\
    quantity self' "cpM0" = Some (MolarSpecificHeat, cp * M) /\
    quantity self' "cvM0" = Some (MolarSpecificHeat, cv * M) /\
    (forall k, k ∉ specific_names ++ molar_names ->
               attrs self' !! k = attrs self !! k).
Proof.
  intros (xv & Hv & Nv & <-) (xh & Hh & Nh & <-) (xs & Hs & Ns & <-)
         (xcp & Hcp & Ncp & <-) (xcv & Hcv & Ncv & <-) (xw & Hw & Nw & <-)
         (xP & HP & NP & <-) (xT & HT & NT & <-) (xM & HM & NM & <-)
         Zv Zcv ZM.
  unfold _cp0. rewrite <- (take_drop 12 _cp0_body).
  erewrite block_app by (eapply cp0_specific; eassumption).
  cbn [drop _cp0_body].
  do 8 cp0_step. rewrite block_nil.
  eexists. split; [reflexivity |].
  do 20 (split; [quantity_at |]).
  intros k Hk. frame_at Hk.
Qed.

(** X30 ([_cp0], failures).  Without the key "v" the call raises
    KeyError and assigns nothing.  With v = 0 it raises
    ZeroDivisionError at rho0, after v0 alone was assigned.  When the
    state has no attribute M, while the rest is as expected, it raises
    AttributeError at the molar density: the twelve specific attributes
    are assigned (the last one being gamma0) and none of the molar ones
    is. *)
Theorem cp0_failures (cp0 : gmap string pyval) (self : object) :
  (cp0 !! "v" = None -> _cp0 cp0 self = (self, Some KeyError)) /\
  (item_is cp0 "v" 0 ->
   _cp0 cp0 self
   = (setattr "v0" (VNum (Some SpecificVolume) 0) self,
      Some ZeroDivisionError)) /\
  (forall v h s cp cv w P T,
     item_is cp0 "v" v -> item_is cp0 "h" h -> item_is cp0 "s" s ->
     item_is cp0 "cp" cp -> item_is cp0 "cv" cv -> item_is cp0 "w" w ->
     attr_is self "P" P -> attr_is self "T" T ->
     getattr self "M" = Raise AttributeError ->
     v <> 0 -> cv <> 0 ->
     exists self',
       _cp0 cp0 self = (self', Some AttributeError) /\
       quantity self' "a0" = Some (Enthalpy, h - P * v - T * s) /\
       quantity self' "gamma0" = Some (Dimensionless, cp / cv) /\
       (forall k, k ∉ specific_names ->
                  attrs self' !! k = attrs self !! k)).
Proof.
  split; [| split].
  - intros Hv. unfold _cp0. apply block_raise. by apply assign_missing.
  - intros (x & Hx & Nx & Zx). unfold _cp0, _cp0_body.
    erewrite block_step by (eapply assign_number; eassumption).
    rewrite Zx. apply block_raise.
    by eapply assign_inverse_item_zero.
  - intros v h s cp cv w P T
           (xv & Hv & Nv & <-) (xh & Hh & Nh & <-) (xs & Hs & Ns & <-)
           (xcp & Hcp & Ncp & <-) (xcv & Hcv & Ncv & <-) (xw & Hw & Nw & <-)
           (xP & HP & NP & <-) (xT & HT & NT & <-) HM Zv Zcv.
    unfold _cp0. rewrite <- (take_drop 12 _cp0_body).
    erewrite block_app by (eapply cp0_specific; eassumption).
    cbn [drop _cp0_body].
    erewrite block_raise.
    2:{ eapply assign_expr_raise. eapply eval_div_missing.
        - get_attr.
        - repeat (rewrite getattr_setattr_ne by discriminate). exact HM. }
    eexists. split; [reflexivity |].
    split; [quantity_at |]. split; [quantity_at |].
    intros k Hk. frame_at Hk.
Qed.

Lemma sample_items :
  item_is Cp0Samples.sample_cp0 "v" 2 /\ item_is Cp0Samples.sample_cp0 "h" 10 /\
  item_is Cp0Samples.sample_cp0 "s" 1 /\ item_is Cp0Samples.sample_cp0 "cp" 3 /\
  item_is Cp0Samples.sample_cp0 "cv" 2 /\ item_is Cp0Samples.sample_cp0 "w" 5.
Proof.
  split; [| split; [| split; [| split; [| split]]]];
    (eexists; split; [reflexivity | split; [exact I | reflexivity]]).
Qed.

Lemma cp0_ideal_state_witness :
  exists self',
    _cp0 Cp0Samples.sample_cp0 Cp0Samples.sample_self = (self', None) /\
    quantity self' "v0" = Some (SpecificVolume, 2) /\
    quantity self' "rho0" = Some (Density, 1 / 2) /\
    quantity self' "h0" = Some (Enthalpy, 10) /\
    quantity self' "u0" = Some (Enthalpy, 10 - 4 * 2) /\
    quantity self' "s0" = Some (SpecificHeat, 1) /\
    quantity self' "a0" = Some (Enthalpy, 10 - 4 * 2 - 3 * 1) /\
    quantity self' "g0" = Some (Enthalpy, 10 - 3 * 1) /\
    quantity self' "cp0" = Some (SpecificHeat, 3) /\
    quantity self' "cv0" = Some (SpecificHeat, 2) /\
    quantity self' "cp0_cv" = Some (Dimensionless, 3 / 2) /\
    quantity self' "w0" = Some (Speed, 5) /\
    quantity self' "gamma0" = Some (Dimensionless, 3 / 2) /\
    quantity self' "rhoM0" = Some (MolarDensity, 1 / 2 / 2) /\
    quantity self' "hM0" = Some (MolarEnthalpy, 10 * 2) /\
    quantity self' "uM0" = Some (MolarEnthalpy, (10 - 4 * 2) * 2) /\
    quantity self' "sM0" = Some (MolarSpecificHeat, 1 * 2) /\
    quantity self' "aM0" = Some (MolarEnthalpy, (10 - 4 * 2 - 3 * 1) * 2) /\
    quantity self' "gM0" = Some (MolarEnthalpy, (10 - 3 * 1) * 2) /\
    quantity self' "cpM0" = Some (MolarSpecificHeat, 3 * 2) /\
    quantity self' "cvM0" = Some (MolarSpecificHeat, 2 * 2) /\
    (forall k, k ∉ specific_names ++ molar_names ->
               attrs self' !! k = attrs Cp0Samples.sample_self !! k).
Proof.
  destruct sample_items as (Hv & Hh & Hs & Hcp & Hcv & Hw).
  apply (cp0_ideal_state Cp0Samples.sample_cp0 Cp0Samples.sample_self
           2 10 1 3 2 5 4 3 2 Hv Hh Hs Hcp Hcv Hw).
  - eexists. split; [reflexivity | split; [exact I | reflexivity]].
  - eexists. split; [reflexivity | split; [exact I | reflexivity]].
  - eexists. split; [reflexivity | split; [exact I | reflexivity]].
  - lra.
  - lra.
  - lra.
Defined.

Lemma cp0_failures_witness :
  _cp0 ∅ Cp0Samples.sample_self = (Cp0Samples.sample_self, Some KeyError) /\
  _cp0 Cp0Samples.zero_cp0 Cp0Samples.sample_self
  = (setattr "v0" (VNum (Some SpecificVolume) 0) Cp0Samples.sample_self,
     Some ZeroDivisionError) /\
  exists self',
    _cp0 Cp0Samples.sample_cp0 Cp0Samples.massless_self
    = (self', Some AttributeError) /\
    quantity self' "a0" = Some (Enthalpy, 10 - 4 * 2 - 3 * 1) /\
    quantity self' "gamma0" = Some (Dimensionless, 3 / 2) /\
    (forall k, k ∉ specific_names ->
               attrs self' !! k = attrs Cp0Samples.massless_self !! k).
Proof.
  destruct sample_items as (Hv & Hh & Hs & Hcp & Hcv & Hw).
  split; [| split].
  - apply (cp0_failures ∅ Cp0Samples.sample_self). reflexivity.
  - apply (cp0_failures Cp0Samples.zero_cp0 Cp0Samples.sample_self).
    exists (VInt 0). split; [reflexivity | split; [exact I | reflexivity]].
  - apply (proj2 (proj2 (cp0_failures Cp0Samples.sample_cp0
                           Cp0Samples.massless_self))
             2 10 1 3 2 5 4 3 Hv Hh Hs Hcp Hcv Hw).
    + eexists. split; [reflexivity | split; [exact I | reflexivity]].
    + eexists. split; [reflexivity | split; [exact I | reflexivity]].
    + reflexivity.
    + lra.
    + lra.
Defined.

End Cp0Facts.
